(** * yokadi: the synchronisation engine ([yokadi/sync/syncmanager.py])

    A shallow embedding of [SyncManager] and of the collaborators it drives
    (the VCS implementation, the functions of [yokadi.sync.pull] and
    [yokadi.sync.dump], the progress interface, [os], [json] and [print]),
    followed by the properties of the engine.

    The methods of [SyncManager] are statements of a state and exception
    monad over a world made of the local state (file system, history, tags,
    database), the log of the calls made to the collaborators and the lines
    printed.  What a collaborator does to the local state is a parameter,
    except for the tags and for the progress interface, which follow the
    spec; so is what [os.path.exists], [os.makedirs] and [os.mkdir] answer
    and do.  The dump is read through a map from the path handed to
    [os.listdir] or [open] to what is found there.  The [while True] of
    [sync] runs on fuel.  JSON numbers are the integers. *)

From Stdlib Require Import ZArith String Ascii DecimalString.
From stdpp Require Import gmap strings list fin_maps.

Local Open Scope string_scope.
Set Warnings "-register-all,-clear-no-such-hyp".


(** ** Python values and helpers *)

Module Py.

(** Exceptions raised by the code and by its collaborators.
    [NotFastForwardError] is the subclass of [VcsImplError] that [sync]
    catches first; [ChainedException msg cause] is
    [raise Exception(msg) from cause]. *)
Inductive Exc : Type :=
| AssertionError (msg : string)
| AttributeError (msg : string)
| NotFastForwardError
| VcsImplError (msg : string)
| TypeError (msg : string)
| KeyError (key : string)
| FileNotFoundError (path : string)
| FileExistsError (path : string)
| IsADirectoryError (path : string)
| NotADirectoryError (path : string)
| JSONDecodeError (path : string)
| OtherError (msg : string)
| ChainedException (msg : string) (cause : Exc).

(** The result of running a statement: a value or a raised exception. *)
Inductive Outcome (A : Type) : Type :=
| Ok (a : A)
| Raise (e : Exc).
Arguments Ok {A} a.
Arguments Raise {A} e.

(** What [json.load] returns.  Numbers are the integers; objects keep their
    members in file order. *)
Inductive json : Type :=
| JNull
| JBool (b : bool)
| JInt (z : Z)
| JStr (s : string)
| JList (l : list json)
| JDict (members : list (string * json)).

(** Hashable values, as they sit in a [set] or as keys of a [dict]:
    [True] and [False] are the integers 1 and 0 there. *)
Inductive PyKey : Type :=
| KNone
| KInt (z : Z)
| KStr (s : string).

#[global] Instance PyKey_eq_dec : EqDecision PyKey.
Proof. solve_decision. Defined.

Definition PyKey_enc (k : PyKey) : unit + Z + string :=
  match k with
  | KNone => inl (inl tt)
  | KInt z => inl (inr z)
  | KStr s => inr s
  end.

Definition PyKey_dec (x : unit + Z + string) : PyKey :=
  match x with
  | inl (inl _) => KNone
  | inl (inr z) => KInt z
  | inr s => KStr s
  end.

#[global] Instance PyKey_countable : Countable PyKey.
Proof.
  apply (inj_countable' PyKey_enc PyKey_dec).
  intros []; reflexivity.
Defined.

(** [hash(v)]: lists and dicts are unhashable. *)
Definition hashable (v : json) : Outcome PyKey :=
  match v with
  | JNull => Ok KNone
  | JBool b => Ok (KInt (if b then 1 else 0))
  | JInt z => Ok (KInt z)
  | JStr s => Ok (KStr s)
  | JList _ => Raise (TypeError "unhashable type: 'list'")
  | JDict _ => Raise (TypeError "unhashable type: 'dict'")
  end.

(** The object a [dict] keeps as a key and [format] shows: equal objects
    are one key, and the dict keeps the one inserted first, so that [True]
    stays [True] there and is not turned into 1. *)
Inductive KeyObject : Type :=
| ONone
| OBool (b : bool)
| OInt (z : Z)
| OStr (s : string).

(** [v] as the key of a dict: lists and dicts are unhashable. *)
Definition key_object (v : json) : Outcome KeyObject :=
  match v with
  | JNull => Ok ONone
  | JBool b => Ok (OBool b)
  | JInt z => Ok (OInt z)
  | JStr s => Ok (OStr s)
  | JList _ => Raise (TypeError "unhashable type: 'list'")
  | JDict _ => Raise (TypeError "unhashable type: 'dict'")
  end.

(** The key an object is found under: [True] and [False] under 1 and 0. *)
Definition key_of (o : KeyObject) : PyKey :=
  match o with
  | ONone => KNone
  | OBool b => KInt (if b then 1 else 0)
  | OInt z => KInt z
  | OStr s => KStr s
  end.

(** [d.get]-like lookup in the members of an object; a later duplicate of a
    key wins, as in [json.load]. *)
Fixpoint members_lookup (k : string) (ms : list (string * json)) : option json :=
  match ms with
  | [] => None
  | (k', v) :: ms' =>
      match members_lookup k ms' with
      | Some v' => Some v'
      | None => if String.eqb k k' then Some v else None
      end
  end.

(** [v[k]] for a string [k]. *)
Definition getitem (v : json) (k : string) : Outcome json :=
  match v with
  | JDict ms =>
      match members_lookup k ms with
      | Some x => Ok x
      | None => Raise (KeyError k)
      end
  | JList _ => Raise (TypeError "list indices must be integers or slices, not str")
  | JStr _ => Raise (TypeError "string indices must be integers")
  | JNull => Raise (TypeError "'NoneType' object is not subscriptable")
  | JBool _ => Raise (TypeError "'bool' object is not subscriptable")
  | JInt _ => Raise (TypeError "'int' object is not subscriptable")
  end.

(** ["{}".format(n)] for an integer. *)
Definition format_int (z : Z) : string :=
  NilZero.string_of_int (Z.to_int z).

(** [s.endswith(suffix)]. *)
Definition endswith (s suffix : string) : bool :=
  let n := String.length s in
  let m := String.length suffix in
  if (m <=? n)%nat then String.eqb (substring (n - m) m s) suffix else false.

(** [s.startswith(prefix)]. *)
Definition startswith (s pre : string) : bool := String.prefix pre s.

(** [sep.join(l)]. *)
Fixpoint join (sep : string) (l : list string) : string :=
  match l with
  | [] => ""
  | [x] => x
  | x :: l' => x ++ sep ++ join sep l'
  end.

(** [os.path.join(a, p)] (posixpath). *)
Definition path_join (a p : string) : string :=
  if startswith p "/" then p
  else if (String.eqb a "" || endswith a "/")%bool then a ++ p
  else a ++ "/" ++ p.

(** [s.rfind(c)]: the index of the last [c], or -1. *)
Fixpoint rfind_from (c : ascii) (s : string) (i : Z) : Z :=
  match s with
  | EmptyString => (-1)%Z
  | String a s' =>
      let r := rfind_from c s' (i + 1)%Z in
      if (0 <=? r)%Z then r else if Ascii.eqb a c then i else (-1)%Z
  end.

Definition rfind (c : ascii) (s : string) : Z := rfind_from c s 0.

(** The [while] of [genericpath._splitext]: is there a character other
    than the dot in [p[filenameIndex:dotIndex]]? *)
Fixpoint has_non_dot (p : string) (filenameIndex : nat) (count : nat) : bool :=
  match count with
  | O => false
  | S count' =>
      match String.get filenameIndex p with
      | Some a => if Ascii.eqb a "."%char then has_non_dot p (S filenameIndex) count' else true
      | None => true
      end
  end.

(** [os.path.splitext(p)] (posixpath). *)
Definition splitext (p : string) : string * string :=
  let sepIndex := rfind "/"%char p in
  let dotIndex := rfind "."%char p in
  if (sepIndex <? dotIndex)%Z
     && has_non_dot p (Z.to_nat (sepIndex + 1)) (Z.to_nat (dotIndex - (sepIndex + 1)))
  then (substring 0 (Z.to_nat dotIndex) p,
        substring (Z.to_nat dotIndex) (String.length p - Z.to_nat dotIndex) p)
  else (p, "").

End Py.
Export Py.

(** ** The world the engine runs in *)

(** A node of the file system: a directory with its entries in the order
    [os.listdir] returns them, or a file with what [json.load] makes of it
    ([None] when the content is not JSON). *)
Inductive Node : Type :=
| Dir (entries : list string)
| File (content : option json).

(** A commit of the dump repository: its label and the tree it records. *)
Record Commit : Type := mkCommit {
  commit_message : string;
  commit_tree : gmap string Node }.

(** The tables of [yokadi.core.db] that are synchronised, and their rows as
    far as the engine reads them. *)
Inductive Table : Type := Project | Task | Alias.

Record Row : Type := mkRow { row_uuid : string }.

(** The collaborator calls the engine makes, as a spy would record them. *)
Inductive Call : Type :=
| VcsInit
| CreateTag (name : string)
| DeleteTag (name : string)
| HasTag (name : string)
| ResetTo (name : string)
| IsWorkTreeClean
| IsUpToDate
| Fetch
| Push
| CommitAll (message : string)
| GetChangesSince (ref : string)
| CreateVersionFile (dir : string)
| GetRemoteDumpVersion
| Merge
| ImportSince (tag : string)
| ImportAll
| Dump
| ClearDump (dir : string)
| ReportProgress (message : string)
| ReportError (message : string)
| Makedirs (path : string)
| Mkdir (path : string).

#[global] Instance Call_eq_dec : EqDecision Call.
Proof. solve_decision. Defined.

(** [ChangeSet]: only [hasChanges()] is used. *)
Record ChangeSet : Type := mkChangeSet { hasChanges : bool }.

Section World.

(** What lies outside the local repository and database: the remote, the
    network.  The engine never looks into it. *)
Context {Ext : Type}.

(** The local state: the file system (the dump directory is the working
    tree), the local history (newest commit first), the tags (each labels
    the history it was put on), the database and the outside. *)
Record Repo : Type := mkRepo {
  fs : gmap string Node;
  history : list Commit;
  tags : gmap string (list Commit);
  database : Table -> list Row;
  outside : Ext }.

Definition set_fs (f : gmap string Node) (r : Repo) : Repo :=
  mkRepo f (history r) (tags r) (database r) (outside r).

Definition set_tags (t : gmap string (list Commit)) (r : Repo) : Repo :=
  mkRepo (fs r) (history r) t (database r) (outside r).

Definition set_history (h : list Commit) (r : Repo) : Repo :=
  mkRepo (fs r) h (tags r) (database r) (outside r).

Definition set_outside (o : Ext) (r : Repo) : Repo :=
  mkRepo (fs r) (history r) (tags r) (database r) o.

(** The state threaded through the engine: the local state, the log of
    collaborator calls and what was printed. *)
Record World : Type := mkWorld {
  repo : Repo;
  log : list Call;
  stdout : list string }.

(** Statements: they see the world, change it, and return or raise. *)
Definition M (A : Type) : Type := World -> Outcome A * World.

Definition ret {A} (a : A) : M A := fun w => (Ok a, w).

Definition bind {A B} (m : M A) (f : A -> M B) : M B :=
  fun w =>
    match m w with
    | (Ok a, w') => f a w'
    | (Raise e, w') => (Raise e, w')
    end.

Definition raise {A} (e : Exc) : M A := fun w => (Raise e, w).

(** [assert cond, msg]. *)
Definition assert (cond : bool) (msg : string) : M unit :=
  if cond then ret tt else raise (AssertionError msg).

(** [try: m except ...: handler]: [handler] says which exceptions it
    catches. *)
Definition try_except {A} (m : M A) (handler : Exc -> option (M A)) : M A :=
  fun w =>
    match m w with
    | (Ok a, w') => (Ok a, w')
    | (Raise e, w') =>
        match handler e with
        | Some h => h w'
        | None => (Raise e, w')
        end
    end.

(** A logged call of a collaborator acting on the local state. *)
Definition invoke {A} (c : Call) (f : Repo -> Outcome A * Repo) : M A :=
  fun w =>
    let '(r, rp) := f (repo w) in
    (r, mkWorld rp (log w ++ [c]) (stdout w)).

(** A read of the local state that is not a collaborator call. *)
Definition query {A} (f : Repo -> Outcome A) : M A :=
  fun w => (f (repo w), w).

(** [print(s)]. *)
Definition print (s : string) : M unit :=
  fun w => (Ok tt, mkWorld (repo w) (log w) (stdout w ++ [s])).

End World.

Arguments Repo : clear implicits.
Arguments World : clear implicits.
Arguments M : clear implicits.

(** Statements are sequenced with stdpp's [x ← m; k] and [m;; k]. *)
#[global] Instance M_ret {Ext} : MRet (M Ext) := fun A => ret.
#[global] Instance M_bind {Ext} : MBind (M Ext) := fun A B f m => bind m f.

(** ** Collaborators *)

(** The iteration order of a Python [set] is not specified: any order of its
    elements. *)
Record SetOrder : Type := mkSetOrder {
  iter_set : gset PyKey -> list PyKey;
  iter_set_perm : forall s, iter_set s ≡ₚ elements s }.

Section Collaborators.

Context {Ext : Type}.

(** [vcsImpl]: the methods whose effect the VCS implementation decides.
    Each acts on the local state and returns or raises ([push] with
    [NotFastForwardError] or another [VcsImplError]). *)
Record VcsImpl : Type := mkVcsImpl {
  srcDir : string;
  vcs_init : Repo Ext -> Outcome unit * Repo Ext;
  vcs_isWorkTreeClean : Repo Ext -> Outcome bool * Repo Ext;
  vcs_isUpToDate : Repo Ext -> Outcome bool * Repo Ext;
  vcs_fetch : Repo Ext -> Outcome unit * Repo Ext;
  vcs_push : Repo Ext -> Outcome unit * Repo Ext;
  vcs_commitAll : string -> Repo Ext -> Outcome unit * Repo Ext;
  vcs_getChangesSince : string -> Repo Ext -> Outcome ChangeSet * Repo Ext }.

(** The functions of [yokadi.sync.dump] and [yokadi.sync.pull] whose effect
    is theirs to decide. *)
Record SyncLib : Type := mkSyncLib {
  lib_createVersionFile : string -> Repo Ext -> Outcome unit * Repo Ext;
  lib_getRemoteDumpVersion : Repo Ext -> Outcome Z * Repo Ext;
  lib_merge : Repo Ext -> Outcome unit * Repo Ext;
  lib_importSince : string -> Repo Ext -> Outcome unit * Repo Ext;
  lib_importAll : Repo Ext -> Outcome unit * Repo Ext;
  lib_dump : Repo Ext -> Outcome unit * Repo Ext;
  lib_clearDump : string -> Repo Ext -> Outcome unit * Repo Ext }.

(** *** Tags *)

(** The tree a history stands for: that of its newest commit. *)
Definition tree_of (h : list Commit) : gmap string Node :=
  match h with
  | c :: _ => commit_tree c
  | [] => ∅
  end.

(** Modelled from the spec: [vcsImpl.createTag(name)] (the VCS
    implementation is not part of the engine's file).  The tag is a movable,
    single-instance label on the history: it is put on the current
    history. *)
Definition createTag (name : string) : M Ext unit :=
  invoke (CreateTag name)
    (fun r => (Ok tt, set_tags (<[name := history r]> (tags r)) r)).

(** Modelled from the spec: [vcsImpl.deleteTag(name)]. *)
Definition deleteTag (name : string) : M Ext unit :=
  invoke (DeleteTag name)
    (fun r => (Ok tt, set_tags (delete name (tags r)) r)).

(** Modelled from the spec: [vcsImpl.hasTag(name)]. *)
Definition hasTag (name : string) : M Ext bool :=
  invoke (HasTag name)
    (fun r => (Ok (bool_decide (is_Some (tags r !! name))), r)).

(** Modelled from the spec: [vcsImpl.resetTo(name)] resets the working tree
    and the history to what the tag labels. *)
Definition resetTo (name : string) : M Ext unit :=
  invoke (ResetTo name)
    (fun r =>
       match tags r !! name with
       | Some h => (Ok tt, set_fs (tree_of h) (set_history h r))
       | None => (Raise (VcsImplError ("unknown revision " ++ name)), r)
       end).

(** *** The other methods of [vcsImpl] *)

Definition init (v : VcsImpl) : M Ext unit := invoke VcsInit (vcs_init v).
Definition isWorkTreeClean (v : VcsImpl) : M Ext bool :=
  invoke IsWorkTreeClean (vcs_isWorkTreeClean v).
Definition isUpToDate (v : VcsImpl) : M Ext bool :=
  invoke IsUpToDate (vcs_isUpToDate v).
Definition fetch (v : VcsImpl) : M Ext unit := invoke Fetch (vcs_fetch v).
Definition vcs_push_call (v : VcsImpl) : M Ext unit := invoke Push (vcs_push v).
Definition commitAll (v : VcsImpl) (message : string) : M Ext unit :=
  invoke (CommitAll message) (vcs_commitAll v message).
Definition getChangesSince (v : VcsImpl) (ref : string) : M Ext ChangeSet :=
  invoke (GetChangesSince ref) (vcs_getChangesSince v ref).

(** *** [yokadi.sync.dump] and [yokadi.sync.pull] *)

Definition createVersionFile (l : SyncLib) (dir : string) : M Ext unit :=
  invoke (CreateVersionFile dir) (lib_createVersionFile l dir).
Definition getRemoteDumpVersion (l : SyncLib) : M Ext Z :=
  invoke GetRemoteDumpVersion (lib_getRemoteDumpVersion l).
Definition merge (l : SyncLib) : M Ext unit := invoke Merge (lib_merge l).
Definition importSince (l : SyncLib) (tag : string) : M Ext unit :=
  invoke (ImportSince tag) (lib_importSince l tag).
Definition importAll_call (l : SyncLib) : M Ext unit :=
  invoke ImportAll (lib_importAll l).

(** *** [pullUi] *)

(** Modelled from the spec: [pullUi.reportProgress(message)] and
    [pullUi.reportError(message)] are side-effecting reports; here they are
    recorded in the log. *)
Definition reportProgress (message : string) : M Ext unit :=
  invoke (ReportProgress message) (fun r => (Ok tt, r)).

Definition reportError (message : string) : M Ext unit :=
  invoke (ReportError message) (fun r => (Ok tt, r)).

(** *** [os] and [json] on the file system *)

(** [os.path.exists], [os.makedirs] and [os.mkdir].  What a path names,
    which of its ancestors are missing and whether a directory can be made
    there is the operating system's to decide: [path_exists] answers on the
    local state, [makedirs] and [mkdir] act on it and return or raise. *)
Record Os : Type := mkOs {
  path_exists : string -> Repo Ext -> bool;
  makedirs : string -> Repo Ext -> Outcome unit * Repo Ext;
  mkdir : string -> Repo Ext -> Outcome unit * Repo Ext }.

(** [os.path.exists(path)]. *)
Definition os_path_exists (os : Os) (path : string) : M Ext bool :=
  query (fun r => Ok (path_exists os path r)).

(** [os.makedirs(path)]. *)
Definition os_makedirs (os : Os) (path : string) : M Ext unit :=
  invoke (Makedirs path) (makedirs os path).

(** [os.mkdir(path)]. *)
Definition os_mkdir (os : Os) (path : string) : M Ext unit :=
  invoke (Mkdir path) (mkdir os path).

(** [os.listdir(path)]. *)
Definition os_listdir (path : string) : M Ext (list string) :=
  query (fun r =>
    match fs r !! path with
    | Some (Dir es) => Ok es
    | Some (File _) => Raise (NotADirectoryError path)
    | None => Raise (FileNotFoundError path)
    end).

(** What [with open(path) as fp: json.load(fp)] gives on a file system. *)
Definition read_json (f : gmap string Node) (path : string) : Outcome json :=
  match f !! path with
  | Some (File (Some j)) => Ok j
  | Some (File None) => Raise (JSONDecodeError path)
  | Some (Dir _) => Raise (IsADirectoryError path)
  | None => Raise (FileNotFoundError path)
  end.

(** [with open(path) as fp: json.load(fp)]. *)
Definition load_json (path : string) : M Ext json :=
  query (fun r => read_json (fs r) path).

(** Lifting of a pure result. *)
Definition lift {A} (o : Outcome A) : M Ext A := fun w => (o, w).

(** [for x in l: body(x)]. *)
Fixpoint for_each {A} (l : list A) (body : A -> M Ext unit) : M Ext unit :=
  match l with
  | [] => mret tt
  | x :: l' => body x;; for_each l' body
  end.

End Collaborators.

Arguments VcsImpl : clear implicits.
Arguments SyncLib : clear implicits.
Arguments Os : clear implicits.

(** ** The engine: [SyncManager] *)

Definition BEFORE_MERGE_TAG : string := "before-merge".

(** Modelled from the spec: the names of the three collection directories
    ([yokadi.sync.ALIASES_DIRNAME], [PROJECTS_DIRNAME], [TASKS_DIRNAME]). *)
Definition ALIASES_DIRNAME : string := "aliases".
Definition PROJECTS_DIRNAME : string := "projects".
Definition TASKS_DIRNAME : string := "tasks".

(** How a [while True] iteration ends. *)
Inductive LoopStep : Type :=
| Break
| Continue
| Return (b : bool).

Section SyncManager.

Context {Ext : Type}.

(** [yokadi.sync.VERSION], the dump version the engine supports. *)
Variable VERSION : Z.

(** The functions imported from [yokadi.sync.dump] and [yokadi.sync.pull]. *)
Variable lib : SyncLib Ext.

(** The module [os]. *)
Variable os : Os Ext.

(** The iteration order of sets. *)
Variable order : SetOrder.

(** [self]: [session] is [None] or a database session. *)
Record SyncManager : Type := mkSyncManager {
  vcsImpl : VcsImpl Ext;
  _dumpDir : string;
  session : bool }.

(** [SyncManager.__init__(session=..., vcsImpl=...)]: the object, or the
    assertion failure when there is no [vcsImpl]. *)
Definition SyncManager_init (session : bool) (vcsImpl : option (VcsImpl Ext))
    : Outcome SyncManager :=
  match vcsImpl with
  | Some v => Ok (mkSyncManager v (srcDir v) session)
  | None => Raise (AssertionError "vcsImpl cannot be None")
  end.

(** [with self._mergeOperation(): body].  The generator creates the tag,
    yields to the body, and deletes the tag when it is resumed; an
    exception of the body is thrown into the generator at the [yield] and
    leaves it there. *)
Definition _mergeOperation {A} (self : SyncManager) (body : M Ext A) : M Ext A :=
  createTag BEFORE_MERGE_TAG;;
  a ← body;
  deleteTag BEFORE_MERGE_TAG;;
  mret a.

Definition initDumpRepository (self : SyncManager) : M Ext unit :=
  e ← os_path_exists os (_dumpDir self);
  assert (negb e) ("Dump dir " ++ _dumpDir self ++ " should not already exist");;
  os_makedirs os (_dumpDir self);;
  init (vcsImpl self);;
  createVersionFile lib (_dumpDir self);;
  for_each [ALIASES_DIRNAME; PROJECTS_DIRNAME; TASKS_DIRNAME]
    (fun dirname =>
       let path := path_join (_dumpDir self) dirname in
       os_mkdir os path);;
  commitAll (vcsImpl self) "Created".

Definition isMergeInProgress (self : SyncManager) : M Ext bool :=
  hasTag BEFORE_MERGE_TAG.

Definition abortMerge (self : SyncManager) : M Ext unit :=
  resetTo BEFORE_MERGE_TAG;;
  deleteTag BEFORE_MERGE_TAG.

Definition hasChangesToCommit (self : SyncManager) : M Ext bool :=
  c ← isWorkTreeClean (vcsImpl self);
  mret (negb c).

Definition hasChangesToImport (self : SyncManager) : M Ext bool :=
  t ← hasTag BEFORE_MERGE_TAG;
  assert t "";;
  changes ← getChangesSince (vcsImpl self) BEFORE_MERGE_TAG;
  mret (hasChanges changes).

Definition hasChangesToPush (self : SyncManager) : M Ext bool :=
  changes ← getChangesSince (vcsImpl self) "origin/master";
  mret (hasChanges changes).

Definition upgrade_needed_msg (remote : Z) : string :=
  "Remote dump version is " ++ format_int remote ++ " but Yokadi expects version "
  ++ format_int VERSION ++ "." ++ String "010" ""
  ++ "You need to update your version of Yokadi to be able to synchronize your database.".

Definition downgrade_conflict_msg (remote : Z) : string :=
  "Remote dump version is " ++ format_int remote ++ " but Yokadi expects version "
  ++ format_int VERSION ++ "." ++ String "010" ""
  ++ "The remote dump has changes at version " ++ format_int remote
  ++ " which have not been imported in your local Yokadi."
  ++ " Your local Yokadi cannot import changes from this remote dump version. You need to update the"
  ++ " version of Yokadi which made these changes and sync them again.".

Definition _checkDumpVersion (self : SyncManager) : M Ext bool :=
  remoteDumpVersion ← getRemoteDumpVersion lib;
  if (VERSION <? remoteDumpVersion)%Z then
    reportError (upgrade_needed_msg remoteDumpVersion);;
    mret false
  else
    stale ← (if (remoteDumpVersion <? VERSION)%Z
             then u ← isUpToDate (vcsImpl self); mret (negb u)
             else mret false);
    if stale : bool then
      reportError (downgrade_conflict_msg remoteDumpVersion);;
      mret false
    else
      mret true.

(** The [with self._mergeOperation()] statement of [pull] and the
    [return True] after it. *)
Definition pull_merge (self : SyncManager) : M Ext bool :=
  _mergeOperation self
    (merge lib;;
     c ← hasChangesToImport self;
     if c : bool then
       reportProgress "Importing changes";;
       importSince lib BEFORE_MERGE_TAG
     else
       reportProgress "No remote changes");;
  mret true.

Definition pull (self : SyncManager) : M Ext bool :=
  assert (session self) "";;
  clean ← isWorkTreeClean (vcsImpl self);
  assert clean "";;
  reportProgress "Pulling remote changes";;
  fetch (vcsImpl self);;
  ok ← _checkDumpVersion self;
  if negb ok then mret false
  else pull_merge self.

Definition importAll (self : SyncManager) : M Ext unit :=
  assert (session self) "";;
  _mergeOperation self (importAll_call lib).

Definition push (self : SyncManager) : M Ext unit :=
  vcs_push_call (vcsImpl self).

(** The [try] statement of [sync]: what the iteration does after it. *)
Definition sync_push (self : SyncManager) : M Ext LoopStep :=
  try_except
    (push self;; mret Break)
    (fun exc =>
       match exc with
       | NotFastForwardError =>
           Some (reportProgress "Remote has other changes, need to pull again";;
                 mret Continue)
       | VcsImplError msg =>
           Some (reportError ("Failed to push: " ++ msg);;
                 mret (Return false))
       | _ => None
       end).

(** One iteration of the [while True] of [sync]. *)
Definition sync_iteration (self : SyncManager) : M Ext LoopStep :=
  ok ← pull self;
  if negb ok then mret (Return false)
  else
    c ← hasChangesToPush self;
    if negb c then mret Break
    else
      reportProgress "Pushing local changes";;
      sync_push self.

(** The [while True] of [sync] followed by its [return True]; [None] when
    [fuel] iterations did not end the loop. *)
Fixpoint sync_loop (fuel : nat) (self : SyncManager) : M Ext (option bool) :=
  match fuel with
  | O => mret None
  | S fuel' =>
      step ← sync_iteration self;
      match step with
      | Return b => mret (Some b)
      | Break => mret (Some true)
      | Continue => sync_loop fuel' self
      end
  end.

(** The [if self.hasChangesToCommit()] statement that opens [sync]. *)
Definition sync_commit (self : SyncManager) : M Ext unit :=
  c ← hasChangesToCommit self;
  if c : bool then
    reportProgress "Committing local changes";;
    commitAll (vcsImpl self) "s_sync"
  else mret tt.

Definition sync (fuel : nat) (self : SyncManager) : M Ext (option bool) :=
  sync_commit self;;
  sync_loop fuel self.

Definition clearDump (self : SyncManager) : M Ext unit :=
  invoke (ClearDump (_dumpDir self)) (lib_clearDump lib (_dumpDir self)).

Definition dump (self : SyncManager) : M Ext unit :=
  assert (session self) "";;
  invoke Dump (lib_dump lib).

(** *** [checkDumpIntegrity] *)

Definition nl : string := String "010" "".

(** The items of [sep.join(iterable)] must all be [str]. *)
Fixpoint str_items (l : list PyKey) : Outcome (list string) :=
  match l with
  | [] => Ok []
  | KStr s :: l' =>
      match str_items l' with
      | Ok r => Ok (s :: r)
      | Raise e => Raise e
      end
  | _ :: _ => Raise (TypeError "sequence item: expected str instance")
  end.

(** [sep.join(s)] for a set [s]. *)
Definition join_set (sep : string) (s : gset PyKey) : Outcome string :=
  match str_items (iter_set order s) with
  | Ok l => Ok (join sep l)
  | Raise e => Raise e
  end.

(** [self.session.query(table).all()]. *)
Definition session_query_all (self : SyncManager) (table : Table) : M Ext (list Row) :=
  if session self then query (fun r => Ok (database r table))
  else raise (AttributeError "'NoneType' object has no attribute 'query'").

(** The [for name in os.listdir(objectDir)] of [_checkItems]. *)
Fixpoint _checkItems_scan (objectDir : string) (names : list string)
    (dumpUuids : gset PyKey) : M Ext (gset PyKey) :=
  match names with
  | [] => mret dumpUuids
  | name :: names' =>
      if negb (endswith name ".json") then
        _checkItems_scan objectDir names' dumpUuids
      else
        let objectPath := path_join objectDir name in
        dct ← load_json objectPath;
        v ← lift (getitem dct "uuid");
        k ← lift (hashable v);
        _checkItems_scan objectDir names' ({[k]} ∪ dumpUuids)
  end.

(** [print(heading.format('\n'.join(missing)))] when [missing] is not
    empty. *)
Definition report_missing (heading : string) (missing : gset PyKey) : M Ext unit :=
  if bool_decide (missing ≠ ∅) then
    m ← lift (join_set nl missing);
    print (heading ++ nl ++ m ++ nl)
  else mret tt.

Definition _checkItems (self : SyncManager) (dirname : string) (table : Table) : M Ext unit :=
  print ("# Checking all " ++ dirname ++ " are there");;
  let objectDir := path_join (_dumpDir self) dirname in
  names ← os_listdir objectDir;
  dumpUuids ← _checkItems_scan objectDir names ∅;
  rows ← session_query_all self table;
  let dbUuids : gset PyKey := list_to_set ((fun x => KStr (row_uuid x)) <$> rows) in
  if bool_decide (dbUuids ≠ dumpUuids) then
    report_missing "## Missing DB items:" (dumpUuids ∖ dbUuids);;
    report_missing "## Missing dump items:" (dbUuids ∖ dumpUuids)
  else mret tt.

(** [dct.setdefault(key, []).append(item)] on a dict kept in insertion
    order: the item joins the list of the key equal to [key] when there is
    one, and that key stays the object it was. *)
Fixpoint group_add (key : KeyObject) (item : json) (dct : list (KeyObject * list json))
    : list (KeyObject * list json) :=
  match dct with
  | [] => [(key, [item])]
  | (k, items) :: dct' =>
      if decide (key_of key = key_of k) then (k, (items ++ [item])%list) :: dct'
      else (k, items) :: group_add key item dct'
  end.

Fixpoint findConflicts_scan (jsonDirPath fieldName : string) (names : list string)
    (dct : list (KeyObject * list json)) : M Ext (list (KeyObject * list json)) :=
  match names with
  | [] => mret dct
  | name :: names' =>
      if negb (endswith name ".json") then
        findConflicts_scan jsonDirPath fieldName names' dct
      else
        item ← load_json (path_join jsonDirPath name);
        v ← lift (getitem item fieldName);
        k ← lift (key_object v);
        findConflicts_scan jsonDirPath fieldName names' (group_add k item dct)
  end.

(** Modelled from the spec: [yokadi.sync.pull.findConflicts(jsonDirPath,
    fieldName)] groups the dump items of the directory by their field and
    keeps the values occurring in more than one item, each with the list
    of its items. *)
Definition findConflicts (jsonDirPath fieldName : string)
    : M Ext (list (KeyObject * list json)) :=
  names ← os_listdir jsonDirPath;
  dct ← findConflicts_scan jsonDirPath fieldName names [];
  mret (filter (fun kv => (1 <? length kv.2)%nat = true) dct).

(** ["{}".format(key)]. *)
Definition format_key (k : KeyObject) : string :=
  match k with
  | ONone => "None"
  | OBool true => "True"
  | OBool false => "False"
  | OInt z => format_int z
  | OStr s => s
  end.

(** [v + suffix] for a string [suffix]. *)
Definition str_add (v : json) (suffix : string) : Outcome string :=
  match v with
  | JStr s => Ok (s ++ suffix)
  | _ => Raise (TypeError "unsupported operand type(s) for +")
  end.

Definition _checkUnicity (self : SyncManager) (dirname : string) : M Ext unit :=
  print ("# Checking " ++ dirname ++ " unicity");;
  let jsonDirPath := path_join (_dumpDir self) dirname in
  conflicts ← findConflicts jsonDirPath "name";
  for_each conflicts
    (fun '(name, conflictList) =>
       print ("## " ++ format_key name ++ " exists "
              ++ format_int (Z.of_nat (length conflictList)) ++ " times");;
       for_each conflictList
         (fun conflict =>
            u ← lift (getitem (JList conflictList) "uuid");
            file ← lift (str_add u ".json");
            let path := path_join jsonDirPath file in
            print path)).

(** [x not in projectUuids] for a set of strings. *)
Definition not_in (k : PyKey) (projectUuids : gset string) : bool :=
  match k with
  | KStr s => bool_decide (s ∉ projectUuids)
  | _ => true
  end.

(** The [for taskName in os.listdir(taskDir)] of [_checkTaskProjects], with
    its variable [first]. *)
Fixpoint _checkTaskProjects_scan (taskDir : string) (projectUuids : gset string)
    (taskNames : list string) (first : bool) : M Ext unit :=
  match taskNames with
  | [] => mret tt
  | taskName :: taskNames' =>
      let taskPath := path_join taskDir taskName in
      first' ← try_except
        (dct ← load_json taskPath;
         v ← lift (getitem dct "projectUuid");
         k ← lift (hashable v);
         if not_in k projectUuids then
           (if first then print "These tasks point to a non existing project" else mret tt);;
           print taskPath;;
           mret false
         else mret first)
        (fun exc => Some (raise (ChainedException ("Error in " ++ taskPath) exc)));
      _checkTaskProjects_scan taskDir projectUuids taskNames' first'
  end.

Definition _checkTaskProjects (self : SyncManager) : M Ext unit :=
  print "# Checking all tasks have an existing project";;
  let projectDir := path_join (_dumpDir self) PROJECTS_DIRNAME in
  let taskDir := path_join (_dumpDir self) TASKS_DIRNAME in
  projectNames ← os_listdir projectDir;
  let projectUuids : gset string := list_to_set ((fun x => (splitext x).1) <$> projectNames) in
  taskNames ← os_listdir taskDir;
  _checkTaskProjects_scan taskDir projectUuids taskNames true.

Definition checkDumpIntegrity (self : SyncManager) : M Ext unit :=
  assert (session self) "";;
  _checkItems self PROJECTS_DIRNAME Project;;
  _checkItems self TASKS_DIRNAME Task;;
  _checkItems self ALIASES_DIRNAME Alias;;
  _checkUnicity self PROJECTS_DIRNAME;;
  _checkUnicity self ALIASES_DIRNAME;;
  _checkTaskProjects self.

End SyncManager.

Arguments SyncManager : clear implicits.

(** ** A stub of the collaborators

    A scripted VCS and library and a small operating system, in the manner
    of a test double: the outside holds the answers the collaborators
    give. *)

Module Stub.

Record Outside : Type := mkOutside {
  remote_version : Z;
  up_to_date : bool;
  clean : bool;
  unpushed : bool;
  incoming : bool;
  push_script : list Exc }.

Definition with_push (unp : bool) (script : list Exc) (o : Outside) : Outside :=
  mkOutside (remote_version o) (up_to_date o) (clean o) unp (incoming o) script.

Definition with_clean (c : bool) (o : Outside) : Outside :=
  mkOutside (remote_version o) (up_to_date o) c (unpushed o) (incoming o) (push_script o).

Definition vcs (dir : string) : VcsImpl Outside :=
  {| srcDir := dir;
     vcs_init := fun r => (Ok tt, r);
     vcs_isWorkTreeClean := fun r => (Ok (clean (outside r)), r);
     vcs_isUpToDate := fun r => (Ok (up_to_date (outside r)), r);
     vcs_fetch := fun r => (Ok tt, r);
     vcs_push := fun r =>
       match push_script (outside r) with
       | e :: script => (Raise e, set_outside (with_push (unpushed (outside r)) script (outside r)) r)
       | [] => (Ok tt, set_outside (with_push false [] (outside r)) r)
       end;
     vcs_commitAll := fun message r =>
       (Ok tt, set_outside (with_clean true (outside r))
                 (set_history (mkCommit message (fs r) :: history r) r));
     vcs_getChangesSince := fun ref r =>
       (Ok (mkChangeSet (if String.eqb ref "origin/master"
                         then unpushed (outside r) else incoming (outside r))), r) |}.

Definition lib : SyncLib Outside :=
  {| lib_createVersionFile := fun dir r =>
       (Ok tt, set_fs (<[path_join dir "version" := File (Some (JInt 2))]> (fs r)) r);
     lib_getRemoteDumpVersion := fun r => (Ok (remote_version (outside r)), r);
     lib_merge := fun r => (Ok tt, r);
     lib_importSince := fun _ r => (Ok tt, r);
     lib_importAll := fun r => (Ok tt, r);
     lib_dump := fun r => (Ok tt, r);
     lib_clearDump := fun _ r => (Ok tt, r) |}.

(** [posixpath.split(p)]: the directory and the last component. *)
Fixpoint rstrip_slash_rev (l : list ascii) : list ascii :=
  match l with
  | a :: l' => if Ascii.eqb a "/"%char then rstrip_slash_rev l' else l
  | [] => []
  end.

Definition rstrip_slash (s : string) : string :=
  string_of_list_ascii (rev (rstrip_slash_rev (rev (list_ascii_of_string s)))).

Definition path_split (p : string) : string * string :=
  let i := Z.to_nat (rfind "/"%char p + 1) in
  let head := substring 0 i p in
  let tail := substring i (String.length p - i) p in
  (if String.eqb (rstrip_slash head) "" then head else rstrip_slash head, tail).

(** A new empty directory at [path], entered in the listing of its parent
    when the parent is a directory of the file system. *)
Definition add_dir (path : string) (f : gmap string Node) : gmap string Node :=
  let '(head, tail) := path_split path in
  let f' := match f !! head with
            | Some (Dir es) => <[head := Dir (es ++ [tail])]> f
            | _ => f
            end in
  <[path := Dir []]> f'.

(** An operating system as small as the samples need it: a path names what
    the file system holds under its very spelling, [makedirs] makes the
    directory itself, and [mkdir] wants the parent to be a directory. *)
Definition os : Os Outside :=
  {| path_exists := fun path r => bool_decide (is_Some (fs r !! path));
     makedirs := fun path r =>
       match fs r !! path with
       | Some _ => (Raise (FileExistsError path), r)
       | None => (Ok tt, set_fs (add_dir path (fs r)) r)
       end;
     mkdir := fun path r =>
       match fs r !! path with
       | Some _ => (Raise (FileExistsError path), r)
       | None =>
           match fs r !! (path_split path).1 with
           | Some (Dir _) => (Ok tt, set_fs (add_dir path (fs r)) r)
           | Some (File _) => (Raise (NotADirectoryError path), r)
           | None => (Raise (FileNotFoundError path), r)
           end
       end |}.

(** Sets iterated in the order of [elements]. *)
Definition order : SetOrder := mkSetOrder elements (fun s => reflexivity _).

(** [SyncManager(session=session, vcsImpl=vcs)] for the dump [/dump]. *)
Definition manager : SyncManager Outside := mkSyncManager (vcs "/dump") "/dump" true.

Definition world (f : gmap string Node) (db : Table -> list Row) (o : Outside)
    : World Outside :=
  mkWorld (mkRepo f [] ∅ db o) [] [].

Definition no_rows : Table -> list Row := fun _ => [].

End Stub.


(** ** Observations

    What the statements below say about a world and about a dump. *)

(** The calls that belong to a merge operation. *)
Definition merge_call (c : Call) : bool :=
  match c with
  | CreateTag _ | DeleteTag _ | Merge | ImportSince _ | ImportAll => true
  | _ => false
  end.

(** The calls of a completed bootstrap of the dump directory [d]. *)
Definition bootstrap_calls (d : string) : list Call :=
  [Makedirs d; VcsInit; CreateVersionFile d;
   Mkdir (path_join d "aliases"); Mkdir (path_join d "projects"); Mkdir (path_join d "tasks");
   CommitAll "Created"].

(** The hashable value of a field of the JSON file at [path], or what
    reading it raises. *)
Definition field_key (f : gmap string Node) (path field : string) : Outcome PyKey :=
  match read_json f path with
  | Ok dct =>
      match getitem dct field with
      | Ok v => hashable v
      | Raise e => Raise e
      end
  | Raise e => Raise e
  end.

(** The names of a listing that end in [.json]. *)
Definition json_names (names : list string) : list string :=
  filter (fun name => endswith name ".json" = true) names.

(** What [print] shows for a set [missing] under [heading]: nothing when
    the set is empty, else one text that lists its elements. *)
Definition reported (heading : string) (missing : gset PyKey) (lines : list string) : Prop :=
  (missing = ∅ /\ lines = [])
  \/ (missing ≠ ∅
      /\ exists l, KStr <$> l ≡ₚ elements missing
                   /\ lines = [heading ++ nl ++ join nl l ++ nl]).

(** The file name without its extension, as [_checkTaskProjects] takes the
    project UUIDs. *)
Definition stem (name : string) : string := (splitext name).1.

(** Does the task file [name] hold a [projectUuid] outside [projectUuids]? *)
Definition dangling (f : gmap string Node) (taskDir : string) (projectUuids : gset string)
    (name : string) : bool :=
  match field_key f (path_join taskDir name) "projectUuid" with
  | Ok k => not_in k projectUuids
  | Raise _ => false
  end.

(** Can the task file [name] be read up to its [projectUuid]? *)
Definition readable_task (f : gmap string Node) (taskDir : string) (name : string) : Prop :=
  exists k, field_key f (path_join taskDir name) "projectUuid" = Ok k.

Definition NON_EXISTING : string := "These tasks point to a non existing project".

(** What the scan of readable task files prints: the heading when [first]
    still holds, then the paths of the dangling ones. *)
Definition dangling_lines (first : bool) (paths : list string) : list string :=
  match paths with
  | [] => []
  | _ => (if first then [NON_EXISTING] else []) ++ paths
  end.

(** In a log of calls, is every [Push] after a [Fetch] that no other
    [Push] follows?  [fetched] says whether such a [Fetch] came before. *)
Fixpoint pushes_follow_fetch (fetched : bool) (calls : list Call) : bool :=
  match calls with
  | [] => true
  | Fetch :: calls' => pushes_follow_fetch true calls'
  | Push :: calls' => fetched && pushes_follow_fetch false calls'
  | _ :: calls' => pushes_follow_fetch fetched calls'
  end.

Section Observations.

Context {Ext : Type}.

(** A statement that only adds calls to the log, none of them [Push]. *)
Definition never_pushes {A} (m : M Ext A) : Prop :=
  forall w, exists l, log (m w).2 = (log w ++ l)%list /\ (Push ∉ l).

(** The world right after the checkpoint tag was created in [w]. *)
Definition tagged (w : World Ext) : World Ext :=
  mkWorld (set_tags (<[BEFORE_MERGE_TAG := history (repo w)]> (tags (repo w))) (repo w))
    (log w ++ [CreateTag BEFORE_MERGE_TAG]) (stdout w).

(** The world right after the checkpoint tag was deleted in [w]. *)
Definition untagged (w : World Ext) : World Ext :=
  mkWorld (set_tags (delete BEFORE_MERGE_TAG (tags (repo w))) (repo w))
    (log w ++ [DeleteTag BEFORE_MERGE_TAG]) (stdout w).

(** Does [isMergeInProgress()] answer [b] in [w]? *)
Definition merge_in_progress (self : SyncManager Ext) (w : World Ext) (b : bool) : Prop :=
  (isMergeInProgress self w).1 = Ok b.

(** The world after [lines] were printed. *)
Definition printed (w : World Ext) (lines : list string) : World Ext :=
  mkWorld (repo w) (log w) (stdout w ++ lines).

(** The referential check as the spec words it, for one world: every task
    file of the listing with a dangling [projectUuid] has its path printed,
    and every task file that cannot be read makes the check raise the
    exception that names it. *)
Definition every_task_checked (self : SyncManager Ext) (w : World Ext) : Prop :=
  forall projectNames taskNames name,
    fs (repo w) !! path_join (_dumpDir self) PROJECTS_DIRNAME = Some (Dir projectNames) ->
    fs (repo w) !! path_join (_dumpDir self) TASKS_DIRNAME = Some (Dir taskNames) ->
    name ∈ taskNames ->
    let taskPath := path_join (path_join (_dumpDir self) TASKS_DIRNAME) name in
    (forall k, field_key (fs (repo w)) taskPath "projectUuid" = Ok k ->
               not_in k (list_to_set (stem <$> projectNames)) = true ->
               taskPath ∈ stdout (_checkTaskProjects self w).2)
    /\ (forall exc, field_key (fs (repo w)) taskPath "projectUuid" = Raise exc ->
                    (_checkTaskProjects self w).1
                    = Raise (ChainedException ("Error in " ++ taskPath) exc)).

End Observations.

Module Samples.

Import Stub.

Definition item (fields : list (string * string)) : Node :=
  File (Some (JDict ((fun kv => (kv.1, JStr kv.2)) <$> fields))).

(** A dump with two project files of the same name. *)
Definition twin_projects : gmap string Node :=
  list_to_map
    [("/dump", Dir ["version"; "aliases"; "projects"; "tasks"]);
     ("/dump/aliases", Dir []);
     ("/dump/projects", Dir ["p1.json"; "p2.json"]);
     ("/dump/projects/p1.json", item [("uuid", "p1"); ("name", "work")]);
     ("/dump/projects/p2.json", item [("uuid", "p2"); ("name", "work")]);
     ("/dump/tasks", Dir [])].

(** A dump whose first task file is not JSON and whose second task points
    to a project that is not there. *)
Definition broken_then_dangling : gmap string Node :=
  list_to_map
    [("/dump", Dir ["version"; "aliases"; "projects"; "tasks"]);
     ("/dump/aliases", Dir []);
     ("/dump/projects", Dir ["p1.json"]);
     ("/dump/projects/p1.json", item [("uuid", "p1"); ("name", "work")]);
     ("/dump/tasks", Dir ["t0.json"; "t1.json"]);
     ("/dump/tasks/t0.json", File None);
     ("/dump/tasks/t1.json", item [("uuid", "t1"); ("projectUuid", "gone")])].

(** A dump with a task of an existing project, a task that points to a
    project that is not there, and a task file that is not JSON. *)
Definition dangling_then_broken : gmap string Node :=
  list_to_map
    [("/dump", Dir ["version"; "aliases"; "projects"; "tasks"]);
     ("/dump/aliases", Dir []);
     ("/dump/projects", Dir ["p1.json"]);
     ("/dump/projects/p1.json", item [("uuid", "p1"); ("name", "work")]);
     ("/dump/tasks", Dir ["t0.json"; "t1.json"; "t2.json"]);
     ("/dump/tasks/t0.json", item [("uuid", "t0"); ("projectUuid", "p1")]);
     ("/dump/tasks/t1.json", item [("uuid", "t1"); ("projectUuid", "gone")]);
     ("/dump/tasks/t2.json", File None)].

(** A projects directory with a file that is not an item, and an item whose
    UUID is not its file name; the database has another project. *)
Definition renamed_project : gmap string Node :=
  list_to_map
    [("/dump", Dir ["version"; "aliases"; "projects"; "tasks"]);
     ("/dump/projects", Dir ["notes.txt"; "p1.json"]);
     ("/dump/projects/notes.txt", File None);
     ("/dump/projects/p1.json", item [("uuid", "abc"); ("name", "work")])].

Definition one_project (uuid : string) : Table -> list Row :=
  fun table => match table with Project => [mkRow uuid] | _ => [] end.

Definition quiet : Outside := mkOutside 2 true true false false [].

Definition quiet_world : World Outside := world ∅ no_rows quiet.

(** A world with a merge under way: the tag labels the first commit and a
    second commit followed. *)
Definition merging : World Outside :=
  mkWorld
    (mkRepo twin_projects [mkCommit "Merged" twin_projects; mkCommit "Created" ∅]
       {[BEFORE_MERGE_TAG := [mkCommit "Created" ∅]]} no_rows quiet)
    [] [].

(** Worlds for the version gate (the engine supports version 2), for the
    assertion of [pull] and for the retry loop. *)
Definition upgrade : World Outside := world ∅ no_rows (mkOutside 3 true true false false []).
Definition stale : World Outside := world ∅ no_rows (mkOutside 1 false true false false []).
Definition current : World Outside := world ∅ no_rows (mkOutside 1 true true false false []).
Definition dirty : World Outside := world ∅ no_rows (mkOutside 2 true false false false []).
Definition contended : World Outside :=
  world ∅ no_rows (mkOutside 2 true true true false [NotFastForwardError]).

(** [contended] after a pull without remote changes, and after the push
    that followed was refused. *)
Definition contended_pulled : World Outside :=
  mkWorld (repo contended)
    [IsWorkTreeClean; ReportProgress "Pulling remote changes"; Fetch; GetRemoteDumpVersion;
     CreateTag BEFORE_MERGE_TAG; Merge; HasTag BEFORE_MERGE_TAG;
     GetChangesSince BEFORE_MERGE_TAG; ReportProgress "No remote changes";
     DeleteTag BEFORE_MERGE_TAG] [].

Definition contended_refused : World Outside :=
  mkWorld (mkRepo ∅ [] ∅ no_rows (mkOutside 2 true true true false []))
    (log contended_pulled
     ++ [GetChangesSince "origin/master"; ReportProgress "Pushing local changes"; Push;
         ReportProgress "Remote has other changes, need to pull again"]) [].

(** The stub after the bootstrap of [/dump], step by step. *)
Definition made : Repo Outside := set_fs (add_dir "/dump" ∅) (repo quiet_world).
Definition versioned : Repo Outside := (lib_createVersionFile lib "/dump" made).2.
Definition with_aliases : Repo Outside := (mkdir os "/dump/aliases" versioned).2.
Definition with_projects : Repo Outside := (mkdir os "/dump/projects" with_aliases).2.
Definition populated : Repo Outside :=
  set_fs (<["/dump/tasks" := Dir []]>
            (<["/dump/projects" := Dir []]>
               (<["/dump/aliases" := Dir []]>
                  (<["/dump" := Dir ["aliases"; "projects"; "tasks"]]> (fs versioned)))))
    versioned.

End Samples.



(** ** Observations on the calls and on the output *)

(** The calls that create or delete a tag. *)
Definition tag_call (c : Call) : bool :=
  match c with
  | CreateTag _ | DeleteTag _ => true
  | _ => false
  end.

(** In a log of calls, do [Merge], [ImportSince] and [ImportAll] only come
    while the checkpoint tag is there?  [open] says whether it is there at
    the start; creating it opens the scope, deleting it closes it. *)
Fixpoint merge_scoped (open : bool) (calls : list Call) : bool :=
  match calls with
  | [] => true
  | CreateTag name :: calls' =>
      merge_scoped (open || String.eqb name BEFORE_MERGE_TAG) calls'
  | DeleteTag name :: calls' =>
      merge_scoped (open && negb (String.eqb name BEFORE_MERGE_TAG)) calls'
  | Merge :: calls' | ImportSince _ :: calls' | ImportAll :: calls' =>
      open && merge_scoped open calls'
  | _ :: calls' => merge_scoped open calls'
  end.

Section Behaviours.

Context {Ext : Type}.

(** A statement that only adds calls to the log, all of them in [P]. *)
Definition emits_only (P : Call -> bool) {A} (m : M Ext A) : Prop :=
  forall w, exists l, log (m w).2 = (log w ++ l)%list /\ forallb P l = true.

(** A statement whose calls keep merges and imports under the tag,
    whether the tag is there or not when it starts. *)
Definition keeps_scope {A} (m : M Ext A) : Prop :=
  forall w, exists l,
    log (m w).2 = (log w ++ l)%list /\ forall b, merge_scoped b l = true.

(** A statement that leaves the local state and the log as they are: all
    it does is print. *)
Definition only_prints {A} (m : M Ext A) : Prop :=
  forall w, exists lines, (m w).2 = printed w lines.

End Behaviours.

(** ** Observations on the bootstrap *)

(** The collection directories of the dump directory [d], in the order in
    which the bootstrap makes them. *)
Definition collection_dirs (d : string) : list string :=
  [path_join d "aliases"; path_join d "projects"; path_join d "tasks"].

Section Bootstrap.

Context {Ext : Type}.

(** Is [p] a directory without entries in [r]? *)
Definition empty_dir (r : Repo Ext) (p : string) : Prop :=
  fs r !! p = Some (Dir []).

(** What the bootstrap relies on from [os.mkdir] for the directories it
    makes under [d]: a directory that was made is there and empty, and
    making one collection directory leaves the other two as they are. *)
Definition mkdir_makes_empty (os : Os Ext) (d : string) : Prop :=
  (forall p r r', p ∈ collection_dirs d -> mkdir os p r = (Ok tt, r') -> empty_dir r' p)
  /\ (forall p q r r',
        p ∈ collection_dirs d -> q ∈ collection_dirs d -> p ≠ q ->
        mkdir os q r = (Ok tt, r') -> fs r' !! p = fs r !! p).

End Bootstrap.

(** ** More worlds and collaborators for the stub *)

Module Cases.

Import Stub Samples.

(** A manager without a database session. *)
Definition guest : SyncManager Outside := mkSyncManager (vcs "/dump") "/dump" false.

(** A library whose merge fails, and a VCS that cannot be initialised. *)
Definition failing_merge : SyncLib Outside :=
  mkSyncLib (lib_createVersionFile lib) (lib_getRemoteDumpVersion lib)
    (fun r => (Raise (OtherError "conflict"), r))
    (lib_importSince lib) (lib_importAll lib) (lib_dump lib) (lib_clearDump lib).

Definition no_init : VcsImpl Outside :=
  mkVcsImpl "/dump" (fun r => (Raise (VcsImplError "git not found"), r))
    (vcs_isWorkTreeClean (vcs "/dump")) (vcs_isUpToDate (vcs "/dump"))
    (vcs_fetch (vcs "/dump")) (vcs_push (vcs "/dump")) (vcs_commitAll (vcs "/dump"))
    (vcs_getChangesSince (vcs "/dump")).

(** A world with remote changes to import. *)
Definition incoming_world : World Outside :=
  world ∅ no_rows (mkOutside 2 true true false true []).

(** A world whose push fails for a reason of the operating system, and that
    world after its pull. *)
Definition disk_full : World Outside :=
  world ∅ no_rows (mkOutside 2 true true true false [OtherError "disk full"]).

Definition disk_full_pulled : World Outside :=
  mkWorld (repo disk_full) (log contended_pulled) [].

(** A dump with a project whose [uuid] is a number. *)
Definition numbered_project : gmap string Node :=
  list_to_map
    [("/dump", Dir ["version"; "aliases"; "projects"; "tasks"]);
     ("/dump/projects", Dir ["p1.json"]);
     ("/dump/projects/p1.json",
      File (Some (JDict [("uuid", JInt 7); ("name", JStr "work")])))].

(** A dump with a task of an existing project and a task that points to a
    project that is not there; and the same dump with the project file
    unreadable. *)
Definition one_dangling : gmap string Node :=
  list_to_map
    [("/dump", Dir ["version"; "aliases"; "projects"; "tasks"]);
     ("/dump/aliases", Dir []);
     ("/dump/projects", Dir ["p1.json"]);
     ("/dump/projects/p1.json", item [("uuid", "p1"); ("name", "work")]);
     ("/dump/tasks", Dir ["t0.json"; "t1.json"]);
     ("/dump/tasks/t0.json", item [("uuid", "t0"); ("projectUuid", "p1")]);
     ("/dump/tasks/t1.json", item [("uuid", "t1"); ("projectUuid", "gone")])].

Definition one_dangling_broken_project : gmap string Node :=
  <["/dump/projects/p1.json" := File None]> one_dangling.

(** The database with the two projects of [twin_projects]. *)
Definition two_projects : Table -> list Row :=
  fun table => match table with Project => [mkRow "p1"; mkRow "p2"] | _ => [] end.

Definition twin_world : World Outside := world twin_projects two_projects quiet.

Definition work (uuid : string) : json :=
  JDict [("uuid", JStr uuid); ("name", JStr "work")].

End Cases.

(** * Properties *)

(** ** The helpers on examples *)

Example format_int_neg : format_int (-12) = "-12".
Proof. reflexivity. Qed.

Example format_int_zero : format_int 0 = "0".
Proof. reflexivity. Qed.

Example endswith_json : endswith "a1.json" ".json" = true /\ endswith "a1.json~" ".json" = false.
Proof. split; reflexivity. Qed.

Example path_join_ex :
  path_join "/dump" "tasks" = "/dump/tasks" /\ path_join "/dump/" "tasks" = "/dump/tasks"
  /\ path_join "/dump" "/abs" = "/abs".
Proof. repeat split; reflexivity. Qed.

Example splitext_ex :
  splitext "p1.json" = ("p1", ".json") /\ splitext ".hidden" = (".hidden", "")
  /\ splitext "a.b.json" = ("a.b", ".json") /\ splitext "README" = ("README", "").
Proof. repeat split; reflexivity. Qed.

(** A dict keeps the key inserted first: [True] and 1 are one key, shown
    as the one that came first. *)
Example group_add_ex (a b : json) :
  group_add (OInt 1) b (group_add (OBool true) a []) = [(OBool true, [a; b])]
  /\ group_add (OBool true) b (group_add (OInt 1) a []) = [(OInt 1, [a; b])]
  /\ format_key (OBool true) = "True" /\ format_key (OInt 1) = "1"
  /\ format_key ONone = "None".
Proof. repeat split; reflexivity. Qed.

(** The key an object is found under is its hash value. *)
Lemma key_object_hashable (v : json) :
  hashable v = match key_object v with
               | Ok o => Ok (key_of o)
               | Raise e => Raise e
               end.
Proof. destruct v; reflexivity. Qed.

Example path_split_ex :
  Stub.path_split "/dump/tasks" = ("/dump", "tasks")
  /\ Stub.path_split "/dump" = ("/", "dump")
  /\ Stub.path_split "dump" = ("", "dump").
Proof. repeat split; reflexivity. Qed.

(** ** Reasoning about statements *)

Section Statements.

Context {Ext : Type}.
Implicit Types w : World Ext.

Lemma bind_Ok {A B} (m : M Ext A) (f : A -> M Ext B) w a w' :
  m w = (Ok a, w') -> (m ≫= f) w = f a w'.
Proof. intros H. unfold mbind, M_bind, bind. rewrite H. reflexivity. Qed.

Lemma bind_Raise {A B} (m : M Ext A) (f : A -> M Ext B) w e w' :
  m w = (Raise e, w') -> (m ≫= f) w = (Raise e, w').
Proof. intros H. unfold mbind, M_bind, bind. rewrite H. reflexivity. Qed.

Lemma invoke_eq {A} (c : Call) (f : Repo Ext -> Outcome A * Repo Ext) w o rp :
  f (repo w) = (o, rp) -> invoke c f w = (o, mkWorld rp (log w ++ [c]) (stdout w)).
Proof. intros H. unfold invoke. rewrite H. reflexivity. Qed.

Lemma invoke_mk {A} (c : Call) (f : Repo Ext -> Outcome A * Repo Ext) r l s o rp :
  f r = (o, rp) -> invoke c f (mkWorld r l s) = (o, mkWorld rp (l ++ [c]) s).
Proof. intros H. unfold invoke. cbn. rewrite H. reflexivity. Qed.

Lemma assert_true msg w : assert (Ext:=Ext) true msg w = (Ok tt, w).
Proof. reflexivity. Qed.

Lemma assert_false msg w : assert (Ext:=Ext) false msg w = (Raise (AssertionError msg), w).
Proof. reflexivity. Qed.

End Statements.

(** Runs a statement whose collaborator results are among the hypotheses. *)
Ltac run_with H :=
  first
    [ erewrite (bind_Ok _ _ _ _ _ (invoke_eq _ _ _ _ _ H))
    | erewrite (bind_Raise _ _ _ _ _ (invoke_eq _ _ _ _ _ H))
    | erewrite (invoke_eq _ _ _ _ _ H)
    | erewrite (bind_Ok _ _ _ _ _ (invoke_mk _ _ _ _ _ _ _ H))
    | erewrite (bind_Raise _ _ _ _ _ (invoke_mk _ _ _ _ _ _ _ H))
    | erewrite (invoke_mk _ _ _ _ _ _ _ H) ];
  cbn [repo log stdout].

Ltac norm_log := rewrite <- ?app_assoc; cbn [app].

Ltac map_step :=
  repeat (rewrite lookup_insert_ne by congruence);
  first [assumption | rewrite lookup_insert_eq; reflexivity | reflexivity].

Ltac map_norm :=
  repeat first [rewrite lookup_insert_eq | rewrite lookup_insert_ne by congruence].


(** ** The version gate and [pull] *)

Section Pull.

Context {Ext : Type}.
Variable VERSION : Z.
Variable lib : SyncLib Ext.
Implicit Types (w : World Ext) (self : SyncManager Ext).

Lemma checkDumpVersion_newer self w R r :
  lib_getRemoteDumpVersion lib (repo w) = (Ok R, r) ->
  (VERSION < R)%Z ->
  _checkDumpVersion VERSION lib self w
  = (Ok false,
     mkWorld r (log w ++ [GetRemoteDumpVersion; ReportError (upgrade_needed_msg VERSION R)])
       (stdout w)).
Proof.
  intros HR Hlt. unfold _checkDumpVersion, getRemoteDumpVersion.
  run_with HR.
  apply Z.ltb_lt in Hlt. rewrite Hlt.
  unfold reportError, mbind, M_bind, bind, invoke; cbn. norm_log. reflexivity.
Qed.

Lemma checkDumpVersion_older_stale self w R r r' :
  lib_getRemoteDumpVersion lib (repo w) = (Ok R, r) ->
  (R < VERSION)%Z ->
  vcs_isUpToDate (vcsImpl self) r = (Ok false, r') ->
  _checkDumpVersion VERSION lib self w
  = (Ok false,
     mkWorld r' (log w ++ [GetRemoteDumpVersion; IsUpToDate;
                           ReportError (downgrade_conflict_msg VERSION R)])
       (stdout w)).
Proof.
  intros HR Hlt HU. unfold _checkDumpVersion, getRemoteDumpVersion.
  run_with HR.
  assert ((VERSION <? R)%Z = false) as -> by (apply Z.ltb_ge; lia).
  apply Z.ltb_lt in Hlt. rewrite Hlt. unfold isUpToDate.
  erewrite bind_Ok; [| erewrite bind_Ok; [reflexivity |]; apply invoke_eq; exact HU].
  unfold reportError, mbind, M_bind, bind, invoke; cbn. norm_log. reflexivity.
Qed.

Lemma checkDumpVersion_older_current self w R r r' :
  lib_getRemoteDumpVersion lib (repo w) = (Ok R, r) ->
  (R < VERSION)%Z ->
  vcs_isUpToDate (vcsImpl self) r = (Ok true, r') ->
  _checkDumpVersion VERSION lib self w
  = (Ok true, mkWorld r' (log w ++ [GetRemoteDumpVersion; IsUpToDate]) (stdout w)).
Proof.
  intros HR Hlt HU. unfold _checkDumpVersion, getRemoteDumpVersion.
  run_with HR.
  assert ((VERSION <? R)%Z = false) as -> by (apply Z.ltb_ge; lia).
  apply Z.ltb_lt in Hlt. rewrite Hlt. unfold isUpToDate.
  erewrite bind_Ok; [| erewrite bind_Ok; [reflexivity |]; apply invoke_eq; exact HU].
  cbn. norm_log. reflexivity.
Qed.

Lemma checkDumpVersion_same self w r :
  lib_getRemoteDumpVersion lib (repo w) = (Ok VERSION, r) ->
  _checkDumpVersion VERSION lib self w
  = (Ok true, mkWorld r (log w ++ [GetRemoteDumpVersion]) (stdout w)).
Proof.
  intros HR. unfold _checkDumpVersion, getRemoteDumpVersion.
  run_with HR. rewrite Z.ltb_irrefl. reflexivity.
Qed.

(** [pull] up to the gate: the assertions hold and the fetch succeeds. *)
Lemma pull_to_gate self w r0 r1 :
  session self = true ->
  vcs_isWorkTreeClean (vcsImpl self) (repo w) = (Ok true, r0) ->
  vcs_fetch (vcsImpl self) r0 = (Ok tt, r1) ->
  pull VERSION lib self w
  = (ok ← _checkDumpVersion VERSION lib self;
     if negb ok then mret false else pull_merge lib self)
      (mkWorld r1 (log w ++ [IsWorkTreeClean; ReportProgress "Pulling remote changes"; Fetch])
         (stdout w)).
Proof.
  intros HS HC HF. unfold pull. rewrite HS.
  erewrite bind_Ok; [| apply assert_true].
  unfold isWorkTreeClean. run_with HC.
  erewrite bind_Ok; [| apply assert_true].
  unfold reportProgress at 1. erewrite bind_Ok; [| apply invoke_eq; reflexivity].
  cbn [repo log stdout]. unfold fetch. run_with HF. norm_log. reflexivity.
Qed.

(** C1. The version gate of [pull], for a remote dump version [R] read after
    the fetch: when [R] is above [VERSION], [pull] reports the
    upgrade-needed error and returns [False]; when [R] is below [VERSION]
    and the local state is not up to date, it reports the downgrade-conflict
    error and returns [False]; when [R] is below [VERSION] and the local
    state is up to date, or [R] is [VERSION], the gate returns [True]
    without a report and [pull] goes on with its merge operation. *)
Theorem pull_version_gate self w r0 r1 r2 R :
  session self = true ->
  vcs_isWorkTreeClean (vcsImpl self) (repo w) = (Ok true, r0) ->
  vcs_fetch (vcsImpl self) r0 = (Ok tt, r1) ->
  lib_getRemoteDumpVersion lib r1 = (Ok R, r2) ->
  let fetched := (log w ++ [IsWorkTreeClean; ReportProgress "Pulling remote changes"; Fetch])%list in
  let w1 := mkWorld r1 fetched (stdout w) in
  ((VERSION < R)%Z ->
     pull VERSION lib self w
     = (Ok false,
        mkWorld r2 (fetched ++ [GetRemoteDumpVersion;
                                ReportError (upgrade_needed_msg VERSION R)]) (stdout w)))
  /\ ((R < VERSION)%Z -> forall r3,
       vcs_isUpToDate (vcsImpl self) r2 = (Ok false, r3) ->
       pull VERSION lib self w
       = (Ok false,
          mkWorld r3 (fetched ++ [GetRemoteDumpVersion; IsUpToDate;
                                  ReportError (downgrade_conflict_msg VERSION R)]) (stdout w)))
  /\ ((R < VERSION)%Z -> forall r3,
       vcs_isUpToDate (vcsImpl self) r2 = (Ok true, r3) ->
       let w3 := mkWorld r3 (fetched ++ [GetRemoteDumpVersion; IsUpToDate]) (stdout w) in
       _checkDumpVersion VERSION lib self w1 = (Ok true, w3)
       /\ pull VERSION lib self w = pull_merge lib self w3)
  /\ (R = VERSION ->
       let w2 := mkWorld r2 (fetched ++ [GetRemoteDumpVersion]) (stdout w) in
       _checkDumpVersion VERSION lib self w1 = (Ok true, w2)
       /\ pull VERSION lib self w = pull_merge lib self w2).
Proof.
  intros HS HC HF HR fetched w1.
  pose proof (pull_to_gate self w r0 r1 HS HC HF) as Hpull.
  fold fetched in Hpull. fold w1 in Hpull.
  repeat split.
  - intros Hlt. rewrite Hpull.
    erewrite bind_Ok; [| apply (checkDumpVersion_newer self w1 R r2 HR Hlt)].
    reflexivity.
  - intros Hlt r3 HU. rewrite Hpull.
    erewrite bind_Ok; [| apply (checkDumpVersion_older_stale self w1 R r2 r3 HR Hlt HU)].
    reflexivity.
  - apply (checkDumpVersion_older_current self w1 R r2 r3); assumption.
  - rewrite Hpull.
    erewrite bind_Ok; [| apply (checkDumpVersion_older_current self w1 R r2 r3); eassumption].
    reflexivity.
  - subst R. apply (checkDumpVersion_same self w1 r2 HR).
  - subst R. rewrite Hpull.
    erewrite bind_Ok; [| apply (checkDumpVersion_same self w1 r2 HR)].
    reflexivity.
Qed.

(** A gate that returns [False] has reported one of the two errors. *)
Lemma checkDumpVersion_false_inv self w1 w2 :
  _checkDumpVersion VERSION lib self w1 = (Ok false, w2) ->
  exists R r2,
    lib_getRemoteDumpVersion lib (repo w1) = (Ok R, r2)
    /\ (((VERSION < R)%Z
         /\ w2 = mkWorld r2 (log w1 ++ [GetRemoteDumpVersion;
                                         ReportError (upgrade_needed_msg VERSION R)]) (stdout w1))
        \/ ((R < VERSION)%Z
            /\ exists r3, vcs_isUpToDate (vcsImpl self) r2 = (Ok false, r3)
               /\ w2 = mkWorld r3 (log w1 ++ [GetRemoteDumpVersion; IsUpToDate;
                                               ReportError (downgrade_conflict_msg VERSION R)])
                         (stdout w1))).
Proof.
  intros H.
  destruct (lib_getRemoteDumpVersion lib (repo w1)) as [[R|e] r2] eqn:HR.
  2:{ unfold _checkDumpVersion, getRemoteDumpVersion in H.
      erewrite bind_Raise in H by (apply invoke_eq; exact HR). discriminate. }
  exists R, r2. split; [reflexivity|].
  destruct (Z.lt_trichotomy VERSION R) as [Hlt | [Heq | Hgt]].
  - left. split; [assumption|].
    rewrite (checkDumpVersion_newer self w1 R r2 HR Hlt) in H. congruence.
  - subst R. rewrite (checkDumpVersion_same self w1 r2 HR) in H. discriminate.
  - right. split; [assumption|].
    destruct (vcs_isUpToDate (vcsImpl self) r2) as [[[|]|e] r3] eqn:HU.
    + rewrite (checkDumpVersion_older_current self w1 R r2 r3 HR Hgt HU) in H. discriminate.
    + exists r3. split; [reflexivity|].
      rewrite (checkDumpVersion_older_stale self w1 R r2 r3 HR Hgt HU) in H. congruence.
    + exfalso. unfold _checkDumpVersion, getRemoteDumpVersion in H.
      erewrite bind_Ok in H by (apply invoke_eq; exact HR).
      assert ((VERSION <? R)%Z = false) as Hn by (apply Z.ltb_ge; lia).
      rewrite Hn in H. apply Z.ltb_lt in Hgt. rewrite Hgt in H.
      unfold isUpToDate in H.
      erewrite bind_Raise in H; [discriminate|].
      erewrite bind_Raise; [reflexivity|]. apply invoke_mk. exact HU.
Qed.

(** C6. [pull] requires a clean working tree: on a dirty one it fails by
    assertion, having reported nothing.  The fetch runs before the version
    gate; and when the gate fails, [pull] returns [False] in the world the
    gate left: one error was reported, and no tag was created, no merge and
    no import were invoked since [pull] began. *)
Theorem pull_gate_failure self w :
  session self = true ->
  (forall r0,
     vcs_isWorkTreeClean (vcsImpl self) (repo w) = (Ok false, r0) ->
     pull VERSION lib self w
     = (Raise (AssertionError ""), mkWorld r0 (log w ++ [IsWorkTreeClean]) (stdout w)))
  /\ (forall r0 e r1,
        vcs_isWorkTreeClean (vcsImpl self) (repo w) = (Ok true, r0) ->
        vcs_fetch (vcsImpl self) r0 = (Raise e, r1) ->
        pull VERSION lib self w
        = (Raise e,
           mkWorld r1 (log w ++ [IsWorkTreeClean; ReportProgress "Pulling remote changes"; Fetch])
             (stdout w)))
  /\ (forall r0 r1,
        vcs_isWorkTreeClean (vcsImpl self) (repo w) = (Ok true, r0) ->
        vcs_fetch (vcsImpl self) r0 = (Ok tt, r1) ->
        let w1 := mkWorld r1
                    (log w ++ [IsWorkTreeClean; ReportProgress "Pulling remote changes"; Fetch])
                    (stdout w) in
        forall w2,
          _checkDumpVersion VERSION lib self w1 = (Ok false, w2) ->
          pull VERSION lib self w = (Ok false, w2)
          /\ stdout w2 = stdout w
          /\ exists msg calls,
               log w2 = (log w ++ calls)%list
               /\ (calls = [IsWorkTreeClean; ReportProgress "Pulling remote changes"; Fetch;
                            GetRemoteDumpVersion; ReportError msg]
                   \/ calls = [IsWorkTreeClean; ReportProgress "Pulling remote changes"; Fetch;
                               GetRemoteDumpVersion; IsUpToDate; ReportError msg])
               /\ forallb (fun c => negb (merge_call c)) calls = true).
Proof.
  intros HS. split; [| split].
  - intros r0 HC. unfold pull. rewrite HS.
    erewrite bind_Ok; [| apply assert_true].
    unfold isWorkTreeClean. run_with HC.
    erewrite bind_Raise; [reflexivity | apply assert_false].
  - intros r0 e r1 HC HF. unfold pull. rewrite HS.
    erewrite bind_Ok; [| apply assert_true].
    unfold isWorkTreeClean. run_with HC.
    erewrite bind_Ok; [| apply assert_true].
    unfold reportProgress at 1. erewrite bind_Ok; [| apply invoke_eq; reflexivity].
    cbn [repo log stdout]. unfold fetch. run_with HF. norm_log. reflexivity.
  - intros r0 r1 HC HF w1 w2 HG.
    split.
    { rewrite (pull_to_gate self w r0 r1 HS HC HF). fold w1.
      erewrite bind_Ok; [| exact HG]. reflexivity. }
    destruct (checkDumpVersion_false_inv self w1 w2 HG) as (R & r2 & HR & [[Hlt ->] | [Hlt (r3 & HU & ->)]]).
    + split; [reflexivity|].
      eexists _, _. split; [| split; [left; reflexivity | reflexivity]].
      cbn. norm_log. reflexivity.
    + split; [reflexivity|].
      eexists _, _. split; [| split; [right; reflexivity | reflexivity]].
      cbn. norm_log. reflexivity.
Qed.

End Pull.

(** ** The merge operation and its checkpoint tag *)

Section MergeOperation.

Context {Ext : Type}.
Variable lib : SyncLib Ext.
Implicit Types (w : World Ext) (self : SyncManager Ext).

Lemma isMergeInProgress_iff self w :
  merge_in_progress self w true <-> is_Some (tags (repo w) !! BEFORE_MERGE_TAG).
Proof.
  unfold merge_in_progress, isMergeInProgress, hasTag, invoke. cbn.
  split.
  - intros H. injection H as H. apply bool_decide_eq_true in H. exact H.
  - intros H. f_equal. apply bool_decide_eq_true. exact H.
Qed.

Lemma isMergeInProgress_false_iff self w :
  merge_in_progress self w false <-> tags (repo w) !! BEFORE_MERGE_TAG = None.
Proof.
  unfold merge_in_progress, isMergeInProgress, hasTag, invoke. cbn.
  split.
  - intros H. injection H as H. apply bool_decide_eq_false in H.
    apply eq_None_not_Some. exact H.
  - intros H. f_equal. apply bool_decide_eq_false. rewrite H. apply is_Some_None.
Qed.

Lemma createTag_tagged w : createTag BEFORE_MERGE_TAG w = (Ok tt, tagged w).
Proof. reflexivity. Qed.

Lemma deleteTag_untagged w : deleteTag BEFORE_MERGE_TAG w = (Ok tt, untagged w).
Proof. reflexivity. Qed.

Lemma tagged_in_progress self w : merge_in_progress self (tagged w) true.
Proof.
  apply isMergeInProgress_iff. unfold tagged. cbn.
  rewrite lookup_insert_eq. eexists. reflexivity.
Qed.

Lemma untagged_not_in_progress self w : merge_in_progress self (untagged w) false.
Proof.
  apply isMergeInProgress_false_iff. unfold untagged. cbn.
  apply lookup_delete_eq.
Qed.

Lemma mergeOperation_Ok {A} self (body : M Ext A) w a w2 :
  body (tagged w) = (Ok a, w2) ->
  _mergeOperation self body w = (Ok a, untagged w2).
Proof.
  intros H. unfold _mergeOperation.
  erewrite bind_Ok; [| apply createTag_tagged].
  erewrite bind_Ok; [| exact H].
  erewrite bind_Ok; [| apply deleteTag_untagged]. reflexivity.
Qed.

Lemma mergeOperation_Raise {A} self (body : M Ext A) w e w2 :
  body (tagged w) = (Raise e, w2) ->
  _mergeOperation self body w = (Raise e, w2).
Proof.
  intros H. unfold _mergeOperation.
  erewrite bind_Ok; [| apply createTag_tagged].
  erewrite bind_Raise; [reflexivity | exact H].
Qed.

(** C3. The life of the checkpoint tag in a merge operation.  The tag is
    created before the body runs, so the body starts in a world where
    [isMergeInProgress()] is true.  When the body completes, the tag is
    deleted and [isMergeInProgress()] is false.  When the body raises, the
    operation ends in the world the body left, without a [deleteTag]: the
    tag is there as the body left it.  And [isMergeInProgress()] is true
    exactly when the tag exists. *)
Theorem mergeOperation_tag_lifecycle {A} self (body : M Ext A) w :
  merge_in_progress self (tagged w) true
  /\ (forall a w2,
        body (tagged w) = (Ok a, w2) ->
        _mergeOperation self body w = (Ok a, untagged w2)
        /\ merge_in_progress self (untagged w2) false)
  /\ (forall e w2,
        body (tagged w) = (Raise e, w2) ->
        _mergeOperation self body w = (Raise e, w2)
        /\ (tags (repo w2) !! BEFORE_MERGE_TAG = tags (repo (tagged w)) !! BEFORE_MERGE_TAG ->
            merge_in_progress self w2 true))
  /\ (forall w', merge_in_progress self w' true
                 <-> is_Some (tags (repo w') !! BEFORE_MERGE_TAG)).
Proof.
  split; [apply tagged_in_progress|].
  split; [| split].
  - intros a w2 H. split.
    + apply mergeOperation_Ok. exact H.
    + apply untagged_not_in_progress.
  - intros e w2 H. split.
    + apply mergeOperation_Raise. exact H.
    + intros Hkeep. apply isMergeInProgress_iff. rewrite Hkeep.
      apply isMergeInProgress_iff with (self := self). apply tagged_in_progress.
  - intros w'. apply isMergeInProgress_iff.
Qed.

Lemma abortMerge_run self w h :
  tags (repo w) !! BEFORE_MERGE_TAG = Some h ->
  abortMerge self w
  = (Ok tt,
     untagged (mkWorld (set_fs (tree_of h) (set_history h (repo w)))
                 (log w ++ [ResetTo BEFORE_MERGE_TAG]) (stdout w))).
Proof.
  intros Ht. unfold abortMerge, resetTo.
  erewrite bind_Ok; [| apply invoke_eq; rewrite Ht; reflexivity].
  apply deleteTag_untagged.
Qed.

(** C5. [abortMerge()] while a merge is in progress: the history becomes
    the one the checkpoint tag labels and the working tree its tree, then
    the tag is deleted, so that [isMergeInProgress()] is false.  The tag
    labels the state before the merge: whatever ran after the tag was
    created in [w0], as long as it left the tag alone, [abortMerge()] brings
    back the history of [w0] and its tree. *)
Theorem abortMerge_restores self w h :
  tags (repo w) !! BEFORE_MERGE_TAG = Some h ->
  (exists w',
     abortMerge self w = (Ok tt, w')
     /\ history (repo w') = h
     /\ fs (repo w') = tree_of h
     /\ merge_in_progress self w' false
     /\ log w' = (log w ++ [ResetTo BEFORE_MERGE_TAG; DeleteTag BEFORE_MERGE_TAG])%list)
  /\ (forall w0,
        tags (repo w) !! BEFORE_MERGE_TAG = tags (repo (tagged w0)) !! BEFORE_MERGE_TAG ->
        h = history (repo w0)).
Proof.
  intros Ht. split.
  - eexists. split; [apply abortMerge_run; exact Ht|].
    split; [reflexivity|]. split; [reflexivity|].
    split; [apply untagged_not_in_progress|].
    cbn. norm_log. reflexivity.
  - intros w0 Hkeep. rewrite Ht in Hkeep. unfold tagged in Hkeep. cbn in Hkeep.
    rewrite lookup_insert_eq in Hkeep. congruence.
Qed.

(** C9. [importAll()] runs inside the merge operation too: the import
    starts in a world where the checkpoint tag was just created, so that
    [isMergeInProgress()] is true; when the import completes the tag is
    deleted; when it raises, no [deleteTag] follows and the tag is there as
    the import left it. *)
Theorem importAll_merge_scope self w :
  session self = true ->
  let started := (log w ++ [CreateTag BEFORE_MERGE_TAG; ImportAll])%list in
  merge_in_progress self (tagged w) true
  /\ (forall r2,
        lib_importAll lib (repo (tagged w)) = (Ok tt, r2) ->
        importAll lib self w = (Ok tt, untagged (mkWorld r2 started (stdout w)))
        /\ merge_in_progress self (untagged (mkWorld r2 started (stdout w))) false
        /\ (tags r2 !! BEFORE_MERGE_TAG = tags (repo (tagged w)) !! BEFORE_MERGE_TAG ->
            merge_in_progress self (mkWorld r2 started (stdout w)) true))
  /\ (forall e r2,
        lib_importAll lib (repo (tagged w)) = (Raise e, r2) ->
        importAll lib self w = (Raise e, mkWorld r2 started (stdout w))
        /\ (tags r2 !! BEFORE_MERGE_TAG = tags (repo (tagged w)) !! BEFORE_MERGE_TAG ->
            merge_in_progress self (mkWorld r2 started (stdout w)) true)).
Proof.
  intros HS started.
  assert (forall r2, tags r2 !! BEFORE_MERGE_TAG = tags (repo (tagged w)) !! BEFORE_MERGE_TAG ->
                     merge_in_progress self (mkWorld r2 started (stdout w)) true) as Hkept.
  { intros r2 Hkeep. apply isMergeInProgress_iff. cbn [repo]. rewrite Hkeep.
    apply isMergeInProgress_iff with (self := self). apply tagged_in_progress. }
  split; [apply tagged_in_progress|]. split.
  - intros r2 HI. split; [| split].
    + unfold importAll. rewrite HS. erewrite bind_Ok; [| apply assert_true].
      erewrite mergeOperation_Ok; [reflexivity|].
      unfold importAll_call. erewrite invoke_eq by exact HI.
      unfold started, tagged. cbn. norm_log. reflexivity.
    + apply untagged_not_in_progress.
    + apply Hkept.
  - intros e r2 HI. split.
    + unfold importAll. rewrite HS. erewrite bind_Ok; [| apply assert_true].
      erewrite mergeOperation_Raise; [reflexivity|].
      unfold importAll_call. erewrite invoke_eq by exact HI.
      unfold started, tagged. cbn. norm_log. reflexivity.
    + apply Hkept.
Qed.

End MergeOperation.

(** ** The retry loop of [sync] *)

Section Sync.

Context {Ext : Type}.
Variable VERSION : Z.
Variable lib : SyncLib Ext.
Implicit Types (w : World Ext) (self : SyncManager Ext).

Lemma sync_loop_step self fuel w :
  sync_loop VERSION lib (S fuel) self w
  = match sync_iteration VERSION lib self w with
    | (Ok (Return b), w') => (Ok (Some b), w')
    | (Ok Break, w') => (Ok (Some true), w')
    | (Ok Continue, w') => sync_loop VERSION lib fuel self w'
    | (Raise e, w') => (Raise e, w')
    end.
Proof.
  cbn [sync_loop]. unfold mbind at 1, M_bind at 1, bind at 1.
  destruct (sync_iteration VERSION lib self w) as [[[| |b]|e] w']; reflexivity.
Qed.

Lemma sync_iteration_pull_failed self w w1 :
  pull VERSION lib self w = (Ok false, w1) ->
  sync_iteration VERSION lib self w = (Ok (Return false), w1).
Proof. intros H. unfold sync_iteration. erewrite bind_Ok by exact H. reflexivity. Qed.

Lemma sync_iteration_pull_raised self w e w1 :
  pull VERSION lib self w = (Raise e, w1) ->
  sync_iteration VERSION lib self w = (Raise e, w1).
Proof. intros H. unfold sync_iteration. erewrite bind_Raise by exact H. reflexivity. Qed.

Lemma sync_iteration_nothing_to_push self w w1 r2 :
  pull VERSION lib self w = (Ok true, w1) ->
  vcs_getChangesSince (vcsImpl self) "origin/master" (repo w1) = (Ok (mkChangeSet false), r2) ->
  sync_iteration VERSION lib self w
  = (Ok Break, mkWorld r2 (log w1 ++ [GetChangesSince "origin/master"]) (stdout w1)).
Proof.
  intros HP HC. unfold sync_iteration. erewrite bind_Ok by exact HP. cbn [negb].
  unfold hasChangesToPush, getChangesSince.
  erewrite bind_Ok; [| erewrite bind_Ok; [reflexivity | apply invoke_eq; exact HC]].
  reflexivity.
Qed.

(** An iteration up to its [try] statement. *)
Lemma sync_iteration_to_push self w w1 r2 :
  pull VERSION lib self w = (Ok true, w1) ->
  vcs_getChangesSince (vcsImpl self) "origin/master" (repo w1) = (Ok (mkChangeSet true), r2) ->
  sync_iteration VERSION lib self w
  = sync_push self
      (mkWorld r2 (log w1 ++ [GetChangesSince "origin/master";
                              ReportProgress "Pushing local changes"]) (stdout w1)).
Proof.
  intros HP HC. unfold sync_iteration. erewrite bind_Ok by exact HP. cbn [negb].
  unfold hasChangesToPush, getChangesSince.
  erewrite bind_Ok; [| erewrite bind_Ok; [reflexivity | apply invoke_eq; exact HC]].
  cbn [hasChanges negb]. unfold reportProgress.
  erewrite bind_Ok; [| apply invoke_mk; reflexivity].
  norm_log. reflexivity.
Qed.

Lemma sync_push_run self r l s o r' :
  vcs_push (vcsImpl self) r = (o, r') ->
  sync_push self (mkWorld r l s)
  = match o with
    | Ok _ => (Ok Break, mkWorld r' (l ++ [Push]) s)
    | Raise NotFastForwardError =>
        (Ok Continue,
         mkWorld r' (l ++ [Push; ReportProgress "Remote has other changes, need to pull again"]) s)
    | Raise (VcsImplError msg) =>
        (Ok (Return false), mkWorld r' (l ++ [Push; ReportError ("Failed to push: " ++ msg)]) s)
    | Raise e => (Raise e, mkWorld r' (l ++ [Push]) s)
    end.
Proof.
  intros HP. unfold sync_push, try_except, push, vcs_push_call.
  destruct o as [[]|e].
  - erewrite bind_Ok; [| apply invoke_mk; exact HP]. reflexivity.
  - erewrite bind_Raise; [| apply invoke_mk; exact HP].
    destruct e; try reflexivity.
    + unfold reportProgress. erewrite bind_Ok; [| apply invoke_mk; reflexivity].
      norm_log. reflexivity.
    + unfold reportError. erewrite bind_Ok; [| apply invoke_mk; reflexivity].
      norm_log. reflexivity.
Qed.

(** *** The calls of [sync] in order *)

Lemma never_pushes_ret {A} (a : A) : never_pushes (mret a : M Ext A).
Proof. intros w. exists []. cbn. rewrite app_nil_r. split; [reflexivity | apply not_elem_of_nil]. Qed.

Lemma never_pushes_raise {A} e : never_pushes (raise e : M Ext A).
Proof. intros w. exists []. cbn. rewrite app_nil_r. split; [reflexivity | apply not_elem_of_nil]. Qed.

Lemma never_pushes_assert c msg : never_pushes (assert (Ext := Ext) c msg).
Proof. destruct c; [apply (never_pushes_ret tt) | apply never_pushes_raise]. Qed.

Lemma never_pushes_invoke {A} c (f : Repo Ext -> Outcome A * Repo Ext) :
  c ≠ Push -> never_pushes (invoke c f).
Proof.
  intros Hc w. exists [c]. unfold invoke. destruct (f (repo w)) as [o rp]. cbn.
  split; [reflexivity|]. intros H. apply list_elem_of_singleton in H. congruence.
Qed.

Lemma never_pushes_bind {A B} (m : M Ext A) (f : A -> M Ext B) :
  never_pushes m -> (forall a, never_pushes (f a)) -> never_pushes (m ≫= f).
Proof.
  intros Hm Hf w. destruct (Hm w) as (l1 & E1 & N1).
  unfold mbind, M_bind, bind. destruct (m w) as [[a|e] w1]; cbn [fst snd] in *.
  - destruct (Hf a w1) as (l2 & E2 & N2). exists (l1 ++ l2)%list. split.
    + rewrite E2, E1, app_assoc. reflexivity.
    + intros H. apply elem_of_app in H as [H|H]; auto.
  - exists l1. auto.
Qed.

Ltac never_pushes_step :=
  first
    [ apply never_pushes_bind; [| intros ?]
    | apply never_pushes_invoke; discriminate
    | apply never_pushes_ret
    | apply never_pushes_raise
    | apply never_pushes_assert
    | match goal with |- never_pushes (if ?b then _ else _) => destruct b end ].

Lemma never_pushes_checkDumpVersion self : never_pushes (_checkDumpVersion VERSION lib self).
Proof.
  unfold _checkDumpVersion, getRemoteDumpVersion, isUpToDate, reportError.
  repeat never_pushes_step.
Qed.

Lemma never_pushes_pull_merge self : never_pushes (pull_merge lib self).
Proof.
  unfold pull_merge, _mergeOperation, hasChangesToImport, createTag, deleteTag, hasTag,
    merge, importSince, getChangesSince, reportProgress.
  repeat never_pushes_step.
Qed.

Lemma never_pushes_pull self : never_pushes (pull VERSION lib self).
Proof.
  unfold pull, isWorkTreeClean, fetch, reportProgress.
  repeat first [apply never_pushes_checkDumpVersion | apply never_pushes_pull_merge | never_pushes_step].
Qed.

(** The calls of a [pull]: no [Push], and a [Fetch] when it returns
    [True]. *)
Lemma pull_calls self w :
  exists l,
    log (pull VERSION lib self w).2 = (log w ++ l)%list
    /\ (Push ∉ l)
    /\ ((pull VERSION lib self w).1 = Ok true -> Fetch ∈ l).
Proof.
  destruct (never_pushes_pull self w) as (l & E & N). exists l. split; [exact E|]. split; [exact N|].
  intros Hok.
  destruct (session self) eqn:HS.
  2:{ exfalso. unfold pull in Hok. rewrite HS in Hok.
      erewrite bind_Raise in Hok by apply assert_false. discriminate. }
  destruct (vcs_isWorkTreeClean (vcsImpl self) (repo w)) as [[[|]|e] r0] eqn:HC.
  - destruct (vcs_fetch (vcsImpl self) r0) as [[[]|e] r1] eqn:HF.
    + rewrite (pull_to_gate VERSION lib self w r0 r1 HS HC HF) in E.
      match type of E with
      | log (?rest ?w1).2 = _ =>
          assert (exists l2, log (rest w1).2 = (log w1 ++ l2)%list) as [l2 E2]
      end.
      { match goal with
        | |- exists l2, log (?rest ?w1).2 = _ =>
            assert (never_pushes rest) as Hq
              by (repeat first [apply never_pushes_checkDumpVersion | apply never_pushes_pull_merge
                               | never_pushes_step]);
            destruct (Hq w1) as (l2 & E2 & _); exists l2; exact E2
        end. }
      rewrite E2 in E. cbn [log] in E. rewrite <- app_assoc in E.
      apply app_inv_head in E. subst l.
      apply list_elem_of_In. cbn. tauto.
    + exfalso. unfold pull in Hok. rewrite HS in Hok.
      erewrite bind_Ok in Hok by apply assert_true.
      unfold isWorkTreeClean in Hok.
      erewrite bind_Ok in Hok by (apply invoke_eq; exact HC).
      erewrite bind_Ok in Hok by apply assert_true.
      unfold reportProgress at 1 in Hok.
      erewrite bind_Ok in Hok by (apply invoke_mk; reflexivity).
      unfold fetch in Hok.
      erewrite bind_Raise in Hok by (apply invoke_mk; exact HF). discriminate.
  - exfalso. unfold pull in Hok. rewrite HS in Hok.
    erewrite bind_Ok in Hok by apply assert_true.
    unfold isWorkTreeClean in Hok.
    erewrite bind_Ok in Hok by (apply invoke_eq; exact HC).
    erewrite bind_Raise in Hok by apply assert_false. discriminate.
  - exfalso. unfold pull in Hok. rewrite HS in Hok.
    erewrite bind_Ok in Hok by apply assert_true.
    unfold isWorkTreeClean in Hok.
    erewrite bind_Raise in Hok by (apply invoke_eq; exact HC). discriminate.
Qed.

Lemma pushes_follow_fetch_mono l :
  forall b, pushes_follow_fetch false l = true -> pushes_follow_fetch b l = true.
Proof.
  induction l as [|c l IH]; intros b H; [reflexivity|].
  destruct c; cbn in *; auto; discriminate.
Qed.

Lemma pushes_follow_fetch_without_push l :
  forall b, Push ∉ l -> pushes_follow_fetch b l = true.
Proof.
  induction l as [|c l IH]; intros b H; [reflexivity|].
  assert (Push ∉ l) as Hl by (intros Hin; apply H; constructor; exact Hin).
  destruct c; cbn; auto.
  exfalso. apply H. constructor.
Qed.

Lemma pushes_follow_fetch_skip l1 l2 :
  forall b, Push ∉ l1 ->
            pushes_follow_fetch b (l1 ++ l2)
            = pushes_follow_fetch (b || bool_decide (Fetch ∈ l1)) l2.
Proof.
  induction l1 as [|c l1 IH]; intros b N.
  - cbn. rewrite bool_decide_eq_false_2 by apply not_elem_of_nil.
    rewrite orb_false_r. reflexivity.
  - assert (Push ∉ l1) as Hl by (intros Hin; apply N; constructor; exact Hin).
    destruct (decide (c = Fetch)) as [->|Hf].
    + cbn. rewrite IH by exact Hl.
      rewrite (bool_decide_eq_true_2 (Fetch ∈ Fetch :: l1)) by constructor.
      rewrite orb_true_r. reflexivity.
    + destruct (decide (c = Push)) as [->|Hp]; [exfalso; apply N; constructor|].
      assert (bool_decide (Fetch ∈ c :: l1) = bool_decide (Fetch ∈ l1)) as ->.
      { apply bool_decide_ext. rewrite elem_of_cons. split; [intros [?|?] | auto].
        - congruence.
        - assumption. }
      rewrite <- IH by exact Hl.
      destruct c; cbn; congruence.
Qed.

Lemma pushes_follow_fetch_fetched l1 l2 :
  forall b, Push ∉ l1 -> Fetch ∈ l1 ->
            pushes_follow_fetch b (l1 ++ l2) = pushes_follow_fetch true l2.
Proof.
  intros b N F. rewrite pushes_follow_fetch_skip by exact N.
  rewrite (bool_decide_eq_true_2 _ F), orb_true_r. reflexivity.
Qed.

Lemma pushes_follow_fetch_app l1 l2 :
  forall b, pushes_follow_fetch b l1 = true -> pushes_follow_fetch false l2 = true ->
            pushes_follow_fetch b (l1 ++ l2) = true.
Proof.
  induction l1 as [|c l1 IH]; intros b H1 H2.
  - apply pushes_follow_fetch_mono. exact H2.
  - destruct c; cbn in *; auto.
    apply andb_true_iff in H1 as [-> H1]. cbn. auto.
Qed.

(** What an iteration of [sync] does after its [pull] returned [True]. *)
Lemma after_pull_calls self w :
  exists l,
    log ((c ← hasChangesToPush self;
          if negb c then mret Break
          else reportProgress "Pushing local changes";; sync_push self) w).2
    = (log w ++ l)%list
    /\ pushes_follow_fetch true l = true.
Proof.
  unfold hasChangesToPush, getChangesSince.
  destruct (vcs_getChangesSince (vcsImpl self) "origin/master" (repo w))
    as [[[[|]]|e] r2] eqn:HC.
  - erewrite bind_Ok; [| erewrite bind_Ok; [reflexivity | apply invoke_eq; exact HC]].
    cbn [hasChanges negb]. unfold reportProgress.
    erewrite bind_Ok; [| apply invoke_mk; reflexivity].
    destruct (vcs_push (vcsImpl self) r2) as [o r3] eqn:HP.
    rewrite (sync_push_run self _ _ _ _ _ HP).
    destruct o as [[]|[]]; cbn [snd log]; rewrite <- ?app_assoc;
      eexists; (split; [reflexivity|]); reflexivity.
  - erewrite bind_Ok; [| erewrite bind_Ok; [reflexivity | apply invoke_eq; exact HC]].
    eexists; split; reflexivity.
  - erewrite bind_Raise; [| erewrite bind_Raise; [reflexivity | apply invoke_eq; exact HC]].
    eexists; split; reflexivity.
Qed.

Lemma sync_iteration_calls self w :
  exists l,
    log (sync_iteration VERSION lib self w).2 = (log w ++ l)%list
    /\ pushes_follow_fetch false l = true.
Proof.
  destruct (pull_calls self w) as (l1 & E1 & N1 & F1).
  unfold sync_iteration, mbind at 1, M_bind at 1, bind at 1.
  destruct (pull VERSION lib self w) as [[[|]|e] w1]; cbn [fst snd negb] in *.
  - destruct (after_pull_calls self w1) as (l2 & E2 & H2).
    exists (l1 ++ l2)%list. split.
    + rewrite E2, E1, app_assoc. reflexivity.
    + rewrite pushes_follow_fetch_fetched by auto. exact H2.
  - exists l1. split; [exact E1 | apply pushes_follow_fetch_without_push; exact N1].
  - exists l1. split; [exact E1 | apply pushes_follow_fetch_without_push; exact N1].
Qed.

Lemma sync_loop_calls self fuel :
  forall w, exists l,
    log (sync_loop VERSION lib fuel self w).2 = (log w ++ l)%list
    /\ pushes_follow_fetch false l = true.
Proof.
  induction fuel as [|fuel IH]; intros w.
  - exists []. cbn. rewrite app_nil_r. split; reflexivity.
  - rewrite sync_loop_step.
    destruct (sync_iteration_calls self w) as (l1 & E1 & H1).
    destruct (sync_iteration VERSION lib self w) as [[[| |b]|e] w1]; cbn [snd] in *;
      try (exists l1; split; assumption).
    destruct (IH w1) as (l2 & E2 & H2).
    exists (l1 ++ l2)%list. split.
    + rewrite E2, E1, app_assoc. reflexivity.
    + apply pushes_follow_fetch_app; assumption.
Qed.

Lemma never_pushes_sync_commit self : never_pushes (sync_commit self).
Proof.
  unfold sync_commit, hasChangesToCommit, isWorkTreeClean, reportProgress, commitAll.
  repeat never_pushes_step.
Qed.

Lemma sync_calls self fuel w :
  exists l,
    log (sync VERSION lib fuel self w).2 = (log w ++ l)%list
    /\ pushes_follow_fetch false l = true.
Proof.
  destruct (never_pushes_sync_commit self w) as (l1 & E1 & N1).
  unfold sync, mbind, M_bind, bind.
  destruct (sync_commit self w) as [[[]|e] w1]; cbn [snd] in *.
  - destruct (sync_loop_calls self fuel w1) as (l2 & E2 & H2).
    exists (l1 ++ l2)%list. split.
    + rewrite E2, E1, app_assoc. reflexivity.
    + apply pushes_follow_fetch_app; [apply pushes_follow_fetch_without_push; exact N1 | exact H2].
  - exists l1. split; [exact E1 | apply pushes_follow_fetch_without_push; exact N1].
Qed.

(** C2. Every execution of the retry loop of [sync], after a successful
    [pull]: with nothing to push, [sync] returns [True]; a push that fails
    with the not-fast-forward error is followed by a progress report and by
    the loop again, which runs [pull] before anything else; a push that
    fails with another VCS error is followed by an error report and [sync]
    returns [False].  In the calls of any run of [sync], every [Push]
    comes after a [Fetch] that no other [Push] follows. *)
Theorem sync_retry_loop self :
  (forall fuel w0 w,
     sync_commit self w0 = (Ok tt, w) ->
     sync VERSION lib fuel self w0 = sync_loop VERSION lib fuel self w)
  /\ (forall fuel w w1,
        pull VERSION lib self w = (Ok true, w1) ->
        (forall r2,
           vcs_getChangesSince (vcsImpl self) "origin/master" (repo w1)
           = (Ok (mkChangeSet false), r2) ->
           sync_loop VERSION lib (S fuel) self w
           = (Ok (Some true),
              mkWorld r2 (log w1 ++ [GetChangesSince "origin/master"]) (stdout w1)))
        /\ (forall r2,
              vcs_getChangesSince (vcsImpl self) "origin/master" (repo w1)
              = (Ok (mkChangeSet true), r2) ->
              let pushed := (log w1 ++ [GetChangesSince "origin/master";
                                        ReportProgress "Pushing local changes"; Push])%list in
              (forall r3,
                 vcs_push (vcsImpl self) r2 = (Raise NotFastForwardError, r3) ->
                 sync_loop VERSION lib (S fuel) self w
                 = sync_loop VERSION lib fuel self
                     (mkWorld r3
                        (pushed ++ [ReportProgress "Remote has other changes, need to pull again"])
                        (stdout w1)))
              /\ (forall msg r3,
                    vcs_push (vcsImpl self) r2 = (Raise (VcsImplError msg), r3) ->
                    sync_loop VERSION lib (S fuel) self w
                    = (Ok (Some false),
                       mkWorld r3 (pushed ++ [ReportError ("Failed to push: " ++ msg)])
                         (stdout w1)))))
  /\ (forall fuel w,
        (forall w1, pull VERSION lib self w = (Ok false, w1) ->
                    sync_loop VERSION lib (S fuel) self w = (Ok (Some false), w1))
        /\ (forall e w1, pull VERSION lib self w = (Raise e, w1) ->
                         sync_loop VERSION lib (S fuel) self w = (Raise e, w1)))
  /\ (forall fuel w0,
        exists calls,
          log (sync VERSION lib fuel self w0).2 = (log w0 ++ calls)%list
          /\ pushes_follow_fetch false calls = true).
Proof.
  split; [| split; [| split]]; [| | | intros fuel w0; apply sync_calls].
  - intros fuel w0 w H. unfold sync. erewrite bind_Ok by exact H. reflexivity.
  - intros fuel w w1 HP. split.
    + intros r2 HC. rewrite sync_loop_step.
      rewrite (sync_iteration_nothing_to_push self w w1 r2 HP HC). reflexivity.
    + intros r2 HC pushed. split.
      * intros r3 HPush. rewrite sync_loop_step.
        rewrite (sync_iteration_to_push self w w1 r2 HP HC).
        rewrite (sync_push_run self _ _ _ _ _ HPush).
        unfold pushed. norm_log. reflexivity.
      * intros msg r3 HPush. rewrite sync_loop_step.
        rewrite (sync_iteration_to_push self w w1 r2 HP HC).
        rewrite (sync_push_run self _ _ _ _ _ HPush).
        unfold pushed. norm_log. reflexivity.
  - intros fuel w. split.
    + intros w1 HP. rewrite sync_loop_step.
      rewrite (sync_iteration_pull_failed self w w1 HP). reflexivity.
    + intros e w1 HP. rewrite sync_loop_step.
      rewrite (sync_iteration_pull_raised self w e w1 HP). reflexivity.
Qed.

End Sync.

(** ** Bootstrap of the dump repository *)

Section InitDumpRepository.

Context {Ext : Type}.
Variable lib : SyncLib Ext.
Variable os : Os Ext.
Implicit Types (w : World Ext) (self : SyncManager Ext) (f : gmap string Node).

Lemma append_inv_head (d x y : string) : d ++ x = d ++ y -> x = y.
Proof. induction d as [|a d IH]; cbn; intros H; [exact H | injection H as H; auto]. Qed.

Lemma path_join_inj d x y :
  startswith x "/" = false -> startswith y "/" = false ->
  path_join d x = path_join d y -> x = y.
Proof.
  intros Hx Hy. unfold path_join. rewrite Hx, Hy.
  destruct (String.eqb d "" || endswith d "/")%bool; intros H.
  - apply append_inv_head in H. exact H.
  - apply append_inv_head in H. apply (append_inv_head "/") in H. exact H.
Qed.


(** With the dump directory there, the assertion fails and nothing is
    done. *)
Lemma initDumpRepository_exists self w :
  path_exists os (_dumpDir self) (repo w) = true ->
  initDumpRepository lib os self w
  = (Raise (AssertionError ("Dump dir " ++ _dumpDir self ++ " should not already exist")), w).
Proof.
  intros Hex. unfold initDumpRepository, os_path_exists, query.
  unfold mbind at 1, M_bind at 1, bind at 1. rewrite Hex. cbn [negb].
  erewrite bind_Raise; [reflexivity | apply assert_false].
Qed.

(** Past the assertion, the steps of the bootstrap one after the other,
    each on the state the one before left. *)
Lemma initDumpRepository_steps self w :
  path_exists os (_dumpDir self) (repo w) = false ->
  initDumpRepository lib os self w
  = (os_makedirs os (_dumpDir self);;
     init (vcsImpl self);;
     createVersionFile lib (_dumpDir self);;
     os_mkdir os (path_join (_dumpDir self) "aliases");;
     os_mkdir os (path_join (_dumpDir self) "projects");;
     os_mkdir os (path_join (_dumpDir self) "tasks");;
     commitAll (vcsImpl self) "Created") w.
Proof.
  intros Hno. unfold initDumpRepository, os_path_exists, query.
  unfold mbind at 1, M_bind at 1, bind at 1. rewrite Hno. cbn [negb].
  erewrite bind_Ok; [| apply assert_true].
  unfold mbind, M_bind, bind. cbn [for_each].
  unfold ALIASES_DIRNAME, PROJECTS_DIRNAME, TASKS_DIRNAME, mbind, M_bind, bind, mret, M_ret, ret.
  destruct (os_makedirs os (_dumpDir self) w) as [[[]|e1] w1]; [| reflexivity].
  destruct (init (vcsImpl self) w1) as [[[]|e2] w2]; [| reflexivity].
  destruct (createVersionFile lib (_dumpDir self) w2) as [[[]|e3] w3]; [| reflexivity].
  destruct (os_mkdir os (path_join (_dumpDir self) "aliases") w3) as [[[]|e4] w4]; [| reflexivity].
  destruct (os_mkdir os (path_join (_dumpDir self) "projects") w4) as [[[]|e5] w5]; [| reflexivity].
  destruct (os_mkdir os (path_join (_dumpDir self) "tasks") w5) as [[[]|e6] w6]; reflexivity.
Qed.

(** A chain of calls stops at the first that raises: its log is the calls
    made so far, and it returns only when the chain is through. *)
Lemma invoke_chain (c : Call) (f : Repo Ext -> Outcome unit * Repo Ext)
    (rest : list Call) (k : M Ext unit) :
  (forall w o w', k w = (o, w') ->
     exists calls, calls `prefix_of` rest /\ log w' = (log w ++ calls)%list
                   /\ stdout w' = stdout w /\ (o = Ok tt -> calls = rest)) ->
  forall w o w', (invoke c f;; k) w = (o, w') ->
    exists calls, calls `prefix_of` (c :: rest) /\ calls ≠ []
                  /\ log w' = (log w ++ calls)%list
                  /\ stdout w' = stdout w /\ (o = Ok tt -> calls = c :: rest).
Proof.
  intros Hk w o w' Hrun. unfold mbind, M_bind, bind, invoke in Hrun.
  destruct (f (repo w)) as [[[]|e] r] eqn:Hf.
  - apply Hk in Hrun as (calls & Hpre & Hlog & Hout & Hall). cbn [log stdout] in Hlog, Hout.
    exists (c :: calls). split; [apply prefix_cons; exact Hpre|].
    split; [discriminate|]. split; [rewrite Hlog, <- app_assoc; reflexivity|].
    split; [exact Hout|]. intros Ho. rewrite (Hall Ho). reflexivity.
  - injection Hrun as <- <-. exists [c]. cbn [log stdout].
    split; [apply prefix_cons, prefix_nil|]. split; [discriminate|].
    split; [reflexivity|]. split; [reflexivity|]. discriminate.
Qed.

Lemma invoke_last (c : Call) (f : Repo Ext -> Outcome unit * Repo Ext) :
  forall w o w', invoke c f w = (o, w') ->
    exists calls, calls `prefix_of` [c] /\ log w' = (log w ++ calls)%list
                  /\ stdout w' = stdout w /\ (o = Ok tt -> calls = [c]).
Proof.
  intros w o w' Hrun. unfold invoke in Hrun.
  destruct (f (repo w)) as [o1 r]. injection Hrun as <- <-.
  exists [c]. cbn [log stdout]. repeat split; reflexivity.
Qed.

Lemma invoke_chain_weak (c : Call) (f : Repo Ext -> Outcome unit * Repo Ext)
    (rest : list Call) (k : M Ext unit) :
  (forall w o w', k w = (o, w') ->
     exists calls, calls `prefix_of` rest /\ log w' = (log w ++ calls)%list
                   /\ stdout w' = stdout w /\ (o = Ok tt -> calls = rest)) ->
  forall w o w', (invoke c f;; k) w = (o, w') ->
    exists calls, calls `prefix_of` (c :: rest)
                  /\ log w' = (log w ++ calls)%list
                  /\ stdout w' = stdout w /\ (o = Ok tt -> calls = c :: rest).
Proof.
  intros Hk w o w' Hrun.
  destruct (invoke_chain c f rest k Hk w o w' Hrun) as (calls & H1 & _ & H2).
  exists calls. split; assumption.
Qed.

(** The calls of a bootstrap, however it ends. *)
Lemma initDumpRepository_calls self w o w' :
  path_exists os (_dumpDir self) (repo w) = false ->
  initDumpRepository lib os self w = (o, w') ->
  exists calls,
    calls `prefix_of` bootstrap_calls (_dumpDir self) /\ calls ≠ []
    /\ log w' = (log w ++ calls)%list /\ stdout w' = stdout w
    /\ (o = Ok tt -> calls = bootstrap_calls (_dumpDir self)).
Proof.
  intros Hno Hrun. rewrite (initDumpRepository_steps self w Hno) in Hrun.
  revert w o w' Hno Hrun. intros w o w' _.
  unfold bootstrap_calls, os_makedirs, init, createVersionFile, os_mkdir, commitAll.
  revert w o w'. apply invoke_chain.
  do 5 apply invoke_chain_weak. apply invoke_last.
Qed.

(** The bootstrap when every step succeeds. *)
Lemma initDumpRepository_run self w r1 r2 r3 r4 r5 r6 r7 :
  let d := _dumpDir self in
  path_exists os d (repo w) = false ->
  makedirs os d (repo w) = (Ok tt, r1) ->
  vcs_init (vcsImpl self) r1 = (Ok tt, r2) ->
  lib_createVersionFile lib d r2 = (Ok tt, r3) ->
  mkdir os (path_join d "aliases") r3 = (Ok tt, r4) ->
  mkdir os (path_join d "projects") r4 = (Ok tt, r5) ->
  mkdir os (path_join d "tasks") r5 = (Ok tt, r6) ->
  vcs_commitAll (vcsImpl self) "Created" r6 = (Ok tt, r7) ->
  initDumpRepository lib os self w
  = (Ok tt, mkWorld r7 (log w ++ bootstrap_calls d) (stdout w)).
Proof.
  intros d Hno H1 H2 H3 H4 H5 H6 H7.
  rewrite (initDumpRepository_steps self w Hno). fold d.
  unfold os_makedirs, init, createVersionFile, os_mkdir, commitAll.
  run_with H1. run_with H2. run_with H3. run_with H4. run_with H5. run_with H6.
  run_with H7. unfold bootstrap_calls. norm_log. reflexivity.
Qed.

(** With [os.mkdir] making empty directories, the three collection
    directories are empty once the last of them is made. *)
Lemma collection_dirs_empty d r3 r4 r5 r6 :
  mkdir_makes_empty os d ->
  mkdir os (path_join d "aliases") r3 = (Ok tt, r4) ->
  mkdir os (path_join d "projects") r4 = (Ok tt, r5) ->
  mkdir os (path_join d "tasks") r5 = (Ok tt, r6) ->
  forall p, p ∈ collection_dirs d -> empty_dir r6 p.
Proof.
  intros [Hnew Hframe] H4 H5 H6.
  assert (path_join d "aliases" ≠ path_join d "projects") as HAP.
  { intros H. apply path_join_inj in H; [discriminate | reflexivity | reflexivity]. }
  assert (path_join d "aliases" ≠ path_join d "tasks") as HAT.
  { intros H. apply path_join_inj in H; [discriminate | reflexivity | reflexivity]. }
  assert (path_join d "projects" ≠ path_join d "tasks") as HPT.
  { intros H. apply path_join_inj in H; [discriminate | reflexivity | reflexivity]. }
  assert (path_join d "aliases" ∈ collection_dirs d) as HA
    by (apply list_elem_of_In; cbn; tauto).
  assert (path_join d "projects" ∈ collection_dirs d) as HP
    by (apply list_elem_of_In; cbn; tauto).
  assert (path_join d "tasks" ∈ collection_dirs d) as HT
    by (apply list_elem_of_In; cbn; tauto).
  intros p Hp. apply list_elem_of_In in Hp. unfold empty_dir.
  destruct Hp as [<-|[<-|[<-|[]]]].
  - rewrite (Hframe _ _ _ _ HA HT HAT H6), (Hframe _ _ _ _ HA HP HAP H5).
    exact (Hnew _ _ _ HA H4).
  - rewrite (Hframe _ _ _ _ HP HT HPT H6). exact (Hnew _ _ _ HP H5).
  - exact (Hnew _ _ _ HT H6).
Qed.

(** C8. [initDumpRepository()] fails by assertion when the dump directory
    exists, that is when [os.path.exists] says so, and leaves the world as
    it was.  Otherwise it calls, in this order and each on the state the
    one before left, [os.makedirs] on the directory, [init] of the VCS,
    [createVersionFile], [os.mkdir] on aliases, on projects and on tasks,
    and [commitAll] under the label Created.  Whatever the operating system
    and the collaborators do, the calls made are the first of these seven,
    up to the one that raised, and the bootstrap returns only after all of
    them; when each of them returns, so does the bootstrap.  When
    [os.mkdir] makes empty directories ([mkdir_makes_empty]), the three
    collection directories are empty when the commit is made. *)
Theorem initDumpRepository_bootstrap self w :
  let d := _dumpDir self in
  (path_exists os d (repo w) = true ->
   initDumpRepository lib os self w
   = (Raise (AssertionError ("Dump dir " ++ d ++ " should not already exist")), w))
  /\ (path_exists os d (repo w) = false ->
      (forall o w',
         initDumpRepository lib os self w = (o, w') ->
         exists calls,
           calls `prefix_of` bootstrap_calls d /\ calls ≠ []
           /\ log w' = (log w ++ calls)%list /\ stdout w' = stdout w
           /\ (o = Ok tt -> calls = bootstrap_calls d))
      /\ (forall r1 r2 r3 r4 r5 r6 r7,
            makedirs os d (repo w) = (Ok tt, r1) ->
            vcs_init (vcsImpl self) r1 = (Ok tt, r2) ->
            lib_createVersionFile lib d r2 = (Ok tt, r3) ->
            mkdir os (path_join d "aliases") r3 = (Ok tt, r4) ->
            mkdir os (path_join d "projects") r4 = (Ok tt, r5) ->
            mkdir os (path_join d "tasks") r5 = (Ok tt, r6) ->
            vcs_commitAll (vcsImpl self) "Created" r6 = (Ok tt, r7) ->
            initDumpRepository lib os self w
            = (Ok tt, mkWorld r7 (log w ++ bootstrap_calls d) (stdout w))
            /\ (mkdir_makes_empty os d ->
                forall p, p ∈ collection_dirs d -> empty_dir r6 p))).
Proof.
  intros d. split; [apply initDumpRepository_exists|].
  intros Hno. split.
  - intros o w' Hrun. exact (initDumpRepository_calls self w o w' Hno Hrun).
  - intros r1 r2 r3 r4 r5 r6 r7 H1 H2 H3 H4 H5 H6 H7. split.
    + exact (initDumpRepository_run self w r1 r2 r3 r4 r5 r6 r7 Hno H1 H2 H3 H4 H5 H6 H7).
    + intros Hos. exact (collection_dirs_empty d r3 r4 r5 r6 Hos H4 H5 H6).
Qed.

End InitDumpRepository.

(** ** The integrity checks *)

Section CheckItems.

Context {Ext : Type}.
Variable order : SetOrder.
Implicit Types (w : World Ext) (self : SyncManager Ext).

Lemma read_field {B} path field (k : PyKey -> M Ext B) w :
  (dct ← load_json path;
   v ← lift (getitem dct field);
   x ← lift (hashable v);
   k x) w
  = match field_key (fs (repo w)) path field with
    | Ok x => k x w
    | Raise e => (Raise e, w)
    end.
Proof.
  unfold field_key, load_json, query, lift, mbind, M_bind, bind.
  destruct (read_json (fs (repo w)) path) as [dct|e]; [|reflexivity].
  destruct (getitem dct field) as [v|e]; [|reflexivity].
  destruct (hashable v) as [x|e]; reflexivity.
Qed.

Lemma checkItems_scan_ok objectDir (uuid : string -> PyKey) w names :
  forall dumpUuids,
  (forall name, name ∈ names -> endswith name ".json" = true ->
                field_key (fs (repo w)) (path_join objectDir name) "uuid" = Ok (uuid name)) ->
  _checkItems_scan objectDir names dumpUuids w
  = (Ok (list_to_set (uuid <$> json_names names) ∪ dumpUuids), w).
Proof.
  induction names as [|name names IH]; intros dumpUuids Hread.
  - cbn. rewrite (left_id_L ∅ (∪)). reflexivity.
  - cbn [_checkItems_scan]. unfold json_names. rewrite filter_cons.
    destruct (endswith name ".json") eqn:Hjson; cbn [negb].
    + rewrite read_field. rewrite (Hread name); [| constructor | exact Hjson].
      rewrite IH by (intros n Hn; apply Hread; constructor; exact Hn).
      rewrite decide_True by reflexivity.
      do 2 f_equal. unfold json_names. cbn [fmap list_fmap list_to_set]. set_solver.
    + rewrite IH by (intros n Hn; apply Hread; constructor; exact Hn).
      rewrite decide_False by discriminate. reflexivity.
Qed.

Lemma str_items_all (l : list PyKey) :
  (forall k, k ∈ l -> exists s, k = KStr s) ->
  exists l', str_items l = Ok l' /\ KStr <$> l' = l.
Proof.
  induction l as [|k l IH]; intros H.
  - exists []. split; reflexivity.
  - destruct (H k) as [s ->]; [constructor|].
    destruct IH as (l' & Hl' & Heq); [intros k Hk; apply H; constructor; exact Hk|].
    exists (s :: l'). cbn. rewrite Hl'. split; [reflexivity|]. cbn. f_equal. exact Heq.
Qed.

Lemma report_missing_run heading (missing : gset PyKey) w :
  (forall k, k ∈ missing -> exists s, k = KStr s) ->
  exists lines,
    report_missing order heading missing w
    = (Ok tt, mkWorld (repo w) (log w) (stdout w ++ lines))
    /\ reported heading missing lines.
Proof.
  intros Hstr. unfold report_missing. case_bool_decide as Hne.
  - destruct (str_items_all (iter_set order missing)) as (l & Hl & Heq).
    { intros k Hk. apply Hstr. rewrite (iter_set_perm order) in Hk.
      apply elem_of_elements in Hk. exact Hk. }
    exists [heading ++ nl ++ join nl l ++ nl]. split.
    + unfold join_set. rewrite Hl. reflexivity.
    + right. split; [exact Hne|]. exists l. split; [|reflexivity].
      rewrite Heq. apply iter_set_perm.
  - exists []. split.
    + destruct w. cbn. rewrite app_nil_r. reflexivity.
    + left. split; [|reflexivity]. destruct (decide (missing = ∅)); [assumption|contradiction].
Qed.

(** C10. The presence check of one collection.  Only the entries of the
    directory whose names end in [.json] are read, whatever the others are;
    the UUID of an item is the [uuid] field of its content.  With the dump
    UUIDs and the database UUIDs so obtained, the check prints its title,
    then the dump-only UUIDs as missing DB items and the database-only
    UUIDs as missing dump items, and nothing but the title when the two
    sets are equal. *)
Theorem checkItems_presence self w dirname table names (uuid : string -> string) :
  session self = true ->
  let objectDir := path_join (_dumpDir self) dirname in
  fs (repo w) !! objectDir = Some (Dir names) ->
  (forall name, name ∈ names -> endswith name ".json" = true ->
     field_key (fs (repo w)) (path_join objectDir name) "uuid" = Ok (KStr (uuid name))) ->
  let dumpUuids : gset PyKey := list_to_set ((fun name => KStr (uuid name)) <$> json_names names) in
  let dbUuids : gset PyKey :=
    list_to_set ((fun x => KStr (row_uuid x)) <$> database (repo w) table) in
  exists missingDb missingDump,
    _checkItems order self dirname table w
    = (Ok tt,
       mkWorld (repo w) (log w)
         (stdout w ++ ["# Checking all " ++ dirname ++ " are there"] ++ missingDb ++ missingDump))
    /\ reported "## Missing DB items:" (dumpUuids ∖ dbUuids) missingDb
    /\ reported "## Missing dump items:" (dbUuids ∖ dumpUuids) missingDump
    /\ (dumpUuids = dbUuids -> missingDb = [] /\ missingDump = []).
Proof.
  intros HS objectDir Hdir Hread dumpUuids dbUuids.
  assert (forall k, k ∈ dumpUuids ∪ dbUuids -> exists s, k = KStr s) as Hstr.
  { intros k Hk. apply elem_of_union in Hk as [Hk|Hk];
      apply elem_of_list_to_set, list_elem_of_fmap in Hk as (x & -> & _); eauto. }
  set (w1 := mkWorld (repo w) (log w)
               (stdout w ++ ["# Checking all " ++ dirname ++ " are there"])).
  destruct (report_missing_run "## Missing DB items:" (dumpUuids ∖ dbUuids) w1)
    as (missingDb & HrunDb & HDb); [intros k Hk; apply Hstr; set_solver|].
  destruct (report_missing_run "## Missing dump items:" (dbUuids ∖ dumpUuids)
              (mkWorld (repo w1) (log w1) (stdout w1 ++ missingDb)))
    as (missingDump & HrunDump & HDump); [intros k Hk; apply Hstr; set_solver|].
  assert (dumpUuids = dbUuids -> missingDb = [] /\ missingDump = []) as Heq.
  { intros E. split.
    - destruct HDb as [[_ ?]|[Hne _]]; [assumption|]. exfalso. apply Hne. set_solver.
    - destruct HDump as [[_ ?]|[Hne _]]; [assumption|]. exfalso. apply Hne. set_solver. }
  exists missingDb, missingDump. split; [| auto].
  unfold _checkItems. fold objectDir.
  erewrite bind_Ok; [| reflexivity].
  unfold os_listdir, query. erewrite bind_Ok; [| cbn [repo]; rewrite Hdir; reflexivity].
  erewrite bind_Ok.
  2:{ apply (checkItems_scan_ok objectDir (fun name => KStr (uuid name))). exact Hread. }
  unfold session_query_all. rewrite HS. erewrite bind_Ok; [| reflexivity].
  fold w1. cbn [repo].
  replace (list_to_set ((fun name => KStr (uuid name)) <$> json_names names) ∪ ∅)
    with dumpUuids by (unfold dumpUuids; set_solver).
  change (database (repo w1) table) with (database (repo w) table). fold dbUuids.
  case_bool_decide as Hne.
  - erewrite bind_Ok by exact HrunDb. rewrite HrunDump.
    unfold w1. cbn [repo log stdout]. rewrite <- !app_assoc. reflexivity.
  - destruct Heq as [-> ->]; [congruence|].
    unfold w1. reflexivity.
Qed.

End CheckItems.

(** *** The referential check *)

Section CheckTaskProjects.

Context {Ext : Type}.
Implicit Types (w : World Ext) (self : SyncManager Ext).

Lemma printed_printed w l1 l2 : printed (printed w l1) l2 = printed w (l1 ++ l2).
Proof. unfold printed. cbn. rewrite app_assoc. reflexivity. Qed.

Lemma printed_nil w : printed w [] = w.
Proof. destruct w. unfold printed. cbn. rewrite app_nil_r. reflexivity. Qed.

(** One iteration of the scan, and the value of [first] after it. *)
Lemma checkTaskProjects_scan_cons taskDir projectUuids name names first w :
  _checkTaskProjects_scan taskDir projectUuids (name :: names) first w
  = match field_key (fs (repo w)) (path_join taskDir name) "projectUuid" with
    | Ok k =>
        if not_in k projectUuids then
          _checkTaskProjects_scan taskDir projectUuids names false
            (printed w ((if first then [NON_EXISTING] else []) ++ [path_join taskDir name]))
        else _checkTaskProjects_scan taskDir projectUuids names first w
    | Raise exc =>
        (Raise (ChainedException ("Error in " ++ path_join taskDir name) exc), w)
    end.
Proof.
  cbn [_checkTaskProjects_scan].
  unfold mbind at 1, M_bind at 1, bind at 1, try_except.
  rewrite read_field.
  destruct (field_key (fs (repo w)) (path_join taskDir name) "projectUuid") as [k|exc];
    [|reflexivity].
  destruct (not_in k projectUuids); [|reflexivity].
  destruct first; unfold print, printed, mbind, M_bind, bind, mret, M_ret, ret;
    cbn [repo log stdout app]; rewrite <- ?app_assoc; reflexivity.
Qed.

(** The scan over readable files, followed by the rest. *)
Lemma checkTaskProjects_scan_prefix taskDir projectUuids pre rest :
  forall first w,
  (forall n, n ∈ pre -> readable_task (fs (repo w)) taskDir n) ->
  let found := path_join taskDir <$>
                 filter (fun n => dangling (fs (repo w)) taskDir projectUuids n = true) pre in
  _checkTaskProjects_scan taskDir projectUuids (pre ++ rest) first w
  = _checkTaskProjects_scan taskDir projectUuids rest
      (first && bool_decide (found = [])) (printed w (dangling_lines first found)).
Proof.
  induction pre as [|n pre IH]; intros first w Hread found.
  - cbn. rewrite printed_nil, andb_true_r. reflexivity.
  - cbn [app]. rewrite checkTaskProjects_scan_cons.
    destruct (Hread n) as [k Hk]; [constructor|].
    assert (dangling (fs (repo w)) taskDir projectUuids n = not_in k projectUuids) as Hd
      by (unfold dangling; rewrite Hk; reflexivity).
    rewrite Hk. unfold found. rewrite filter_cons.
    assert (forall n', n' ∈ pre -> readable_task (fs (repo w)) taskDir n') as Hpre
      by (intros n' Hn'; apply Hread; constructor; exact Hn').
    destruct (not_in k projectUuids) eqn:Hk'.
    + rewrite decide_True by exact Hd.
      rewrite IH by exact Hpre. cbn [repo printed].
      rewrite printed_printed. cbn [fmap list_fmap]. rewrite andb_false_r.
      f_equal. f_equal.
      generalize (path_join taskDir <$>
                    filter (fun n0 => dangling (fs (repo w)) taskDir projectUuids n0 = true) pre).
      intros l. unfold dangling_lines.
      destruct l; cbn [app]; rewrite <- ?app_assoc, ?app_nil_r; reflexivity.
    + rewrite decide_False by (rewrite Hd; discriminate).
      rewrite IH by exact Hpre. reflexivity.
Qed.

(** The scan only prints. *)
Lemma checkTaskProjects_scan_prints taskDir projectUuids names :
  forall first w, exists lines,
    (_checkTaskProjects_scan taskDir projectUuids names first w).2 = printed w lines.
Proof.
  induction names as [|n names IH]; intros first w.
  - exists []. cbn. rewrite printed_nil. reflexivity.
  - rewrite checkTaskProjects_scan_cons.
    destruct (field_key _ _ _) as [k|exc].
    + destruct (not_in k projectUuids).
      * destruct (IH false (printed w ((if first then [NON_EXISTING] else [])
                                        ++ [path_join taskDir n]))) as [lines Hl].
        eexists. rewrite Hl, printed_printed. reflexivity.
      * apply IH.
    + exists []. cbn. rewrite printed_nil. reflexivity.
Qed.

Lemma checkTaskProjects_run self w projectNames taskNames :
  fs (repo w) !! path_join (_dumpDir self) PROJECTS_DIRNAME = Some (Dir projectNames) ->
  fs (repo w) !! path_join (_dumpDir self) TASKS_DIRNAME = Some (Dir taskNames) ->
  _checkTaskProjects self w
  = _checkTaskProjects_scan (path_join (_dumpDir self) TASKS_DIRNAME)
      (list_to_set (stem <$> projectNames)) taskNames true
      (printed w ["# Checking all tasks have an existing project"]).
Proof.
  intros HP HT. unfold _checkTaskProjects.
  erewrite bind_Ok; [| reflexivity].
  unfold os_listdir, query.
  erewrite bind_Ok; [| cbn [repo]; rewrite HP; reflexivity].
  erewrite bind_Ok; [| cbn [repo]; rewrite HT; reflexivity].
  reflexivity.
Qed.

(** C7, as amended. The referential check reads the task files in the
    order of the listing and stops at the first one it cannot read.  For a
    task file before which every file of the listing is readable: when its
    [projectUuid] is not among the project UUIDs (the names of the project
    files without extension), its path is printed after the heading of the
    tasks that point to a non existing project; when it cannot be read, or
    holds no usable [projectUuid], the check raises the exception that
    names its path and carries the cause. *)
Theorem checkTaskProjects_reached self w projectNames pre name post :
  let taskDir := path_join (_dumpDir self) TASKS_DIRNAME in
  fs (repo w) !! path_join (_dumpDir self) PROJECTS_DIRNAME = Some (Dir projectNames) ->
  fs (repo w) !! taskDir = Some (Dir (pre ++ name :: post)) ->
  (forall n, n ∈ pre -> readable_task (fs (repo w)) taskDir n) ->
  let projectUuids : gset string := list_to_set (stem <$> projectNames) in
  let taskPath := path_join taskDir name in
  (forall k,
     field_key (fs (repo w)) taskPath "projectUuid" = Ok k ->
     not_in k projectUuids = true ->
     exists before after,
       stdout (_checkTaskProjects self w).2
       = (stdout w ++ before ++ [taskPath] ++ after)%list
       /\ NON_EXISTING ∈ before)
  /\ (forall exc,
        field_key (fs (repo w)) taskPath "projectUuid" = Raise exc ->
        exists lines,
          _checkTaskProjects self w
          = (Raise (ChainedException ("Error in " ++ taskPath) exc), printed w lines)).
Proof.
  intros taskDir HP HT Hread projectUuids taskPath.
  pose proof (checkTaskProjects_run self w projectNames _ HP HT) as Hrun.
  fold taskDir projectUuids in Hrun.
  set (w0 := printed w ["# Checking all tasks have an existing project"]) in *.
  rewrite (checkTaskProjects_scan_prefix taskDir projectUuids pre (name :: post) true w0)
    in Hrun by exact Hread.
  unfold w0 in Hrun. cbn [repo printed] in Hrun.
  set (found := path_join taskDir <$>
                  filter (fun n => dangling (fs (repo w)) taskDir projectUuids n = true) pre)
    in *.
  rewrite checkTaskProjects_scan_cons in Hrun. cbn [repo printed] in Hrun.
  fold taskPath in Hrun. fold w0 in Hrun.
  split.
  - intros k Hk Hdang. rewrite Hk, Hdang in Hrun.
    match type of Hrun with
    | _ = _checkTaskProjects_scan _ _ _ _ ?w' =>
        destruct (checkTaskProjects_scan_prints taskDir projectUuids post false w')
          as [after Hafter]
    end.
    rewrite <- Hrun in Hafter. rewrite Hafter.
    exists (["# Checking all tasks have an existing project"] ++ dangling_lines true found
            ++ (if (true && bool_decide (found = []))%bool then [NON_EXISTING] else []))%list,
           after.
    split.
    + unfold w0, printed. cbn [repo log stdout]. rewrite <- !app_assoc. reflexivity.
    + unfold dangling_lines. destruct found as [|p l].
      * rewrite bool_decide_eq_true_2 by reflexivity. cbn.
        apply list_elem_of_In. cbn. tauto.
      * apply list_elem_of_In. cbn. tauto.
  - intros exc Hexc. rewrite Hexc in Hrun. rewrite Hrun.
    eexists. unfold w0. rewrite printed_printed. reflexivity.
Qed.

End CheckTaskProjects.

(** *** The unicity check *)

Section CheckUnicity.

Context {Ext : Type}.
Implicit Types (w : World Ext) (self : SyncManager Ext).

(** With a conflict to list, the check prints how many items share the
    name and fails on [conflictList["uuid"]]: a list is indexed by a
    string.  No path is printed. *)
Lemma checkUnicity_conflict_raises self w dirname name c cl rest w1 :
  findConflicts (path_join (_dumpDir self) dirname) "name"
    (printed w ["# Checking " ++ dirname ++ " unicity"])
  = (Ok ((name, c :: cl) :: rest), w1) ->
  _checkUnicity self dirname w
  = (Raise (TypeError "list indices must be integers or slices, not str"),
     printed w1 ["## " ++ format_key name ++ " exists "
                 ++ format_int (Z.of_nat (length (c :: cl))) ++ " times"]).
Proof.
  intros H. unfold _checkUnicity.
  erewrite bind_Ok; [| reflexivity].
  erewrite bind_Ok; [| exact H].
  reflexivity.
Qed.

End CheckUnicity.

(** C4, on the dump with two project files named work: the unicity check
    finds the conflict, prints that the name exists 2 times, and raises
    [TypeError] where it should print the two paths; neither path is
    printed. *)
Theorem checkUnicity_twin_projects :
  let w := Stub.world Samples.twin_projects Stub.no_rows Samples.quiet in
  exists p1 p2,
    findConflicts "/dump/projects" "name" w = (Ok [(OStr "work", [p1; p2])], w)
    /\ _checkUnicity Stub.manager "projects" w
       = (Raise (TypeError "list indices must be integers or slices, not str"),
          printed w ["# Checking projects unicity"; "## work exists 2 times"])
    /\ ("/dump/projects/p1.json" ∉ stdout (_checkUnicity Stub.manager "projects" w).2)
    /\ ("/dump/projects/p2.json" ∉ stdout (_checkUnicity Stub.manager "projects" w).2).
Proof.
  intros w. eexists _, _.
  split; [vm_compute; reflexivity|].
  split; [vm_compute; reflexivity|].
  split; intros H; apply list_elem_of_In in H; vm_compute in H;
    repeat (destruct H as [H|H]; [discriminate|]); exact H.
Qed.

(** C7, as the spec words it, fails on the dump whose first task file is
    not JSON and whose second task points to a project that is not there:
    the check stops at the first file and the second is never reported. *)
Lemma every_task_checked_counterexample :
  ~ every_task_checked Stub.manager
      (Stub.world Samples.broken_then_dangling Stub.no_rows Samples.quiet).
Proof.
  intros Hclaim.
  destruct (Hclaim ["p1.json"] ["t0.json"; "t1.json"] "t1.json") as [Hreported _].
  - vm_compute. reflexivity.
  - vm_compute. reflexivity.
  - apply list_elem_of_In. cbn. tauto.
  - specialize (Hreported (KStr "gone")).
    assert ("/dump/tasks/t1.json"
            ∈ stdout (_checkTaskProjects Stub.manager
                        (Stub.world Samples.broken_then_dangling Stub.no_rows Samples.quiet)).2)
      as H.
    { apply Hreported; vm_compute; reflexivity. }
    apply list_elem_of_In in H. vm_compute in H.
    repeat (destruct H as [H|H]; [discriminate|]). exact H.
Qed.

(** ** The engine on the stub *)

Section Witnesses.

Import Stub Samples.

Example SyncManager_init_stub : SyncManager_init true (Some (vcs "/dump")) = Ok manager.
Proof. reflexivity. Qed.

Example SyncManager_init_no_vcs :
  SyncManager_init (Ext := Outside) true None = Raise (AssertionError "vcsImpl cannot be None").
Proof. reflexivity. Qed.

(** Remote version 1, local version 2, local state up to date: [pull]
    returns [True]. *)
Example pull_current_returns_true : (pull 2 lib manager current).1 = Ok true.
Proof. reflexivity. Qed.

(** A push refused once: [sync] pulls again, pushes again and returns
    [True]; the tag is gone. *)
Example sync_contended :
  (sync 2 lib 3 manager contended).1 = Ok (Some true)
  /\ filter (fun c => c = Fetch \/ c = Push) (log (sync 2 lib 3 manager contended).2)
     = [Fetch; Push; Fetch; Push]
  /\ merge_in_progress manager (sync 2 lib 3 manager contended).2 false.
Proof. repeat split; vm_compute; reflexivity. Qed.

(** A push that fails for another reason: [sync] reports it and returns
    [False]. *)
Example sync_push_failure :
  let w := world ∅ no_rows (mkOutside 2 true true true false [VcsImplError "no route"]) in
  (sync 2 lib 3 manager w).1 = Ok (Some false)
  /\ last (log (sync 2 lib 3 manager w).2) = Some (ReportError "Failed to push: no route").
Proof. split; vm_compute; reflexivity. Qed.

(** The whole integrity check stops at the unicity check of a dump with
    two projects of one name. *)
Example checkDumpIntegrity_twin_projects :
  (checkDumpIntegrity order manager
     (world twin_projects (fun t => match t with
                                    | Project => [mkRow "p1"; mkRow "p2"]
                                    | _ => []
                                    end) quiet)).1
  = Raise (TypeError "list indices must be integers or slices, not str").
Proof. vm_compute. reflexivity. Qed.

Lemma pull_version_gate_witness :
  pull 2 lib manager upgrade
  = (Ok false,
     mkWorld (repo upgrade)
       [IsWorkTreeClean; ReportProgress "Pulling remote changes"; Fetch; GetRemoteDumpVersion;
        ReportError (upgrade_needed_msg 2 3)] [])
  /\ pull 2 lib manager stale
     = (Ok false,
        mkWorld (repo stale)
          [IsWorkTreeClean; ReportProgress "Pulling remote changes"; Fetch; GetRemoteDumpVersion;
           IsUpToDate; ReportError (downgrade_conflict_msg 2 1)] [])
  /\ pull 2 lib manager current
     = pull_merge lib manager
         (mkWorld (repo current)
            [IsWorkTreeClean; ReportProgress "Pulling remote changes"; Fetch;
             GetRemoteDumpVersion; IsUpToDate] [])
  /\ pull 2 lib manager quiet_world
     = pull_merge lib manager
         (mkWorld (repo quiet_world)
            [IsWorkTreeClean; ReportProgress "Pulling remote changes"; Fetch;
             GetRemoteDumpVersion] []).
Proof.
  split; [| split; [| split]].
  - exact (proj1 (pull_version_gate 2 lib manager upgrade
                    (repo upgrade) (repo upgrade) (repo upgrade) 3
                    eq_refl eq_refl eq_refl eq_refl) eq_refl).
  - exact (proj1 (proj2 (pull_version_gate 2 lib manager stale
                           (repo stale) (repo stale) (repo stale) 1
                           eq_refl eq_refl eq_refl eq_refl)) eq_refl (repo stale) eq_refl).
  - exact (proj2 (proj1 (proj2 (proj2 (pull_version_gate 2 lib manager current
                                         (repo current) (repo current) (repo current) 1
                                         eq_refl eq_refl eq_refl eq_refl)))
                    eq_refl (repo current) eq_refl)).
  - exact (proj2 (proj2 (proj2 (proj2 (pull_version_gate 2 lib manager quiet_world
                                         (repo quiet_world) (repo quiet_world)
                                         (repo quiet_world) 2
                                         eq_refl eq_refl eq_refl eq_refl))) eq_refl)).
Defined.

Lemma pull_gate_failure_witness :
  pull 2 lib manager dirty
  = (Raise (AssertionError ""), mkWorld (repo dirty) [IsWorkTreeClean] [])
  /\ pull 2 lib manager upgrade
     = (Ok false,
        mkWorld (repo upgrade)
          [IsWorkTreeClean; ReportProgress "Pulling remote changes"; Fetch; GetRemoteDumpVersion;
           ReportError (upgrade_needed_msg 2 3)] []).
Proof.
  split.
  - exact (proj1 (pull_gate_failure 2 lib manager dirty eq_refl) (repo dirty) eq_refl).
  - exact (proj1 (proj2 (proj2 (pull_gate_failure 2 lib manager upgrade eq_refl))
                    (repo upgrade) (repo upgrade) eq_refl eq_refl
                    (mkWorld (repo upgrade)
                       [IsWorkTreeClean; ReportProgress "Pulling remote changes"; Fetch;
                        GetRemoteDumpVersion; ReportError (upgrade_needed_msg 2 3)] [])
                    eq_refl)).
Defined.

Lemma sync_retry_loop_witness :
  sync_loop 2 lib 2 manager contended = sync_loop 2 lib 1 manager contended_refused.
Proof.
  exact (proj1 (proj2 (proj1 (proj2 (sync_retry_loop 2 lib manager))
                         1%nat contended contended_pulled eq_refl)
                  (repo contended) eq_refl)
           (repo contended_refused) eq_refl).
Defined.

Lemma mergeOperation_tag_lifecycle_witness :
  _mergeOperation manager (raise (A := unit) (OtherError "conflict")) quiet_world
  = (Raise (OtherError "conflict"), tagged quiet_world)
  /\ merge_in_progress manager (tagged quiet_world) true
  /\ _mergeOperation manager (merge lib) quiet_world
     = (Ok tt, untagged (mkWorld (repo (tagged quiet_world))
                           [CreateTag BEFORE_MERGE_TAG; Merge] []))
  /\ merge_in_progress manager
       (untagged (mkWorld (repo (tagged quiet_world)) [CreateTag BEFORE_MERGE_TAG; Merge] []))
       false.
Proof.
  split; [| split].
  - exact (proj1 (proj1 (proj2 (proj2 (mergeOperation_tag_lifecycle manager
                                         (raise (A := unit) (OtherError "conflict"))
                                         quiet_world)))
                    (OtherError "conflict") (tagged quiet_world) eq_refl)).
  - exact (proj2 (proj1 (proj2 (proj2 (mergeOperation_tag_lifecycle manager
                                         (raise (A := unit) (OtherError "conflict"))
                                         quiet_world)))
                    (OtherError "conflict") (tagged quiet_world) eq_refl) eq_refl).
  - exact (proj1 (proj2 (mergeOperation_tag_lifecycle manager (merge lib) quiet_world))
             tt (mkWorld (repo (tagged quiet_world)) [CreateTag BEFORE_MERGE_TAG; Merge] [])
             eq_refl).
Defined.

Lemma abortMerge_restores_witness :
  exists w',
    abortMerge manager merging = (Ok tt, w')
    /\ history (repo w') = [mkCommit "Created" ∅]
    /\ fs (repo w') = tree_of [mkCommit "Created" ∅]
    /\ merge_in_progress manager w' false
    /\ log w' = [ResetTo BEFORE_MERGE_TAG; DeleteTag BEFORE_MERGE_TAG].
Proof.
  exact (proj1 (abortMerge_restores manager merging [mkCommit "Created" ∅] eq_refl)).
Defined.

(** The operating system of the stub makes empty directories. *)
Lemma stub_mkdir_fs q (r r' : Repo Outside) :
  mkdir os q r = (Ok tt, r') ->
  forall p, p ≠ q -> p ≠ (path_split q).1 -> fs r' !! p = fs r !! p.
Proof.
  unfold os, mkdir. intros H p Hq Hparent.
  destruct (fs r !! q); [discriminate|].
  destruct (fs r !! (path_split q).1) as [[es|c]|] eqn:Hd; try discriminate.
  injection H as <-. cbn [fs set_fs]. unfold add_dir.
  destruct (path_split q) as [head tail]. cbn [fst] in Hd, Hparent. rewrite Hd.
  rewrite !lookup_insert_ne by congruence. reflexivity.
Qed.

Lemma stub_mkdir_makes_empty : mkdir_makes_empty os "/dump".
Proof.
  split.
  - unfold os, mkdir, empty_dir. intros p r r' _ H.
    destruct (fs r !! p); [discriminate|].
    destruct (fs r !! (path_split p).1) as [[es|c]|]; try discriminate.
    injection H as <-. cbn [fs set_fs]. unfold add_dir.
    destruct (path_split p) as [head tail].
    destruct (fs r !! head) as [[es'|c']|]; apply lookup_insert_eq.
  - intros p q r r' Hp Hq Hne H.
    apply (stub_mkdir_fs q r r' H p Hne).
    apply list_elem_of_In in Hp, Hq.
    destruct Hq as [<-|[<-|[<-|[]]]]; destruct Hp as [<-|[<-|[<-|[]]]]; discriminate.
Qed.

Lemma initDumpRepository_bootstrap_witness :
  initDumpRepository lib os manager quiet_world
  = (Ok tt,
     mkWorld (vcs_commitAll (vcs "/dump") "Created" populated).2 (bootstrap_calls "/dump") [])
  /\ forall p, p ∈ collection_dirs "/dump" -> empty_dir populated p.
Proof.
  destruct (proj2 (proj2 (initDumpRepository_bootstrap lib os manager quiet_world) eq_refl)
              made made versioned with_aliases with_projects populated
              (vcs_commitAll (vcs "/dump") "Created" populated).2
              eq_refl eq_refl eq_refl eq_refl eq_refl eq_refl eq_refl) as [Hrun Hempty].
  split; [exact Hrun | exact (Hempty stub_mkdir_makes_empty)].
Defined.

Lemma importAll_merge_scope_witness :
  merge_in_progress manager (tagged quiet_world) true
  /\ importAll lib manager quiet_world
     = (Ok tt,
        untagged (mkWorld (repo (tagged quiet_world))
                    [CreateTag BEFORE_MERGE_TAG; ImportAll] [])).
Proof.
  split.
  - exact (proj1 (importAll_merge_scope lib manager quiet_world eq_refl)).
  - exact (proj1 (proj1 (proj2 (importAll_merge_scope lib manager quiet_world eq_refl))
                    (repo (tagged quiet_world)) eq_refl)).
Defined.

Lemma checkItems_presence_witness :
  let w := world renamed_project (one_project "p1") quiet in
  let dumpUuids : gset PyKey :=
    list_to_set ((fun _ : string => KStr "abc") <$> json_names ["notes.txt"; "p1.json"]) in
  let dbUuids : gset PyKey :=
    list_to_set ((fun x => KStr (row_uuid x)) <$> one_project "p1" Project) in
  exists missingDb missingDump,
    _checkItems order manager "projects" Project w
    = (Ok tt,
       mkWorld (repo w) []
         (["# Checking all projects are there"] ++ missingDb ++ missingDump))
    /\ reported "## Missing DB items:" (dumpUuids ∖ dbUuids) missingDb
    /\ reported "## Missing dump items:" (dbUuids ∖ dumpUuids) missingDump
    /\ (dumpUuids = dbUuids -> missingDb = [] /\ missingDump = []).
Proof.
  assert (forall name, name ∈ ["notes.txt"; "p1.json"] -> endswith name ".json" = true ->
            field_key renamed_project (path_join (path_join "/dump" "projects") name) "uuid"
            = Ok (KStr "abc")) as Hread.
  { intros name Hn Hj. apply list_elem_of_In in Hn.
    destruct Hn as [<-|[<-|[]]]; [discriminate Hj | reflexivity]. }
  exact (checkItems_presence order manager (world renamed_project (one_project "p1") quiet)
           "projects" Project ["notes.txt"; "p1.json"] (fun _ => "abc")
           eq_refl eq_refl Hread).
Defined.

Lemma checkTaskProjects_reached_witness :
  (exists before after,
     stdout (_checkTaskProjects manager (world dangling_then_broken no_rows quiet)).2
     = (before ++ ["/dump/tasks/t1.json"] ++ after)%list
     /\ NON_EXISTING ∈ before)
  /\ (exists lines,
        _checkTaskProjects manager (world dangling_then_broken no_rows quiet)
        = (Raise (ChainedException "Error in /dump/tasks/t2.json"
                    (JSONDecodeError "/dump/tasks/t2.json")),
           printed (world dangling_then_broken no_rows quiet) lines)).
Proof.
  assert (forall n, n ∈ ["t0.json"; "t1.json"] ->
            readable_task dangling_then_broken (path_join "/dump" "tasks") n) as Hread.
  { intros n Hn. apply list_elem_of_In in Hn.
    destruct Hn as [<-|[<-|[]]]; eexists; reflexivity. }
  split.
  - refine (proj1 (checkTaskProjects_reached manager (world dangling_then_broken no_rows quiet)
                     ["p1.json"] ["t0.json"] "t1.json" ["t2.json"] eq_refl eq_refl _)
              (KStr "gone") eq_refl eq_refl).
    intros n Hn. apply Hread. apply list_elem_of_In in Hn. apply list_elem_of_In.
    cbn in *. tauto.
  - exact (proj2 (checkTaskProjects_reached manager (world dangling_then_broken no_rows quiet)
                    ["p1.json"] ["t0.json"; "t1.json"] "t2.json" [] eq_refl eq_refl Hread)
             (JSONDecodeError "/dump/tasks/t2.json") eq_refl).
Defined.

End Witnesses.

(** * More of the engine *)

(** ** Merges and imports stay under the checkpoint tag *)

Section Scope.

Context {Ext : Type}.
Variable VERSION : Z.
Variable lib : SyncLib Ext.
Implicit Types (w : World Ext) (self : SyncManager Ext).

Lemma emits_only_ret P {A} (a : A) : emits_only P (mret a : M Ext A).
Proof. intros w. exists []. cbn. rewrite app_nil_r. split; reflexivity. Qed.

Lemma emits_only_raise P {A} e : emits_only P (raise e : M Ext A).
Proof. intros w. exists []. cbn. rewrite app_nil_r. split; reflexivity. Qed.

Lemma emits_only_assert P c msg : emits_only P (assert (Ext := Ext) c msg).
Proof. destruct c; [apply (emits_only_ret P tt) | apply emits_only_raise]. Qed.

Lemma emits_only_invoke P {A} c (f : Repo Ext -> Outcome A * Repo Ext) :
  P c = true -> emits_only P (invoke c f).
Proof.
  intros Hc w. exists [c]. unfold invoke. destruct (f (repo w)) as [o rp]. cbn.
  rewrite Hc. split; reflexivity.
Qed.

Lemma emits_only_bind P {A B} (m : M Ext A) (f : A -> M Ext B) :
  emits_only P m -> (forall a, emits_only P (f a)) -> emits_only P (m ≫= f).
Proof.
  intros Hm Hf w. destruct (Hm w) as (l1 & E1 & N1).
  unfold mbind, M_bind, bind. destruct (m w) as [[a|e] w1]; cbn [fst snd] in *.
  - destruct (Hf a w1) as (l2 & E2 & N2). exists (l1 ++ l2)%list. split.
    + rewrite E2, E1, app_assoc. reflexivity.
    + rewrite forallb_app, N1, N2. reflexivity.
  - exists l1. auto.
Qed.

Lemma emits_only_try P {A} (m : M Ext A) (handler : Exc -> option (M Ext A)) :
  emits_only P m -> (forall e h, handler e = Some h -> emits_only P h) ->
  emits_only P (try_except m handler).
Proof.
  intros Hm Hh w. destruct (Hm w) as (l1 & E1 & N1).
  unfold try_except. destruct (m w) as [[a|e] w1]; cbn [fst snd] in *.
  - exists l1. auto.
  - destruct (handler e) as [h|] eqn:He; [| exists l1; auto].
    destruct (Hh e h He w1) as (l2 & E2 & N2). exists (l1 ++ l2)%list. split.
    + rewrite E2, E1, app_assoc. reflexivity.
    + rewrite forallb_app, N1, N2. reflexivity.
Qed.

Ltac emits_step :=
  first
    [ apply emits_only_bind; [| intros ?]
    | apply emits_only_invoke; reflexivity
    | apply emits_only_ret
    | apply emits_only_raise
    | apply emits_only_assert
    | match goal with |- emits_only _ (if ?b then _ else _) => destruct b end ].

Lemma merge_scoped_without_merge l :
  forallb (fun c => negb (merge_call c)) l = true -> forall b, merge_scoped b l = true.
Proof.
  induction l as [|c l IH]; intros H b; [reflexivity|].
  cbn in H. apply andb_true_iff in H as [Hc Hl].
  destruct c; cbn in *; try discriminate; auto.
Qed.

Lemma merge_scoped_under_tag l rest :
  forallb (fun c => negb (tag_call c)) l = true ->
  merge_scoped true (l ++ rest) = merge_scoped true rest.
Proof.
  induction l as [|c l IH]; intros H; [reflexivity|].
  cbn in H. apply andb_true_iff in H as [Hc Hl].
  destruct c; cbn in *; try discriminate; auto.
Qed.

Lemma merge_scoped_app l1 l2 :
  forall b, merge_scoped b l1 = true -> (forall b', merge_scoped b' l2 = true) ->
            merge_scoped b (l1 ++ l2) = true.
Proof.
  induction l1 as [|c l1 IH]; intros b H1 H2; [apply H2|].
  destruct c; cbn in *; auto;
    apply andb_true_iff in H1 as [-> H1]; cbn; auto.
Qed.

Lemma keeps_scope_of_emits {A} (m : M Ext A) :
  emits_only (fun c => negb (merge_call c)) m -> keeps_scope m.
Proof.
  intros H w. destruct (H w) as (l & E & N). exists l. split; [exact E|].
  apply merge_scoped_without_merge. exact N.
Qed.

Lemma keeps_scope_bind {A B} (m : M Ext A) (f : A -> M Ext B) :
  keeps_scope m -> (forall a, keeps_scope (f a)) -> keeps_scope (m ≫= f).
Proof.
  intros Hm Hf w. destruct (Hm w) as (l1 & E1 & N1).
  unfold mbind, M_bind, bind. destruct (m w) as [[a|e] w1]; cbn [fst snd] in *.
  - destruct (Hf a w1) as (l2 & E2 & N2). exists (l1 ++ l2)%list. split.
    + rewrite E2, E1, app_assoc. reflexivity.
    + intros b. apply merge_scoped_app; auto.
  - exists l1. auto.
Qed.

(** The merge operation opens the scope for a body that does not touch the
    tag, and closes it when the body completes. *)
Lemma keeps_scope_mergeOperation {A} self (body : M Ext A) :
  emits_only (fun c => negb (tag_call c)) body -> keeps_scope (_mergeOperation self body).
Proof.
  intros Hbody w. destruct (Hbody (tagged w)) as (l & E & N).
  destruct (body (tagged w)) as [[a|e] w2] eqn:Hb; cbn [snd] in E.
  - rewrite (mergeOperation_Ok self body w a w2 Hb).
    exists (CreateTag BEFORE_MERGE_TAG :: l ++ [DeleteTag BEFORE_MERGE_TAG])%list. split.
    + cbn. rewrite E. cbn. rewrite <- !app_assoc. reflexivity.
    + intros b. cbn. rewrite orb_true_r. rewrite merge_scoped_under_tag by exact N.
      reflexivity.
  - rewrite (mergeOperation_Raise self body w e w2 Hb).
    exists (CreateTag BEFORE_MERGE_TAG :: l)%list. split.
    + cbn. rewrite E. cbn. rewrite <- !app_assoc. reflexivity.
    + intros b. cbn. rewrite orb_true_r.
      rewrite <- (app_nil_r l). rewrite merge_scoped_under_tag by exact N. reflexivity.
Qed.

Lemma keeps_scope_pull_merge self : keeps_scope (pull_merge lib self).
Proof.
  unfold pull_merge. apply keeps_scope_bind.
  - apply keeps_scope_mergeOperation.
    unfold hasChangesToImport, hasTag, merge, importSince, getChangesSince, reportProgress.
    repeat emits_step.
  - intros []. apply keeps_scope_of_emits. apply emits_only_ret.
Qed.

Lemma emits_checkDumpVersion self :
  emits_only (fun c => negb (merge_call c)) (_checkDumpVersion VERSION lib self).
Proof.
  unfold _checkDumpVersion, getRemoteDumpVersion, isUpToDate, reportError.
  repeat emits_step.
Qed.

Lemma keeps_scope_pull self : keeps_scope (pull VERSION lib self).
Proof.
  unfold pull.
  repeat (apply keeps_scope_bind;
          [apply keeps_scope_of_emits;
           first [apply emits_checkDumpVersion
                 | unfold isWorkTreeClean, fetch, reportProgress; repeat emits_step]
          | intros ?]).
  match goal with |- keeps_scope (if ?b then _ else _) => destruct b end.
  - apply keeps_scope_of_emits. apply emits_only_ret.
  - apply keeps_scope_pull_merge.
Qed.

Lemma emits_sync_push self : emits_only (fun c => negb (merge_call c)) (sync_push self).
Proof.
  unfold sync_push. apply emits_only_try.
  - unfold push, vcs_push_call. repeat emits_step.
  - intros e h He. destruct e; try discriminate; injection He as <-;
      unfold reportProgress, reportError; repeat emits_step.
Qed.

Lemma keeps_scope_sync_iteration self : keeps_scope (sync_iteration VERSION lib self).
Proof.
  unfold sync_iteration. apply keeps_scope_bind; [apply keeps_scope_pull|].
  intros ok. apply keeps_scope_of_emits. destruct ok; cbn [negb]; [| apply emits_only_ret].
  unfold hasChangesToPush, getChangesSince, reportProgress.
  repeat first [apply emits_sync_push | emits_step].
Qed.

Lemma keeps_scope_sync_loop self fuel : keeps_scope (sync_loop VERSION lib fuel self).
Proof.
  induction fuel as [|fuel IH].
  - apply keeps_scope_of_emits. apply emits_only_ret.
  - cbn [sync_loop]. apply keeps_scope_bind; [apply keeps_scope_sync_iteration|].
    intros [| |b]; [| exact IH |]; apply keeps_scope_of_emits; apply emits_only_ret.
Qed.

(** X1. In the calls of any run of [sync], of [pull] and of [importAll],
    whatever the collaborators do and however the run ends, [Merge],
    [ImportSince] and [ImportAll] only come between the creation of the
    checkpoint tag and its deletion. *)
Theorem merges_under_checkpoint self :
  (forall fuel, keeps_scope (sync VERSION lib fuel self))
  /\ keeps_scope (pull VERSION lib self)
  /\ keeps_scope (importAll lib self).
Proof.
  split; [| split].
  - intros fuel. unfold sync. apply keeps_scope_bind; [| intros ?; apply keeps_scope_sync_loop].
    apply keeps_scope_of_emits.
    unfold sync_commit, hasChangesToCommit, isWorkTreeClean, reportProgress, commitAll.
    repeat emits_step.
  - apply keeps_scope_pull.
  - unfold importAll. apply keeps_scope_bind.
    + apply keeps_scope_of_emits. apply emits_only_assert.
    + intros ?. apply keeps_scope_mergeOperation.
      unfold importAll_call. repeat emits_step.
Qed.

End Scope.

(** ** The presence check reads and prints *)

Section ReadOnly.

Context {Ext : Type}.
Variable order : SetOrder.
Implicit Types (w : World Ext) (self : SyncManager Ext).

Lemma only_prints_ret {A} (a : A) : only_prints (mret a : M Ext A).
Proof. intros w. exists []. cbn. rewrite printed_nil. reflexivity. Qed.

Lemma only_prints_raise {A} e : only_prints (raise e : M Ext A).
Proof. intros w. exists []. cbn. rewrite printed_nil. reflexivity. Qed.

Lemma only_prints_assert c msg : only_prints (assert (Ext := Ext) c msg).
Proof. destruct c; [apply (only_prints_ret tt) | apply only_prints_raise]. Qed.

Lemma only_prints_lift {A} (o : Outcome A) : only_prints (lift o : M Ext A).
Proof. intros w. exists []. cbn. rewrite printed_nil. reflexivity. Qed.

Lemma only_prints_query {A} (f : Repo Ext -> Outcome A) : only_prints (query f).
Proof. intros w. exists []. cbn. rewrite printed_nil. reflexivity. Qed.

Lemma only_prints_print s : only_prints (print (Ext := Ext) s).
Proof. intros w. exists [s]. reflexivity. Qed.

Lemma only_prints_bind {A B} (m : M Ext A) (f : A -> M Ext B) :
  only_prints m -> (forall a, only_prints (f a)) -> only_prints (m ≫= f).
Proof.
  intros Hm Hf w. destruct (Hm w) as (l1 & E1).
  unfold mbind, M_bind, bind. destruct (m w) as [[a|e] w1]; cbn [snd] in *.
  - destruct (Hf a w1) as (l2 & E2). exists (l1 ++ l2)%list.
    rewrite E2, E1, printed_printed. reflexivity.
  - exists l1. exact E1.
Qed.

Ltac prints_step :=
  first
    [ apply only_prints_bind; [| intros ?]
    | apply only_prints_print
    | apply only_prints_query
    | apply only_prints_lift
    | apply only_prints_ret
    | apply only_prints_raise
    | apply only_prints_assert
    | match goal with |- only_prints (if ?b then _ else _) => destruct b end
    | match goal with |- only_prints (let '(_, _) := ?p in _) => destruct p end ].

Lemma only_prints_checkItems_scan objectDir names :
  forall dumpUuids, only_prints (_checkItems_scan (Ext := Ext) objectDir names dumpUuids).
Proof.
  induction names as [|name names IH]; intros dumpUuids; cbn [_checkItems_scan].
  - apply only_prints_ret.
  - destruct (negb (endswith name ".json")); [apply IH|].
    unfold load_json. repeat first [apply IH | prints_step].
Qed.

Lemma only_prints_checkItems self dirname table :
  only_prints (_checkItems order self dirname table).
Proof.
  unfold _checkItems, os_listdir, session_query_all, report_missing.
  repeat first [apply only_prints_checkItems_scan | prints_step].
Qed.

End ReadOnly.

(** ** The merge and the import of [pull] *)

Section PullMerge.

Context {Ext : Type}.
Variable VERSION : Z.
Variable lib : SyncLib Ext.
Implicit Types (w : World Ext) (self : SyncManager Ext).

Lemma bind_Ok_inv {A B} (m : M Ext A) (f : A -> M Ext B) w b w' :
  (m ≫= f) w = (Ok b, w') -> exists a w1, m w = (Ok a, w1) /\ f a w1 = (Ok b, w').
Proof.
  unfold mbind, M_bind, bind. destruct (m w) as [[a|e] w1]; intros H; [eauto | discriminate].
Qed.

Lemma hasChangesToImport_run self r l s c r' :
  is_Some (tags r !! BEFORE_MERGE_TAG) ->
  vcs_getChangesSince (vcsImpl self) BEFORE_MERGE_TAG r = (c, r') ->
  hasChangesToImport self (mkWorld r l s)
  = (match c with Ok changes => Ok (hasChanges changes) | Raise e => Raise e end,
     mkWorld r' (l ++ [HasTag BEFORE_MERGE_TAG; GetChangesSince BEFORE_MERGE_TAG]) s).
Proof.
  intros Ht Hc. unfold hasChangesToImport, hasTag.
  erewrite bind_Ok; [| apply invoke_mk; reflexivity].
  rewrite (bool_decide_eq_true_2 _ Ht).
  erewrite bind_Ok; [| apply assert_true].
  unfold getChangesSince. destruct c as [changes|e].
  - erewrite bind_Ok; [| apply invoke_mk; exact Hc]. norm_log. reflexivity.
  - erewrite bind_Raise; [| apply invoke_mk; exact Hc]. norm_log. reflexivity.
Qed.

(** X3. The merge operation of [pull], once the merge went through and left
    the checkpoint tag in place: with changes since the tag the import is
    announced and run, and the tag is deleted when it completes but stays
    when it raises; without changes nothing is imported, [pull] says so and
    deletes the tag.  [pull] returns [True] in both completed cases. *)
Theorem pull_merge_imports_changes self w r1 :
  lib_merge lib (repo (tagged w)) = (Ok tt, r1) ->
  is_Some (tags r1 !! BEFORE_MERGE_TAG) ->
  let merged := (log w ++ [CreateTag BEFORE_MERGE_TAG; Merge; HasTag BEFORE_MERGE_TAG;
                           GetChangesSince BEFORE_MERGE_TAG])%list in
  (forall r2,
     vcs_getChangesSince (vcsImpl self) BEFORE_MERGE_TAG r1 = (Ok (mkChangeSet true), r2) ->
     let importing := (merged ++ [ReportProgress "Importing changes";
                                  ImportSince BEFORE_MERGE_TAG])%list in
     (forall r3,
        lib_importSince lib BEFORE_MERGE_TAG r2 = (Ok tt, r3) ->
        pull_merge lib self w = (Ok true, untagged (mkWorld r3 importing (stdout w))))
     /\ (forall e r3,
           lib_importSince lib BEFORE_MERGE_TAG r2 = (Raise e, r3) ->
           pull_merge lib self w = (Raise e, mkWorld r3 importing (stdout w))))
  /\ (forall r2,
        vcs_getChangesSince (vcsImpl self) BEFORE_MERGE_TAG r1 = (Ok (mkChangeSet false), r2) ->
        pull_merge lib self w
        = (Ok true,
           untagged (mkWorld r2 (merged ++ [ReportProgress "No remote changes"]) (stdout w)))).
Proof.
  intros Hm Ht merged.
  assert (forall c r2,
            vcs_getChangesSince (vcsImpl self) BEFORE_MERGE_TAG r1 = (Ok (mkChangeSet c), r2) ->
            forall k : bool -> M Ext unit,
              (merge lib;; c' ← hasChangesToImport self; k c') (tagged w)
              = k c (mkWorld r2 merged (stdout w))) as Hbody.
  { intros c r2 Hc k. unfold merge.
    erewrite bind_Ok; [| apply invoke_eq; exact Hm].
    erewrite bind_Ok; [| apply (hasChangesToImport_run self _ _ _ _ _ Ht Hc)].
    unfold merged, tagged. cbn [log stdout hasChanges]. norm_log. reflexivity. }
  split.
  - intros r2 Hc importing. split.
    + intros r3 Hi. unfold pull_merge.
      erewrite bind_Ok; [reflexivity|]. apply mergeOperation_Ok.
      rewrite (Hbody true r2 Hc). unfold reportProgress, importSince.
      erewrite bind_Ok; [| apply invoke_mk; reflexivity].
      erewrite invoke_mk by exact Hi. unfold importing. norm_log. reflexivity.
    + intros e r3 Hi. unfold pull_merge.
      erewrite bind_Raise; [reflexivity|]. apply mergeOperation_Raise.
      rewrite (Hbody true r2 Hc). unfold reportProgress, importSince.
      erewrite bind_Ok; [| apply invoke_mk; reflexivity].
      erewrite invoke_mk by exact Hi. unfold importing. norm_log. reflexivity.
  - intros r2 Hc. unfold pull_merge.
    erewrite bind_Ok; [reflexivity|]. apply mergeOperation_Ok.
    rewrite (Hbody false r2 Hc). unfold reportProgress.
    erewrite invoke_mk by reflexivity. reflexivity.
Qed.

(** X4. When the merge of [pull] fails, [pull] raises its exception at
    once: nothing is imported and the checkpoint tag is not deleted.  When
    the merge returns but the tag is gone, [pull] fails by the assertion of
    [hasChangesToImport], before asking for the changes. *)
Theorem pull_merge_failure self w :
  (forall e r1,
     lib_merge lib (repo (tagged w)) = (Raise e, r1) ->
     pull_merge lib self w
     = (Raise e, mkWorld r1 (log w ++ [CreateTag BEFORE_MERGE_TAG; Merge]) (stdout w)))
  /\ (forall r1,
        lib_merge lib (repo (tagged w)) = (Ok tt, r1) ->
        tags r1 !! BEFORE_MERGE_TAG = None ->
        pull_merge lib self w
        = (Raise (AssertionError ""),
           mkWorld r1 (log w ++ [CreateTag BEFORE_MERGE_TAG; Merge; HasTag BEFORE_MERGE_TAG])
             (stdout w))).
Proof.
  split.
  - intros e r1 Hm. unfold pull_merge.
    erewrite bind_Raise; [reflexivity|]. apply mergeOperation_Raise.
    unfold merge. erewrite bind_Raise; [| apply invoke_eq; exact Hm].
    unfold tagged. cbn [log stdout]. norm_log. reflexivity.
  - intros r1 Hm Ht. unfold pull_merge.
    erewrite bind_Raise; [reflexivity|]. apply mergeOperation_Raise.
    unfold merge. erewrite bind_Ok; [| apply invoke_eq; exact Hm].
    unfold hasChangesToImport, hasTag.
    erewrite bind_Raise.
    2:{ erewrite bind_Ok; [| apply invoke_mk; reflexivity].
        rewrite bool_decide_eq_false_2 by (rewrite Ht; apply is_Some_None).
        erewrite bind_Raise; [reflexivity | apply assert_false]. }
    unfold tagged. cbn [log stdout]. norm_log. reflexivity.
Qed.

Lemma pull_merge_Ok_inv self w b w' :
  pull_merge lib self w = (Ok b, w') -> b = true /\ exists w2, w' = untagged w2.
Proof.
  unfold pull_merge. intros H.
  apply bind_Ok_inv in H as ([] & w1 & Hop & Hret).
  injection Hret as <- <-. split; [reflexivity|].
  unfold _mergeOperation in Hop.
  apply bind_Ok_inv in Hop as ([] & wa & _ & Hop).
  apply bind_Ok_inv in Hop as ([] & wb & _ & Hop).
  apply bind_Ok_inv in Hop as ([] & wc & Hdel & Hret).
  injection Hret as <-. rewrite deleteTag_untagged in Hdel. injection Hdel as <-.
  exists wb. reflexivity.
Qed.

(** X5. Whatever the collaborators do, a [pull] that returns [True] has
    completed its merge operation: its last call deleted the checkpoint
    tag, and [isMergeInProgress()] is false. *)
Theorem pull_True_merge_completed self w w' :
  pull VERSION lib self w = (Ok true, w') ->
  last (log w') = Some (DeleteTag BEFORE_MERGE_TAG)
  /\ merge_in_progress self w' false.
Proof.
  unfold pull. intros H.
  apply bind_Ok_inv in H as (? & ? & _ & H).
  apply bind_Ok_inv in H as (? & ? & _ & H).
  apply bind_Ok_inv in H as (? & ? & _ & H).
  apply bind_Ok_inv in H as (? & ? & _ & H).
  apply bind_Ok_inv in H as (? & ? & _ & H).
  apply bind_Ok_inv in H as (ok & w1 & _ & H).
  destruct ok; cbn [negb] in H; [| discriminate].
  apply pull_merge_Ok_inv in H as (_ & w2 & ->).
  split; [| apply untagged_not_in_progress].
  unfold untagged. cbn [log]. apply last_snoc.
Qed.

End PullMerge.

(** ** [sync] around its loop *)

Section SyncEdges.

Context {Ext : Type}.
Variable VERSION : Z.
Variable lib : SyncLib Ext.
Variable order : SetOrder.
Implicit Types (w : World Ext) (self : SyncManager Ext).

Lemma sync_commit_run self w c r :
  vcs_isWorkTreeClean (vcsImpl self) (repo w) = (Ok c, r) ->
  sync_commit self w
  = if c then (Ok tt, mkWorld r (log w ++ [IsWorkTreeClean]) (stdout w))
    else commitAll (vcsImpl self) "s_sync"
           (mkWorld r (log w ++ [IsWorkTreeClean; ReportProgress "Committing local changes"])
              (stdout w)).
Proof.
  intros Hc. unfold sync_commit, hasChangesToCommit, isWorkTreeClean.
  erewrite bind_Ok; [| erewrite bind_Ok; [reflexivity | apply invoke_eq; exact Hc]].
  destruct c; cbn [negb]; [reflexivity|].
  unfold reportProgress. erewrite bind_Ok; [| apply invoke_mk; reflexivity].
  norm_log. reflexivity.
Qed.

(** X6. [sync] looks at the working tree first.  When it is clean nothing
    is committed and the loop starts; when it is not, [sync] announces the
    commit and commits everything under the label s_sync before the first
    [pull]; and when that commit fails [sync] raises without pulling. *)
Theorem sync_commits_first self fuel w0 :
  (forall r,
     vcs_isWorkTreeClean (vcsImpl self) (repo w0) = (Ok true, r) ->
     sync VERSION lib fuel self w0
     = sync_loop VERSION lib fuel self (mkWorld r (log w0 ++ [IsWorkTreeClean]) (stdout w0)))
  /\ (forall r,
        vcs_isWorkTreeClean (vcsImpl self) (repo w0) = (Ok false, r) ->
        let committed := (log w0 ++ [IsWorkTreeClean; ReportProgress "Committing local changes";
                                     CommitAll "s_sync"])%list in
        (forall r',
           vcs_commitAll (vcsImpl self) "s_sync" r = (Ok tt, r') ->
           sync VERSION lib fuel self w0
           = sync_loop VERSION lib fuel self (mkWorld r' committed (stdout w0)))
        /\ (forall e r',
              vcs_commitAll (vcsImpl self) "s_sync" r = (Raise e, r') ->
              sync VERSION lib fuel self w0 = (Raise e, mkWorld r' committed (stdout w0)))).
Proof.
  split.
  - intros r Hc. unfold sync.
    erewrite bind_Ok; [reflexivity|]. apply (sync_commit_run self w0 true r Hc).
  - intros r Hc committed. split.
    + intros r' Hk. unfold sync. erewrite bind_Ok; [reflexivity|].
      rewrite (sync_commit_run self w0 false r Hc). unfold commitAll.
      erewrite invoke_mk by exact Hk. unfold committed. norm_log. reflexivity.
    + intros e r' Hk. unfold sync. erewrite bind_Raise; [reflexivity|].
      rewrite (sync_commit_run self w0 false r Hc). unfold commitAll.
      erewrite invoke_mk by exact Hk. unfold committed. norm_log. reflexivity.
Qed.

Lemma pull_without_session self w :
  session self = false -> pull VERSION lib self w = (Raise (AssertionError ""), w).
Proof.
  intros HS. unfold pull. rewrite HS.
  erewrite bind_Raise; [reflexivity | apply assert_false].
Qed.

(** X7. Without a database session, [pull], [importAll], [dump] and
    [checkDumpIntegrity] fail by assertion before they call a collaborator
    or print a line.  [sync] has no such guard of its own: on a dirty
    working tree it commits the local changes first and fails in its
    [pull] afterwards. *)
Theorem no_session_guards self w :
  session self = false ->
  pull VERSION lib self w = (Raise (AssertionError ""), w)
  /\ importAll lib self w = (Raise (AssertionError ""), w)
  /\ dump lib self w = (Raise (AssertionError ""), w)
  /\ checkDumpIntegrity order self w = (Raise (AssertionError ""), w)
  /\ (forall fuel r r',
        vcs_isWorkTreeClean (vcsImpl self) (repo w) = (Ok false, r) ->
        vcs_commitAll (vcsImpl self) "s_sync" r = (Ok tt, r') ->
        sync VERSION lib (S fuel) self w
        = (Raise (AssertionError ""),
           mkWorld r' (log w ++ [IsWorkTreeClean; ReportProgress "Committing local changes";
                                 CommitAll "s_sync"]) (stdout w))).
Proof.
  intros HS. split; [apply pull_without_session; exact HS|].
  split; [unfold importAll; rewrite HS;
          erewrite bind_Raise; [reflexivity | apply assert_false]|].
  split; [unfold dump; rewrite HS;
          erewrite bind_Raise; [reflexivity | apply assert_false]|].
  split; [unfold checkDumpIntegrity; rewrite HS;
          erewrite bind_Raise; [reflexivity | apply assert_false]|].
  intros fuel r r' Hc Hk. unfold sync.
  erewrite bind_Ok.
  2:{ rewrite (sync_commit_run self w false r Hc). unfold commitAll.
      erewrite invoke_mk by exact Hk. reflexivity. }
  rewrite sync_loop_step. unfold sync_iteration.
  erewrite bind_Raise; [| apply pull_without_session; exact HS].
  norm_log. reflexivity.
Qed.

(** X8. An iteration of [sync] once [pull] returned [True] and there is
    something to push: a push that succeeds ends [sync] with [True]; a
    push that raises an exception other than a [VcsImplError] (of which
    [NotFastForwardError] is one) is not caught: [sync] raises it, having
    reported nothing about it. *)
Theorem sync_push_outcomes self fuel w w1 r2 :
  pull VERSION lib self w = (Ok true, w1) ->
  vcs_getChangesSince (vcsImpl self) "origin/master" (repo w1) = (Ok (mkChangeSet true), r2) ->
  let pushed := (log w1 ++ [GetChangesSince "origin/master";
                            ReportProgress "Pushing local changes"; Push])%list in
  (forall r3,
     vcs_push (vcsImpl self) r2 = (Ok tt, r3) ->
     sync_loop VERSION lib (S fuel) self w = (Ok (Some true), mkWorld r3 pushed (stdout w1)))
  /\ (forall e r3,
        vcs_push (vcsImpl self) r2 = (Raise e, r3) ->
        e ≠ NotFastForwardError -> (forall msg, e ≠ VcsImplError msg) ->
        sync_loop VERSION lib (S fuel) self w = (Raise e, mkWorld r3 pushed (stdout w1))).
Proof.
  intros HP HC pushed. split.
  - intros r3 Hpush. rewrite sync_loop_step.
    rewrite (sync_iteration_to_push VERSION lib self w w1 r2 HP HC).
    rewrite (sync_push_run self _ _ _ _ _ Hpush).
    unfold pushed. norm_log. reflexivity.
  - intros e r3 Hpush Hnff Hvcs. rewrite sync_loop_step.
    rewrite (sync_iteration_to_push VERSION lib self w w1 r2 HP HC).
    rewrite (sync_push_run self _ _ _ _ _ Hpush).
    unfold pushed. norm_log.
    destruct e; try reflexivity; [contradiction | exfalso; eapply Hvcs; reflexivity].
Qed.

End SyncEdges.

(** ** The integrity checks on broken and on sound dumps *)

Section IntegrityEdges.

Context {Ext : Type}.
Variable order : SetOrder.
Implicit Types (w : World Ext) (self : SyncManager Ext).

Lemma checkItems_scan_prefix objectDir w pre rest :
  forall dumpUuids,
  (forall n, n ∈ pre -> endswith n ".json" = true ->
             exists k, field_key (fs (repo w)) (path_join objectDir n) "uuid" = Ok k) ->
  exists dumpUuids',
    _checkItems_scan objectDir (pre ++ rest) dumpUuids w
    = _checkItems_scan objectDir rest dumpUuids' w.
Proof.
  induction pre as [|n pre IH]; intros dumpUuids Hread; [eexists; reflexivity|].
  cbn [app _checkItems_scan].
  assert (forall n', n' ∈ pre -> endswith n' ".json" = true ->
            exists k, field_key (fs (repo w)) (path_join objectDir n') "uuid" = Ok k) as Hpre
    by (intros n' Hn'; apply Hread; constructor; exact Hn').
  destruct (endswith n ".json") eqn:Hjson; cbn [negb].
  - destruct (Hread n) as [k Hk]; [constructor | exact Hjson |].
    rewrite read_field, Hk. apply IH. exact Hpre.
  - apply IH. exact Hpre.
Qed.

(** X9. The presence check does not wrap what goes wrong with a dump file:
    at the first [.json] entry that cannot be read as an object with a
    hashable [uuid], [_checkItems] raises that very exception, having
    printed its title only and without querying the database. *)
Theorem checkItems_unreadable_entry self w dirname table pre name post exc :
  let objectDir := path_join (_dumpDir self) dirname in
  fs (repo w) !! objectDir = Some (Dir (pre ++ name :: post)) ->
  (forall n, n ∈ pre -> endswith n ".json" = true ->
             exists k, field_key (fs (repo w)) (path_join objectDir n) "uuid" = Ok k) ->
  endswith name ".json" = true ->
  field_key (fs (repo w)) (path_join objectDir name) "uuid" = Raise exc ->
  _checkItems order self dirname table w
  = (Raise exc, printed w ["# Checking all " ++ dirname ++ " are there"]).
Proof.
  intros objectDir Hdir Hread Hjson Hexc.
  unfold _checkItems. fold objectDir.
  erewrite bind_Ok; [| reflexivity].
  unfold os_listdir, query. erewrite bind_Ok; [| cbn [repo]; rewrite Hdir; reflexivity].
  erewrite bind_Raise; [reflexivity|].
  match goal with |- _checkItems_scan _ _ _ ?w0 = _ => set (w1 := w0) end.
  destruct (checkItems_scan_prefix objectDir w1 pre (name :: post) ∅ Hread) as [acc ->].
  cbn [_checkItems_scan]. rewrite Hjson. cbn [negb].
  rewrite read_field. cbn [repo w1]. rewrite Hexc. reflexivity.
Qed.

Lemma str_items_not_str (l : list PyKey) k :
  k ∈ l -> (forall s, k ≠ KStr s) ->
  str_items l = Raise (TypeError "sequence item: expected str instance").
Proof.
  induction l as [|k' l IH]; intros Hin Hk; [apply elem_of_nil in Hin; contradiction|].
  apply elem_of_cons in Hin as [<-|Hin].
  - destruct k; try reflexivity. exfalso. eapply Hk. reflexivity.
  - destruct k'; try reflexivity. cbn. rewrite (IH Hin Hk). reflexivity.
Qed.

(** X10. A dump item whose [uuid] is not a string (a number, a boolean,
    null) is not reported as a missing DB item: the check fails with
    [TypeError] when it joins the missing UUIDs, having printed its title
    only. *)
Theorem checkItems_uuid_not_a_string self w dirname table names (uuid : string -> PyKey) bad :
  session self = true ->
  let objectDir := path_join (_dumpDir self) dirname in
  fs (repo w) !! objectDir = Some (Dir names) ->
  (forall name, name ∈ names -> endswith name ".json" = true ->
     field_key (fs (repo w)) (path_join objectDir name) "uuid" = Ok (uuid name)) ->
  bad ∈ json_names names ->
  (forall s, uuid bad ≠ KStr s) ->
  exists msg,
    _checkItems order self dirname table w
    = (Raise (TypeError msg), printed w ["# Checking all " ++ dirname ++ " are there"]).
Proof.
  intros HS objectDir Hdir Hread Hbad Hnot. eexists.
  set (dumpUuids := list_to_set (uuid <$> json_names names) : gset PyKey).
  set (dbUuids := list_to_set ((fun x => KStr (row_uuid x)) <$> database (repo w) table)
                  : gset PyKey).
  assert (uuid bad ∈ dumpUuids) as Hin.
  { apply elem_of_list_to_set, list_elem_of_fmap. exists bad. auto. }
  assert (uuid bad ∉ dbUuids) as Hout.
  { intros H. apply elem_of_list_to_set, list_elem_of_fmap in H as (x & Hx & _).
    eapply Hnot. exact Hx. }
  unfold _checkItems. fold objectDir.
  erewrite bind_Ok; [| reflexivity].
  unfold os_listdir, query. erewrite bind_Ok; [| cbn [repo]; rewrite Hdir; reflexivity].
  erewrite bind_Ok; [| apply (checkItems_scan_ok objectDir uuid); exact Hread].
  unfold session_query_all. rewrite HS. erewrite bind_Ok; [| reflexivity].
  cbn [repo].
  replace (list_to_set (uuid <$> json_names names) ∪ ∅) with dumpUuids
    by (unfold dumpUuids; set_solver).
  fold dbUuids.
  rewrite bool_decide_eq_true_2 by (intros E; apply Hout; rewrite E; exact Hin).
  erewrite bind_Raise; [reflexivity|].
  unfold report_missing.
  rewrite bool_decide_eq_true_2 by set_solver.
  erewrite bind_Raise; [reflexivity|].
  unfold lift, join_set.
  rewrite (str_items_not_str _ (uuid bad)); [reflexivity | | exact Hnot].
  rewrite (iter_set_perm order). apply elem_of_elements. set_solver.
Qed.

(** [findConflicts] reads the file system and leaves the world as it is. *)
Lemma findConflicts_scan_pure jsonDirPath fieldName names :
  forall dct w,
    exists o,
      findConflicts_scan (Ext := Ext) jsonDirPath fieldName names dct w = (o, w)
      /\ forall w', fs (repo w') = fs (repo w) ->
                    findConflicts_scan jsonDirPath fieldName names dct w' = (o, w').
Proof.
  induction names as [|n names IH]; intros dct w; cbn [findConflicts_scan].
  - eexists. split; [reflexivity | intros; reflexivity].
  - destruct (negb (endswith n ".json")); [apply IH|].
    unfold load_json, query, lift, mbind, M_bind, bind.
    destruct (read_json (fs (repo w)) (path_join jsonDirPath n)) as [item|e] eqn:Hr.
    + destruct (getitem item fieldName) as [v|e] eqn:Hg.
      * destruct (key_object v) as [k|e] eqn:Hh.
        -- destruct (IH (group_add k item dct) w) as (o & Ho & Ho'). exists o.
           split; [exact Ho|]. intros w' Hfs. rewrite Hfs, Hr, Hg, Hh. apply Ho'. exact Hfs.
        -- exists (Raise e). split; [reflexivity|].
           intros w' Hfs. rewrite Hfs, Hr, Hg, Hh. reflexivity.
      * exists (Raise e). split; [reflexivity|].
        intros w' Hfs. rewrite Hfs, Hr, Hg. reflexivity.
    + exists (Raise e). split; [reflexivity|].
      intros w' Hfs. rewrite Hfs, Hr. reflexivity.
Qed.

Lemma findConflicts_pure jsonDirPath fieldName w :
  exists o,
    findConflicts (Ext := Ext) jsonDirPath fieldName w = (o, w)
    /\ (forall w', fs (repo w') = fs (repo w) ->
                   findConflicts jsonDirPath fieldName w' = (o, w'))
    /\ (forall conflicts, o = Ok conflicts ->
                          Forall (fun kv => (1 < length kv.2)%nat) conflicts).
Proof.
  unfold findConflicts, os_listdir, query.
  destruct (fs (repo w) !! jsonDirPath) as [[names|c]|] eqn:Hd.
  - destruct (findConflicts_scan_pure jsonDirPath fieldName names [] w) as (o & Ho & Ho').
    destruct o as [dct|e].
    + eexists. split; [| split].
      * erewrite bind_Ok; [| rewrite Hd; reflexivity].
        erewrite bind_Ok; [reflexivity | exact Ho].
      * intros w' Hfs. erewrite bind_Ok; [| rewrite Hfs, Hd; reflexivity].
        erewrite bind_Ok; [reflexivity | apply Ho'; exact Hfs].
      * intros conflicts [= <-]. apply Forall_forall. intros kv Hkv.
        apply list_elem_of_filter in Hkv as [Hlen _]. apply Nat.ltb_lt. exact Hlen.
    + exists (Raise e). split; [| split].
      * erewrite bind_Ok; [| rewrite Hd; reflexivity].
        erewrite bind_Raise; [reflexivity | exact Ho].
      * intros w' Hfs. erewrite bind_Ok; [| rewrite Hfs, Hd; reflexivity].
        erewrite bind_Raise; [reflexivity | apply Ho'; exact Hfs].
      * intros conflicts [=].
  - eexists. split; [| split].
    + erewrite bind_Raise; [reflexivity | rewrite Hd; reflexivity].
    + intros w' Hfs. erewrite bind_Raise; [reflexivity | rewrite Hfs, Hd; reflexivity].
    + intros conflicts [=].
  - eexists. split; [| split].
    + erewrite bind_Raise; [reflexivity | rewrite Hd; reflexivity].
    + intros w' Hfs. erewrite bind_Raise; [reflexivity | rewrite Hfs, Hd; reflexivity].
    + intros conflicts [=].
Qed.

(** X11. Whatever the dump, the unicity check prints no file path.  After
    its title it either prints nothing more (no name is shared, or the
    directory could not be read), or it prints how many items share the
    first conflicting name, a number above 1, and raises [TypeError]. *)
Theorem checkUnicity_prints_no_path self w dirname :
  exists lines,
    (_checkUnicity self dirname w).2
    = printed w (("# Checking " ++ dirname ++ " unicity") :: lines)
    /\ (lines = []
        \/ exists name n,
             lines = ["## " ++ format_key name ++ " exists " ++ format_int (Z.of_nat n)
                      ++ " times"]
             /\ (1 < n)%nat
             /\ (_checkUnicity self dirname w).1
                = Raise (TypeError "list indices must be integers or slices, not str")).
Proof.
  set (w1 := printed w ["# Checking " ++ dirname ++ " unicity"]).
  destruct (findConflicts_pure (path_join (_dumpDir self) dirname) "name" w1)
    as (o & Ho & _ & Hlen).
  destruct o as [[|[name [|c cl]] rest]|e].
  - exists []. split; [| left; reflexivity].
    unfold _checkUnicity. erewrite bind_Ok; [| reflexivity].
    fold w1. erewrite bind_Ok; [| exact Ho]. reflexivity.
  - specialize (Hlen _ eq_refl). apply Forall_cons in Hlen as [Hlen _]. cbn in Hlen. lia.
  - specialize (Hlen _ eq_refl). apply Forall_cons in Hlen as [Hlen _].
    rewrite (checkUnicity_conflict_raises self w dirname name c cl rest w1 Ho).
    eexists. split; [unfold w1; rewrite printed_printed; reflexivity|].
    right. exists name, (length (c :: cl)). split; [reflexivity|]. split; [exact Hlen | reflexivity].
  - exists []. split; [| left; reflexivity].
    unfold _checkUnicity. erewrite bind_Ok; [| reflexivity].
    fold w1. erewrite bind_Raise; [| exact Ho]. reflexivity.
Qed.

End IntegrityEdges.

Section IntegrityWhole.

Context {Ext : Type}.
Variable order : SetOrder.
Implicit Types (w : World Ext) (self : SyncManager Ext).

Lemma checkItems_keeps_repo self dirname table w :
  repo (_checkItems order self dirname table w).2 = repo w.
Proof.
  destruct (only_prints_checkItems order self dirname table w) as [lines E].
  rewrite E. reflexivity.
Qed.

(** X12. A name shared by two projects ends the whole integrity check:
    once the three presence checks are done, [checkDumpIntegrity] prints
    the title of the project unicity check and the count of the first
    shared name, and raises [TypeError]; the unicity check of the aliases
    and the check of the tasks' projects are never run. *)
Theorem checkDumpIntegrity_stops_at_conflict self w w1 w2 w3 name c cl rest :
  session self = true ->
  _checkItems order self PROJECTS_DIRNAME Project w = (Ok tt, w1) ->
  _checkItems order self TASKS_DIRNAME Task w1 = (Ok tt, w2) ->
  _checkItems order self ALIASES_DIRNAME Alias w2 = (Ok tt, w3) ->
  (findConflicts (path_join (_dumpDir self) PROJECTS_DIRNAME) "name" w).1
  = Ok ((name, c :: cl) :: rest) ->
  checkDumpIntegrity order self w
  = (Raise (TypeError "list indices must be integers or slices, not str"),
     printed w3 ["# Checking projects unicity";
                 "## " ++ format_key name ++ " exists "
                 ++ format_int (Z.of_nat (length (c :: cl))) ++ " times"]).
Proof.
  intros HS H1 H2 H3 Hc.
  assert (fs (repo w3) = fs (repo w)) as Hfs.
  { pose proof (checkItems_keeps_repo self PROJECTS_DIRNAME Project w) as E1.
    pose proof (checkItems_keeps_repo self TASKS_DIRNAME Task w1) as E2.
    pose proof (checkItems_keeps_repo self ALIASES_DIRNAME Alias w2) as E3.
    rewrite H1 in E1. rewrite H2 in E2. rewrite H3 in E3. cbn [snd] in *.
    congruence. }
  destruct (findConflicts_pure (path_join (_dumpDir self) PROJECTS_DIRNAME) "name" w)
    as (o & Ho & Ho' & _).
  rewrite Ho in Hc. cbn [fst] in Hc. subst o.
  unfold checkDumpIntegrity. rewrite HS.
  erewrite bind_Ok; [| apply assert_true].
  erewrite bind_Ok; [| exact H1].
  erewrite bind_Ok; [| exact H2].
  erewrite bind_Ok; [| exact H3].
  erewrite bind_Raise; [reflexivity|].
  rewrite (checkUnicity_conflict_raises self w3 PROJECTS_DIRNAME name c cl rest
             (printed w3 ["# Checking " ++ PROJECTS_DIRNAME ++ " unicity"])).
  - rewrite printed_printed. reflexivity.
  - apply Ho'. exact Hfs.
Qed.

(** X13. The referential check on a dump whose task files can all be read:
    it returns, having printed its title and then, when some task points
    to a project that has no file, the heading once and the paths of those
    tasks in the order of the listing; the other tasks are not printed. *)
Theorem checkTaskProjects_report self w projectNames taskNames :
  let taskDir := path_join (_dumpDir self) TASKS_DIRNAME in
  fs (repo w) !! path_join (_dumpDir self) PROJECTS_DIRNAME = Some (Dir projectNames) ->
  fs (repo w) !! taskDir = Some (Dir taskNames) ->
  (forall n, n ∈ taskNames -> readable_task (fs (repo w)) taskDir n) ->
  _checkTaskProjects self w
  = (Ok tt,
     printed w
       ("# Checking all tasks have an existing project"
        :: dangling_lines true
             (path_join taskDir
                <$> filter (fun n => dangling (fs (repo w)) taskDir
                                       (list_to_set (stem <$> projectNames)) n = true)
                      taskNames))).
Proof.
  intros taskDir HP HT Hread.
  rewrite (checkTaskProjects_run self w projectNames taskNames HP HT). fold taskDir.
  rewrite <- (app_nil_r taskNames) at 1.
  rewrite checkTaskProjects_scan_prefix by exact Hread.
  cbn [_checkTaskProjects_scan repo printed]. unfold mret, M_ret, ret.
  rewrite printed_printed. reflexivity.
Qed.

Lemma field_key_agree (f f' : gmap string Node) path field :
  f' !! path = f !! path -> field_key f' path field = field_key f path field.
Proof. intros H. unfold field_key, read_json. rewrite H. reflexivity. Qed.

Lemma checkTaskProjects_scan_agree taskDir projectUuids names :
  forall first w w',
    (forall n, n ∈ names ->
               fs (repo w') !! path_join taskDir n = fs (repo w) !! path_join taskDir n) ->
    exists o lines,
      _checkTaskProjects_scan taskDir projectUuids names first w = (o, printed w lines)
      /\ _checkTaskProjects_scan taskDir projectUuids names first w' = (o, printed w' lines).
Proof.
  induction names as [|n names IH]; intros first w w' Hagree.
  - exists (Ok tt), []. cbn. rewrite !printed_nil. split; reflexivity.
  - rewrite !checkTaskProjects_scan_cons.
    rewrite (field_key_agree (fs (repo w)) (fs (repo w'))) by (apply Hagree; constructor).
    assert (forall n', n' ∈ names ->
              fs (repo w') !! path_join taskDir n' = fs (repo w) !! path_join taskDir n')
      as Hrest by (intros n' Hn'; apply Hagree; constructor; exact Hn').
    destruct (field_key (fs (repo w)) (path_join taskDir n) "projectUuid") as [k|exc].
    + destruct (not_in k projectUuids).
      * match goal with
        | |- context [printed w ?l] =>
            destruct (IH false (printed w l) (printed w' l) Hrest) as (o & lines & E & E')
        end.
        eexists o, _. rewrite E, E', !printed_printed. split; reflexivity.
      * apply IH. exact Hrest.
    + eexists _, []. rewrite !printed_nil. split; reflexivity.
Qed.

(** [_checkTaskProjects] by what the two listings give. *)
Lemma checkTaskProjects_listings self w :
  let projectDir := path_join (_dumpDir self) PROJECTS_DIRNAME in
  let taskDir := path_join (_dumpDir self) TASKS_DIRNAME in
  let w0 := printed w ["# Checking all tasks have an existing project"] in
  _checkTaskProjects self w
  = match fs (repo w) !! projectDir with
    | Some (Dir projectNames) =>
        match fs (repo w) !! taskDir with
        | Some (Dir taskNames) =>
            _checkTaskProjects_scan taskDir (list_to_set (stem <$> projectNames))
              taskNames true w0
        | Some (File _) => (Raise (NotADirectoryError taskDir), w0)
        | None => (Raise (FileNotFoundError taskDir), w0)
        end
    | Some (File _) => (Raise (NotADirectoryError projectDir), w0)
    | None => (Raise (FileNotFoundError projectDir), w0)
    end.
Proof.
  intros projectDir taskDir w0.
  destruct (fs (repo w) !! projectDir) as [[projectNames|c]|] eqn:EP.
  - destruct (fs (repo w) !! taskDir) as [[taskNames|c]|] eqn:ET.
    + apply checkTaskProjects_run; assumption.
    + unfold _checkTaskProjects. erewrite bind_Ok; [| reflexivity].
      unfold os_listdir, query.
      erewrite bind_Ok; [| cbn [repo]; fold projectDir; rewrite EP; reflexivity].
      erewrite bind_Raise; [reflexivity | cbn [repo]; fold taskDir; rewrite ET; reflexivity].
    + unfold _checkTaskProjects. erewrite bind_Ok; [| reflexivity].
      unfold os_listdir, query.
      erewrite bind_Ok; [| cbn [repo]; fold projectDir; rewrite EP; reflexivity].
      erewrite bind_Raise; [reflexivity | cbn [repo]; fold taskDir; rewrite ET; reflexivity].
  - unfold _checkTaskProjects. erewrite bind_Ok; [| reflexivity].
    unfold os_listdir, query.
    erewrite bind_Raise; [reflexivity | cbn [repo]; fold projectDir; rewrite EP; reflexivity].
  - unfold _checkTaskProjects. erewrite bind_Ok; [| reflexivity].
    unfold os_listdir, query.
    erewrite bind_Raise; [reflexivity | cbn [repo]; fold projectDir; rewrite EP; reflexivity].
Qed.

(** X14. The referential check never opens a project file: the project
    UUIDs it knows are the names of the entries of the projects directory.
    Two file systems with the same listings of the projects and tasks
    directories and the same task files give the same outcome and the same
    output, whatever the project files hold. *)
Theorem checkTaskProjects_ignores_project_files self w (f' : gmap string Node) :
  let projectDir := path_join (_dumpDir self) PROJECTS_DIRNAME in
  let taskDir := path_join (_dumpDir self) TASKS_DIRNAME in
  let w' := mkWorld (set_fs f' (repo w)) (log w) (stdout w) in
  f' !! projectDir = fs (repo w) !! projectDir ->
  f' !! taskDir = fs (repo w) !! taskDir ->
  (forall names n, fs (repo w) !! taskDir = Some (Dir names) -> n ∈ names ->
                   f' !! path_join taskDir n = fs (repo w) !! path_join taskDir n) ->
  (_checkTaskProjects self w').1 = (_checkTaskProjects self w).1
  /\ stdout (_checkTaskProjects self w').2 = stdout (_checkTaskProjects self w).2.
Proof.
  intros projectDir taskDir w' HP HT Hfiles.
  rewrite (checkTaskProjects_listings self w), (checkTaskProjects_listings self w').
  fold projectDir taskDir.
  change (fs (repo w')) with f'. rewrite HP, HT.
  destruct (fs (repo w) !! projectDir) as [[projectNames|c]|]; [| split; reflexivity ..].
  destruct (fs (repo w) !! taskDir) as [[taskNames|c]|] eqn:ET; [| split; reflexivity ..].
  match goal with
  | |- context [_checkTaskProjects_scan _ ?P _ _ (printed w ?l)] =>
      destruct (checkTaskProjects_scan_agree taskDir P taskNames true
                  (printed w l) (printed w' l)) as (o & lines & E & E')
  end.
  { intros n Hn. apply (Hfiles taskNames n eq_refl Hn). }
  rewrite E, E'. split; reflexivity.
Qed.

End IntegrityWhole.

(** ** A bootstrap that fails *)

Section InitFailure.

Context {Ext : Type}.
Variable lib : SyncLib Ext.
Variable os : Os Ext.
Implicit Types (w : World Ext) (self : SyncManager Ext).

(** X15. [initDumpRepository()] does not clean up after itself: when
    [os.makedirs] has made the dump directory and the initialisation of the
    VCS fails, the exception is raised with nothing else called, the
    directory is not removed; and as long as [os.path.exists] finds the
    directory, calling [initDumpRepository()] again fails its assertion. *)
Theorem initDumpRepository_no_cleanup self w r1 e r2 :
  let d := _dumpDir self in
  path_exists os d (repo w) = false ->
  makedirs os d (repo w) = (Ok tt, r1) ->
  vcs_init (vcsImpl self) r1 = (Raise e, r2) ->
  let w' := mkWorld r2 (log w ++ [Makedirs d; VcsInit]) (stdout w) in
  initDumpRepository lib os self w = (Raise e, w')
  /\ (path_exists os d r2 = true ->
      initDumpRepository lib os self w'
      = (Raise (AssertionError ("Dump dir " ++ d ++ " should not already exist")), w')).
Proof.
  intros d Hno Hmake Hinit w'.
  split; [| intros Hex; apply (initDumpRepository_exists lib os self w'); exact Hex].
  rewrite (initDumpRepository_steps lib os self w Hno). fold d.
  unfold os_makedirs, init.
  run_with Hmake. run_with Hinit. unfold w'. norm_log. reflexivity.
Qed.

End InitFailure.

(** ** Failures are reported, merges can be undone *)

Section Reporting.

Context {Ext : Type}.
Variable VERSION : Z.
Variable lib : SyncLib Ext.
Implicit Types (w : World Ext) (self : SyncManager Ext).

Lemma pull_False_reported self w w' :
  pull VERSION lib self w = (Ok false, w') ->
  exists msg, last (log w') = Some (ReportError msg).
Proof.
  unfold pull. intros H.
  apply bind_Ok_inv in H as (? & ? & _ & H).
  apply bind_Ok_inv in H as (? & ? & _ & H).
  apply bind_Ok_inv in H as (? & ? & _ & H).
  apply bind_Ok_inv in H as (? & ? & _ & H).
  apply bind_Ok_inv in H as (? & ? & _ & H).
  apply bind_Ok_inv in H as (ok & w1 & Hgate & H).
  destruct ok; cbn [negb] in H.
  - apply pull_merge_Ok_inv in H as [? _]. discriminate.
  - injection H as <-.
    destruct (checkDumpVersion_false_inv VERSION lib self _ _ Hgate)
      as (R & r2 & _ & [[_ ->] | [_ (r3 & _ & ->)]]); cbn [log]; eexists; rewrite last_app_cons; reflexivity.
Qed.

Lemma sync_iteration_False_reported self w w' :
  sync_iteration VERSION lib self w = (Ok (Return false), w') ->
  exists msg, last (log w') = Some (ReportError msg).
Proof.
  unfold sync_iteration. intros H.
  apply bind_Ok_inv in H as (ok & w1 & Hpull & H).
  destruct ok; cbn [negb] in H.
  - apply bind_Ok_inv in H as (c & w2 & _ & H).
    destruct c; cbn [negb] in H; [| discriminate].
    apply bind_Ok_inv in H as ([] & [r l s] & _ & H).
    destruct (vcs_push (vcsImpl self) r) as [o r3] eqn:Hpush.
    rewrite (sync_push_run self _ _ _ _ _ Hpush) in H.
    destruct o as [[]|[]]; try discriminate.
    injection H as <-. cbn [log]. eexists. rewrite last_app_cons. reflexivity.
  - injection H as <-. apply (pull_False_reported self w w1 Hpull).
Qed.

Lemma sync_loop_False_reported self fuel :
  forall w w',
    sync_loop VERSION lib fuel self w = (Ok (Some false), w') ->
    exists msg, last (log w') = Some (ReportError msg).
Proof.
  induction fuel as [|fuel IH]; intros w w' H; [discriminate|].
  rewrite sync_loop_step in H.
  destruct (sync_iteration VERSION lib self w) as [[[| |b]|e] w1] eqn:Hit;
    try discriminate.
  - apply (IH w1 w' H).
  - injection H as -> <-. apply (sync_iteration_False_reported self w w1 Hit).
Qed.

(** X16. [sync] never returns [False] in silence: whatever the
    collaborators do, when [sync] returns [False] its last call reported an
    error, that of the version gate or that of the failed push. *)
Theorem sync_False_reported self fuel w w' :
  sync VERSION lib fuel self w = (Ok (Some false), w') ->
  exists msg, last (log w') = Some (ReportError msg).
Proof.
  unfold sync. intros H.
  apply bind_Ok_inv in H as ([] & w1 & _ & H).
  apply (sync_loop_False_reported self fuel w1 w' H).
Qed.

(** X17. A merge operation that failed can be undone.  When the body of
    the operation raises and leaves the checkpoint tag alone, the operation
    raises too, and [abortMerge()] then brings back the history the
    operation started from and its tree, and ends the merge in progress. *)
Theorem abortMerge_after_failure {A} self (body : M Ext A) w e w2 :
  body (tagged w) = (Raise e, w2) ->
  tags (repo w2) !! BEFORE_MERGE_TAG = tags (repo (tagged w)) !! BEFORE_MERGE_TAG ->
  exists w',
    _mergeOperation self body w = (Raise e, w2)
    /\ abortMerge self w2 = (Ok tt, w')
    /\ history (repo w') = history (repo w)
    /\ fs (repo w') = tree_of (history (repo w))
    /\ merge_in_progress self w' false.
Proof.
  intros Hbody Hkeep.
  assert (tags (repo w2) !! BEFORE_MERGE_TAG = Some (history (repo w))) as Ht.
  { rewrite Hkeep. unfold tagged. cbn. apply lookup_insert_eq. }
  eexists. split; [| split; [apply (abortMerge_run self w2 _ Ht) |]].
  - apply mergeOperation_Raise; exact Hbody.
  - split; [reflexivity|]. split; [reflexivity | apply untagged_not_in_progress].
Qed.

End Reporting.

(** ** More of the engine on the stub *)

Section MoreWitnesses.

Import Stub Samples Cases.

Lemma pull_merge_imports_changes_witness :
  pull_merge lib manager incoming_world
  = (Ok true,
     untagged (mkWorld (repo (tagged incoming_world))
                 [CreateTag BEFORE_MERGE_TAG; Merge; HasTag BEFORE_MERGE_TAG;
                  GetChangesSince BEFORE_MERGE_TAG; ReportProgress "Importing changes";
                  ImportSince BEFORE_MERGE_TAG] [])).
Proof.
  exact (proj1 (proj1 (pull_merge_imports_changes lib manager incoming_world
                         (repo (tagged incoming_world)) eq_refl
                         (ex_intro _ [] eq_refl))
                  (repo (tagged incoming_world)) eq_refl)
           (repo (tagged incoming_world)) eq_refl).
Defined.

Lemma pull_merge_failure_witness :
  pull_merge failing_merge manager quiet_world
  = (Raise (OtherError "conflict"),
     mkWorld (repo (tagged quiet_world)) [CreateTag BEFORE_MERGE_TAG; Merge] []).
Proof.
  exact (proj1 (pull_merge_failure failing_merge manager quiet_world)
           (OtherError "conflict") (repo (tagged quiet_world)) eq_refl).
Defined.

Lemma pull_True_merge_completed_witness :
  last (log contended_pulled) = Some (DeleteTag BEFORE_MERGE_TAG)
  /\ merge_in_progress manager contended_pulled false.
Proof.
  exact (pull_True_merge_completed 2 lib manager contended contended_pulled eq_refl).
Defined.

Lemma sync_commits_first_witness :
  sync 2 lib 1 manager dirty
  = sync_loop 2 lib 1 manager
      (mkWorld (vcs_commitAll (vcs "/dump") "s_sync" (repo dirty)).2
         [IsWorkTreeClean; ReportProgress "Committing local changes"; CommitAll "s_sync"] []).
Proof.
  exact (proj1 (proj2 (sync_commits_first 2 lib manager 1 dirty) (repo dirty) eq_refl)
           (vcs_commitAll (vcs "/dump") "s_sync" (repo dirty)).2 eq_refl).
Defined.

Lemma no_session_guards_witness :
  pull 2 lib guest quiet_world = (Raise (AssertionError ""), quiet_world)
  /\ importAll lib guest quiet_world = (Raise (AssertionError ""), quiet_world)
  /\ dump lib guest quiet_world = (Raise (AssertionError ""), quiet_world)
  /\ checkDumpIntegrity order guest quiet_world = (Raise (AssertionError ""), quiet_world)
  /\ sync 2 lib 1 guest dirty
     = (Raise (AssertionError ""),
        mkWorld (vcs_commitAll (vcs "/dump") "s_sync" (repo dirty)).2
          [IsWorkTreeClean; ReportProgress "Committing local changes"; CommitAll "s_sync"] []).
Proof.
  destruct (no_session_guards 2 lib order guest quiet_world eq_refl)
    as (H1 & H2 & H3 & H4 & _).
  repeat (split; [assumption|]).
  exact (proj2 (proj2 (proj2 (proj2 (no_session_guards 2 lib order guest dirty eq_refl))))
           0%nat (repo dirty) (vcs_commitAll (vcs "/dump") "s_sync" (repo dirty)).2
           eq_refl eq_refl).
Defined.

Lemma sync_push_outcomes_witness :
  sync_loop 2 lib 1 manager disk_full
  = (Raise (OtherError "disk full"),
     mkWorld (vcs_push (vcs "/dump") (repo disk_full)).2
       (log disk_full_pulled
        ++ [GetChangesSince "origin/master"; ReportProgress "Pushing local changes"; Push])
       []).
Proof.
  refine (proj2 (sync_push_outcomes 2 lib manager 0 disk_full disk_full_pulled
                   (repo disk_full) eq_refl eq_refl)
            (OtherError "disk full") (vcs_push (vcs "/dump") (repo disk_full)).2
            eq_refl _ _); intros; discriminate.
Defined.

Lemma checkItems_unreadable_entry_witness :
  _checkItems order manager "tasks" Task (world broken_then_dangling no_rows quiet)
  = (Raise (JSONDecodeError "/dump/tasks/t0.json"),
     printed (world broken_then_dangling no_rows quiet) ["# Checking all tasks are there"]).
Proof.
  refine (checkItems_unreadable_entry order manager (world broken_then_dangling no_rows quiet)
            "tasks" Task [] "t0.json" ["t1.json"] (JSONDecodeError "/dump/tasks/t0.json")
            eq_refl _ eq_refl eq_refl).
  intros n Hn. apply elem_of_nil in Hn. contradiction.
Defined.

Lemma checkItems_uuid_not_a_string_witness :
  exists msg,
    _checkItems order manager "projects" Project (world numbered_project no_rows quiet)
    = (Raise (TypeError msg),
       printed (world numbered_project no_rows quiet) ["# Checking all projects are there"]).
Proof.
  refine (checkItems_uuid_not_a_string order manager (world numbered_project no_rows quiet)
            "projects" Project ["p1.json"] (fun _ => KInt 7) "p1.json"
            eq_refl eq_refl _ _ _).
  - intros name Hn _. apply list_elem_of_singleton in Hn. subst name. reflexivity.
  - apply list_elem_of_singleton. reflexivity.
  - intros s. discriminate.
Defined.

Lemma checkDumpIntegrity_stops_at_conflict_witness :
  checkDumpIntegrity order manager twin_world
  = (Raise (TypeError "list indices must be integers or slices, not str"),
     printed twin_world
       ["# Checking all projects are there"; "# Checking all tasks are there";
        "# Checking all aliases are there"; "# Checking projects unicity";
        "## work exists 2 times"]).
Proof.
  exact (checkDumpIntegrity_stops_at_conflict order manager twin_world
           (printed twin_world ["# Checking all projects are there"])
           (printed twin_world ["# Checking all projects are there";
                                "# Checking all tasks are there"])
           (printed twin_world ["# Checking all projects are there";
                                "# Checking all tasks are there";
                                "# Checking all aliases are there"])
           (OStr "work") (work "p1") [work "p2"] []
           eq_refl eq_refl eq_refl eq_refl eq_refl).
Defined.

Lemma checkTaskProjects_report_witness :
  _checkTaskProjects manager (world one_dangling no_rows quiet)
  = (Ok tt,
     printed (world one_dangling no_rows quiet)
       ["# Checking all tasks have an existing project"; NON_EXISTING;
        "/dump/tasks/t1.json"]).
Proof.
  refine (checkTaskProjects_report manager (world one_dangling no_rows quiet)
            ["p1.json"] ["t0.json"; "t1.json"] eq_refl eq_refl _).
  intros n Hn. apply list_elem_of_In in Hn.
  destruct Hn as [<-|[<-|[]]]; eexists; reflexivity.
Defined.

Lemma checkTaskProjects_ignores_project_files_witness :
  (_checkTaskProjects manager (world one_dangling_broken_project no_rows quiet)).1
  = (_checkTaskProjects manager (world one_dangling no_rows quiet)).1
  /\ stdout (_checkTaskProjects manager (world one_dangling_broken_project no_rows quiet)).2
     = stdout (_checkTaskProjects manager (world one_dangling no_rows quiet)).2.
Proof.
  refine (checkTaskProjects_ignores_project_files manager (world one_dangling no_rows quiet)
            one_dangling_broken_project eq_refl eq_refl _).
  intros names n Hdir Hn. injection Hdir as <-. apply list_elem_of_In in Hn.
  destruct Hn as [<-|[<-|[]]]; reflexivity.
Defined.

Lemma initDumpRepository_no_cleanup_witness :
  initDumpRepository lib os (mkSyncManager no_init "/dump" true) quiet_world
  = (Raise (VcsImplError "git not found"), mkWorld made [Makedirs "/dump"; VcsInit] [])
  /\ initDumpRepository lib os (mkSyncManager no_init "/dump" true)
       (mkWorld made [Makedirs "/dump"; VcsInit] [])
     = (Raise (AssertionError "Dump dir /dump should not already exist"),
        mkWorld made [Makedirs "/dump"; VcsInit] []).
Proof.
  destruct (initDumpRepository_no_cleanup lib os (mkSyncManager no_init "/dump" true)
              quiet_world made (VcsImplError "git not found") made
              eq_refl eq_refl eq_refl) as [H1 H2].
  split; [exact H1 | exact (H2 eq_refl)].
Defined.

Lemma sync_False_reported_witness :
  exists msg,
    last [IsWorkTreeClean; IsWorkTreeClean; ReportProgress "Pulling remote changes"; Fetch;
          GetRemoteDumpVersion; ReportError (upgrade_needed_msg 2 3)]
    = Some (ReportError msg).
Proof.
  exact (sync_False_reported 2 lib manager 1 upgrade
           (mkWorld (repo upgrade)
              [IsWorkTreeClean; IsWorkTreeClean; ReportProgress "Pulling remote changes"; Fetch;
               GetRemoteDumpVersion; ReportError (upgrade_needed_msg 2 3)] [])
           eq_refl).
Defined.

Lemma abortMerge_after_failure_witness :
  exists w',
    _mergeOperation manager (raise (A := unit) (OtherError "conflict")) quiet_world
    = (Raise (OtherError "conflict"), tagged quiet_world)
    /\ abortMerge manager (tagged quiet_world) = (Ok tt, w')
    /\ history (repo w') = history (repo quiet_world)
    /\ fs (repo w') = tree_of (history (repo quiet_world))
    /\ merge_in_progress manager w' false.
Proof.
  exact (abortMerge_after_failure manager (raise (A := unit) (OtherError "conflict"))
           quiet_world (OtherError "conflict") (tagged quiet_world) eq_refl eq_refl).
Defined.

End MoreWitnesses.
